(** * Chess position preprocessing and balancing: a shallow embedding

    The development follows the scripts of the repository:

    - [Preprocesamiento/data processing.py]: [parse_fen], [parse_evaluation]
      and the chunked driver [process_chess_data];
    - [Filtrado balanceado y normalizado/data filter balance normalize.py]:
      [filter_balance_normalize_data];
    - [Filtrado balanceado y normalizado/data filter balance no normalize.py]:
      [filter_balance_data_no_normalize];
    - [Analisis de datos/data analysis.py] and
      [Analisis de datos/data analysis balanced.py]: the numbers
      [generate_histograms] and [analyze_balanced_data] print.

    Python integers are [Z], a Python [str] is the list of its Unicode
    code points, and a cell of the input file is a [str] or a value of
    another type, as [pd.read_csv] delivers it.  A DataFrame of numbers is
    the list of its rows in index order, and a row is the list of its
    integer cells in the column order of [OUTPUT_COLUMNS].  Text written
    with [print] is kept as a list of log records; exceptions and the
    early [return]s of the balancing scripts are values of [outcome] and
    [result]. *)

From Stdlib Require Import ZArith QArith String Ascii Lia.
From stdpp Require Import base list sorting strings gmap.

Open Scope Z_scope.

(** ** Python built-ins used by the scripts *)

(** A [str] read from the input is the list of its Unicode code points.
    The names the scripts spell out themselves (column names, piece
    symbols) are ASCII and are kept as [string]s; [text] reads such a
    literal as a [str]. *)
Abbreviation str := (list N) (only parsing).

Definition ord (c : ascii) : N := N_of_ascii c.
Arguments ord : simpl never.

Definition text (s : string) : str := map ord (list_ascii_of_string s).

(** [c.isspace()]: TAB, LF, VT, FF, CR, the separators FS, GS, RS, US,
    the space, NEL (U+0085), the no-break space (U+00A0), the Ogham space
    mark (U+1680), the spaces U+2000 to U+200A, the line and paragraph
    separators (U+2028, U+2029), the narrow no-break space (U+202F), the
    medium mathematical space (U+205F) and the ideographic space
    (U+3000). *)
Definition isspace (c : N) : bool :=
  (((9 <=? c) && (c <=? 13)) || ((28 <=? c) && (c <=? 32))
   || (c =? 0x85) || (c =? 0xA0) || (c =? 0x1680)
   || ((0x2000 <=? c) && (c <=? 0x200A))
   || (c =? 0x2028) || (c =? 0x2029) || (c =? 0x202F) || (c =? 0x205F)
   || (c =? 0x3000))%N.

(** The characters [space] holds of, removed at the left end and at the
    right end. *)
Fixpoint lstrip (space : N -> bool) (s : str) : str :=
  match s with
  | c :: s' => if space c then lstrip space s' else s
  | [] => []
  end.

Fixpoint rstrip (space : N -> bool) (s : str) : str :=
  match s with
  | c :: s' =>
      match rstrip space s' with
      | [] => if space c then [] else [c]
      | kept => c :: kept
      end
  | [] => []
  end.

(** [s.strip()]: whitespace removed at both ends. *)
Definition strip (s : str) : str := rstrip isspace (lstrip isspace s).

(** [s.startswith(p)]. *)
Fixpoint startswith (p s : str) : bool :=
  match p, s with
  | [], _ => true
  | a :: p', b :: s' => (a =? b)%N && startswith p' s'
  | _ :: _, [] => false
  end.

Inductive exception : Type :=
  | ValueError
  | IndexError
  | ZeroDivisionError
  | AttributeError.

(** A call returns a value or raises an exception. *)
Inductive outcome (A : Type) : Type :=
  | Returns (a : A)
  | Raises (e : exception).
Arguments Returns {A} a.
Arguments Raises {A} e.

(** The Unicode property table of the interpreter: [Py_UNICODE_TODECIMAL]
    is the value of a character that is a decimal digit.  The table grows
    with the Unicode version of the interpreter; it is a parameter of the
    development.  [int] consults it beyond ASCII only. *)
Class UnicodeData : Type := {
  Py_UNICODE_TODECIMAL : N -> option Z
}.

(** [sys.get_int_max_str_digits()]: the default of CPython, which the
    scripts leave alone. *)
Definition int_max_str_digits : nat := 4300.

Section int.
Context {unicode : UnicodeData}.

(** [int(s)] first rewrites [s] to ASCII: an ASCII character stays, a
    whitespace character beyond ASCII becomes a space, a decimal digit
    becomes its ASCII digit, and any other character makes the literal
    invalid.  [digit_of c] is the digit that [c] is read as. *)
Definition digit_of (c : N) : option Z :=
  if (c <? 128)%N then
    if ((48 <=? c) && (c <=? 57))%N then Some (Z.of_N c - 48) else None
  else if isspace c then None
  else Py_UNICODE_TODECIMAL c.

(** The whitespace [int] skips at both ends of the rewritten string: TAB,
    LF, VT, FF, CR and the space.  The separators FS, GS, RS and US are
    no whitespace to [int]. *)
Definition int_isspace (c : N) : bool :=
  (((9 <=? c) && (c <=? 13)) || (c =? 32) || ((128 <=? c) && isspace c))%N.

(** The digit part of an [int] literal: decimal digits, where a single
    underscore may stand between two digits.  [prev] tells whether the
    previous character was a digit. *)
Fixpoint int_digits (s : str) (acc : Z) (prev : bool) : option Z :=
  match s with
  | [] => if prev then Some acc else None
  | c :: s' =>
      match digit_of c with
      | Some d => int_digits s' (10 * acc + d) true
      | None =>
          if (c =? ord "_")%N then
            (if prev then int_digits s' acc false else None)
          else None
      end
  end.

(** The number of digits of a literal, underscores not counted. *)
Definition count_digits (s : str) : nat :=
  length (filter (fun c => is_Some (digit_of c)) s).

(** [int(s)] in base 10: [None] stands for [ValueError], which is also
    what a literal of more than [int_max_str_digits] digits raises. *)
Definition python_int (s : str) : option Z :=
  let s := rstrip int_isspace (lstrip int_isspace s) in
  let '(sign, digits) :=
    match s with
    | c :: s' =>
        if (c =? ord "+")%N then (1, s')
        else if (c =? ord "-")%N then (-1, s')
        else (1, s)
    | [] => (1, s)
    end in
  match int_digits digits 0 false with
  | Some v =>
      if (count_digits digits <=? int_max_str_digits)%nat
      then Some (sign * v) else None
  | None => None
  end.

End int.

(** A table that knows the Arabic-Indic digits U+0660 to U+0669 alone;
    it stands for the interpreter's table in the examples. *)
Definition arabic_indic_digits : UnicodeData := {|
  Py_UNICODE_TODECIMAL := fun c =>
    if ((0x660 <=? c) && (c <=? 0x669))%N then Some (Z.of_N c - 0x660)
    else None
|}.

(** ** Preprocesamiento/data processing.py *)

(** A cell of a chunk that [pd.read_csv] yields.  pandas types every
    column chunk by chunk: a cell is a [str], or a value of another type
    (a numpy integer, float or bool when every field of the column in the
    chunk reads as one; the float [nan] for a field that is empty or
    spells a missing value such as [NA] or [null]).  The script passes a
    cell to [chess.Board] and to [str] only, so a value that is no [str]
    is kept by the text [str] returns for it. *)
Inductive cell : Type :=
  | Text (s : str)
  | NotText (repr : str).

(** The float [nan]: what an empty field is read as. *)
Definition nan : cell := NotText (text "nan").

(** [isinstance(x, str)]. *)
Definition is_text (x : cell) : bool :=
  match x with
  | Text _ => true
  | NotText _ => false
  end.

(** [str(x)]. *)
Definition str_of (x : cell) : str :=
  match x with
  | Text s => s
  | NotText repr => repr
  end.

(** Lines written to standard output. *)
Inductive stdout_line : Type :=
  | InvalidFenWarning (fen_string : str)
  | UnexpectedCheckmateWarning (eval_string : str)
  | CouldNotParseWarning (eval_string : str)
  | StartingProcessing
  | ProcessingChunk (i : nat) (first_row last_row : Z)
  | FinishedChunk (i : nat) (total : Z)
  | ProcessingComplete.

Definition PIECE_MAPPING : gmap string Z :=
  list_to_map
    [("P"%string, 1); ("N"%string, 2); ("B"%string, 3);
     ("R"%string, 4); ("Q"%string, 5); ("K"%string, 6);
     ("p"%string, -1); ("n"%string, -2); ("b"%string, -3);
     ("r"%string, -4); ("q"%string, -5); ("k"%string, -6)].

(** [chess.WHITE] is [True] and [chess.BLACK] is [False]. *)
Definition WHITE : bool := true.
Definition BLACK : bool := false.

(** What [parse_fen] reads from a [chess.Board]. *)
Record Board : Type := {
  piece_at : nat -> option string;
  turn : bool;
  has_kingside_castling_rights : bool -> bool;
  has_queenside_castling_rights : bool -> bool;
  ep_square : option nat;
  halfmove_clock : Z;
  fullmove_number : Z
}.

(** [chess.SQUARES]: the indices from A1 (0) to H8 (63). *)
Definition SQUARES : list nat := seq 0 64.

(** [chess.square_name]: file letter, then rank digit. *)
Definition square_name (i : nat) : string :=
  String (ascii_of_nat (97 + i mod 8)) (String (ascii_of_nat (49 + i / 8)) EmptyString).

Definition SQUARE_COLUMNS : list string := map square_name SQUARES.

Definition OUTPUT_COLUMNS : list string :=
  SQUARE_COLUMNS ++
  ["is_white_to_move"; "is_black_to_move";
   "white_kingside_castling"; "white_queenside_castling";
   "black_kingside_castling"; "black_queenside_castling";
   "en_passant_available";
   "halfmove_clock";
   "fullmove_counter";
   "evaluation"]%string.

Definition parse_evaluation `{UnicodeData} (eval_string : cell)
  : Z * list stdout_line :=
  let eval_string := strip (str_of eval_string) in
  if startswith (text "#") eval_string then
    if startswith (text "#+") eval_string then (20000, [])
    else if startswith (text "#-") eval_string then (-20000, [])
    else (0, [UnexpectedCheckmateWarning eval_string])
  else
    match python_int eval_string with
    | Some v => (v, [])
    | None => (0, [CouldNotParseWarning eval_string])
    end.

Section Preprocessing.
Context {unicode : UnicodeData}.

(** [chess.Board(fen)] of the python-chess library on a [str]: [None]
    stands for the [ValueError] it raises on an invalid FEN string. *)
Variable chess_Board : str -> option Board.

(** [chess.Board(fen)] on a cell: the constructor calls [fen.split()],
    which a value that is no [str] does not have. *)
Definition chess_Board_of (fen : cell) : outcome Board :=
  match fen with
  | Text fen =>
      match chess_Board fen with
      | Some board => Returns board
      | None => Raises ValueError
      end
  | NotText _ => Raises AttributeError
  end.

(** [parse_fen] catches [ValueError] alone; any other exception of
    [chess.Board] leaves the function. *)
Definition parse_fen (fen_string : cell) : outcome (list Z) * list stdout_line :=
  match chess_Board_of fen_string with
  | Raises ValueError =>
      let empty_board_state := replicate 64 0 in
      (Returns (empty_board_state ++ [0; 0; 0; 0; 0; 0; 0; 0; 0]),
       [InvalidFenWarning (str_of fen_string)])
  | Raises e => (Raises e, [])
  | Returns board =>
      let board_state :=
        foldl (fun board_state i =>
                 match piece_at board i with
                 | Some symbol =>
                     <[i := default 0 (PIECE_MAPPING !! symbol)]> board_state
                 | None => board_state
                 end)
              (replicate 64 0) SQUARES in
      let is_white_to_move := if Bool.eqb (turn board) WHITE then 1 else 0 in
      let is_black_to_move := if Bool.eqb (turn board) BLACK then 1 else 0 in
      let white_kingside_castling :=
        if has_kingside_castling_rights board WHITE then 1 else 0 in
      let white_queenside_castling :=
        if has_queenside_castling_rights board WHITE then 1 else 0 in
      let black_kingside_castling :=
        if has_kingside_castling_rights board BLACK then 1 else 0 in
      let black_queenside_castling :=
        if has_queenside_castling_rights board BLACK then 1 else 0 in
      let en_passant_available :=
        match ep_square board with Some _ => 1 | None => 0 end in
      (Returns
         (board_state ++
          [is_white_to_move; is_black_to_move;
           white_kingside_castling; white_queenside_castling;
           black_kingside_castling; black_queenside_castling;
           en_passant_available;
           halfmove_clock board;
           fullmove_number board]),
       [])
  end.

(** [column.apply(parse_fen).tolist()]: the cells are decoded in row
    order; the first exception ends the pass, after the warnings printed
    up to it. *)
Fixpoint apply_parse_fen (column : list cell)
  : outcome (list (list Z)) * list stdout_line :=
  match column with
  | [] => (Returns [], [])
  | fen_string :: column' =>
      match parse_fen fen_string with
      | (Returns features, warnings) =>
          match apply_parse_fen column' with
          | (Returns fen_features_list, warnings') =>
              (Returns (features :: fen_features_list), warnings ++ warnings')
          | (Raises e, warnings') => (Raises e, warnings ++ warnings')
          end
      | (Raises e, warnings) => (Raises e, warnings)
      end
  end.

(** The row written for one input record: the decoded position, then the
    parsed evaluation. *)
Definition feature_record (r : cell * cell) : outcome (list Z) :=
  match fst (parse_fen (fst r)) with
  | Returns features => Returns (features ++ [fst (parse_evaluation (snd r))])
  | Raises e => Raises e
  end.

(** One chunk of [process_chess_data]: the FEN column is decoded first,
    then the evaluation column, and the two are joined column-wise.  On a
    chunk without rows the joined frame has the evaluation column alone,
    and naming its columns by [OUTPUT_COLUMNS] raises [ValueError]. *)
Definition process_chunk (chunk : list (cell * cell))
  : outcome (list (list Z)) * list stdout_line :=
  match apply_parse_fen (map fst chunk) with
  | (Returns fen_features_list, fen_warnings) =>
      let evaluations := map (fun r => parse_evaluation (snd r)) chunk in
      let warnings := fen_warnings ++ concat (map snd evaluations) in
      match chunk with
      | [] => (Raises ValueError, warnings)
      | _ =>
          (Returns (zip_with (fun f e => f ++ [fst e])
                             fen_features_list evaluations),
           warnings)
      end
  | (Raises e, fen_warnings) => (Raises e, fen_warnings)
  end.

(** The output file: the header line, written with the first chunk, and
    the data rows appended chunk by chunk. *)
Record csv_file : Type := {
  csv_header : list string;
  csv_rows : list (list Z)
}.

(** How a run of the script ends: the exception that stopped it, if any,
    the output file as it stands and the lines printed. *)
Record run : Type := {
  raised : option exception;
  output_file : option csv_file;
  stdout : list stdout_line
}.

Fixpoint process_chunks (i : nat) (chunk_size : nat)
    (chunks : list (list (cell * cell)))
    (output_file : option csv_file) (out : list stdout_line) : run :=
  match chunks with
  | [] => {| raised := None; output_file := output_file; stdout := out |}
  | chunk :: rest =>
      let start := [ProcessingChunk (i + 1)
                      (Z.of_nat i * Z.of_nat chunk_size + 1)
                      ((Z.of_nat i + 1) * Z.of_nat chunk_size)] in
      match process_chunk chunk with
      | (Returns processed_chunk, warnings) =>
          let written :=
            match output_file with
            | None => {| csv_header := OUTPUT_COLUMNS;
                         csv_rows := processed_chunk |}
            | Some f => {| csv_header := csv_header f;
                           csv_rows := csv_rows f ++ processed_chunk |}
            end in
          let finish := [FinishedChunk (i + 1)
                           (Z.of_nat (length processed_chunk)
                            + Z.of_nat i * Z.of_nat chunk_size)] in
          process_chunks (S i) chunk_size rest (Some written)
                         (out ++ start ++ warnings ++ finish)
      | (Raises e, warnings) =>
          {| raised := Some e; output_file := output_file;
             stdout := out ++ start ++ warnings |}
      end
  end.

(** [process_chess_data].  The input file is kept by the chunks
    [pd.read_csv(input_file, chunksize=chunk_size)] yields from it: a
    file with the columns [FEN] and [Evaluation], each record a pair of
    cells.  A file with the header line alone yields one chunk without
    rows. *)
Definition process_chess_data (input_file : nat -> list (list (cell * cell)))
    (chunk_size : nat) : run :=
  let r := process_chunks 0 chunk_size (input_file chunk_size)
                          None [StartingProcessing] in
  match raised r with
  | None => {| raised := None; output_file := output_file r;
               stdout := stdout r ++ [ProcessingComplete] |}
  | Some _ => r
  end.

End Preprocessing.

(** The data rows of the output file written so far. *)
Definition rows_written (output_file : option csv_file) : list (list Z) :=
  match output_file with
  | None => []
  | Some f => csv_rows f
  end.

(** A decoder that knows the starting position alone; it instantiates
    [chess.Board] in the examples below. *)
Definition STARTING_FEN : str :=
  text "rnbqkbnr/pppppppp/8/8/8/8/PPPPPPPP/RNBQKBNR w KQkq - 0 1".

Definition starting_board : Board := {|
  piece_at := fun i =>
    match (i / 8)%nat with
    | 0%nat => ["R"; "N"; "B"; "Q"; "K"; "B"; "N"; "R"]%string !! (i mod 8)%nat
    | 1%nat => Some "P"%string
    | 6%nat => Some "p"%string
    | 7%nat => ["r"; "n"; "b"; "q"; "k"; "b"; "n"; "r"]%string !! (i mod 8)%nat
    | _ => None
    end;
  turn := WHITE;
  has_kingside_castling_rights := fun _ => true;
  has_queenside_castling_rights := fun _ => true;
  ep_square := None;
  halfmove_clock := 0;
  fullmove_number := 1
|}.

Definition starting_position_only (fen_string : str) : option Board :=
  if bool_decide (fen_string = STARTING_FEN) then Some starting_board else None.

(** ** Tables, results and the random source *)

(** A row of [processed_chess_positions.csv]: one integer per column of
    [OUTPUT_COLUMNS].  A DataFrame is the list of its rows. *)
Abbreviation row := (list Z) (only parsing).
Abbreviation DataFrame := (list (list Z)) (only parsing).

Definition column_index (name : string) : nat :=
  match list_find (fun c => c = name) OUTPUT_COLUMNS with
  | Some (i, _) => i
  | None => length OUTPUT_COLUMNS
  end.

(** [df[name]] read at one row. *)
Definition col (name : string) (r : row) : Z :=
  default 0 (r !! column_index name).

Definition is_white_to_move (r : row) : Z := col "is_white_to_move" r.
Definition fullmove_counter (r : row) : Z := col "fullmove_counter" r.
Definition evaluation (r : row) : Z := col "evaluation" r.

(** The messages printed before an early [return]. *)
Inductive exit_message : Type :=
  | InputNotLoaded
  | NoPositionsAfterMoveFilter
  | NoCentipawnsAfterCheckmateSeparation
  | NoCentipawnsAfterExtremeFilter
  | PrimaryGroupsEmpty
  | NoEvaluationBins.

(** How a run of a balancing script ends: the table it saves, an early
    [return] after a message (nothing is saved), or an exception. *)
Inductive result (A : Type) : Type :=
  | Saved (a : A)
  | Exited (m : exit_message)
  | Raised (e : exception).
Arguments Saved {A} a.
Arguments Exited {A} m.
Arguments Raised {A} e.

(** [float('inf')] or an integer count. *)
Inductive count : Type :=
  | Infinity
  | Finite (n : Z).

(** [len(group) < c]: every length is below [float('inf')]. *)
Definition len_lt (len : nat) (c : count) : bool :=
  match c with Infinity => true | Finite n => Z.of_nat len <? n end.

(** ** numpy and pandas operations *)

Module np.

(** [np.arange(start, stop, step)] on integers:
    [ceil((stop - start) / step)] values, none when that is negative. *)
Definition arange (start stop step : Z) : result (list Z) :=
  if step =? 0 then Raised ZeroDivisionError
  else
    let n := Z.to_nat (- ((start - stop) / step)) in
    Saved (map (fun i => start + Z.of_nat i * step) (seq 0 n)).

(** [a.searchsorted(v, side='right')] on a sorted array: the number of
    elements that are at most [v]. *)
Definition searchsorted_right (a : list Z) (v : Z) : nat :=
  length (filter (fun b => b <= v) a).

End np.

Module pd.

(** [Series.min()] and [Series.max()]; [None] on an empty column. *)
Definition min (x : list Z) : option Z :=
  match x with
  | [] => None
  | v :: x' => Some (foldl Z.min v x')
  end.
Definition max (x : list Z) : option Z :=
  match x with
  | [] => None
  | v :: x' => Some (foldl Z.max v x')
  end.

Fixpoint is_monotonic_increasing (bins : list Z) : bool :=
  match bins with
  | a :: (b :: _) as rest => (a <=? b) && is_monotonic_increasing rest
  | _ => true
  end.

(** The label of one value in
    [pd.cut(x, bins, labels=False, include_lowest=True, right=False)]:
    [ids] counts the edges at most [v]; a value below the first edge or
    at or above the last edge has no label (NaN). *)
Definition cut_label (bins : list Z) (lowest : Z) (v : Z) : option Z :=
  let ids := np.searchsorted_right bins v in
  let ids := if v =? lowest then 1%nat else ids in
  if (ids =? length bins)%nat || (ids =? 0)%nat then None
  else Some (Z.of_nat ids - 1).

Definition cut (x : list Z) (bins : list Z) : result (list (option Z)) :=
  if negb (is_monotonic_increasing bins) then Raised ValueError
  else if (length (remove_dups bins) <? length bins)%nat
          && negb (length bins =? 2)%nat then Raised ValueError
  else
    match bins with
    | [] => Raised IndexError
    | lowest :: _ => Saved (map (cut_label bins lowest) x)
    end.

(** The values of a column in the order of their first appearance. *)
Definition unique {A} `{EqDecision A} (x : list A) : list A :=
  reverse (remove_dups (reverse x)).

(** A count placed behind the counts that are at least as large. *)
Fixpoint insert_count (c : Z * nat) (sorted : list (Z * nat)) : list (Z * nat) :=
  match sorted with
  | [] => [c]
  | c' :: rest =>
      if (snd c' <? snd c)%nat then c :: sorted else c' :: insert_count c rest
  end.

(** [Series.value_counts()]: each label that occurs (NaN left out) with
    its count, the largest count first; labels with equal counts stay in
    the order of their first appearance (the order numpy's sort gives to
    ties in a large table is not modelled, and nothing below depends on
    it). *)
Definition value_counts (x : list (option Z)) : list (Z * nat) :=
  let labels := unique (omap id x) in
  foldl (fun sorted c => insert_count c sorted) []
    (map (fun l => (l, length (filter (fun v => v = Some l) x))) labels).

(** The order of [groupby] keys: first column, then second. *)
Definition key_le (a b : Z * string) : Prop :=
  fst a < fst b \/ (fst a = fst b /\ String.leb (snd a) (snd b) = true).

#[global] Instance key_le_dec a b : Decision (key_le a b).
Proof. unfold key_le. apply _. Defined.

(** [df.groupby([c1, c2])] iterated: the keys that occur, in sorted
    order, each with its rows in table order. *)
Definition groupby {A} (key : A -> Z * string) (df : list A)
  : list ((Z * string) * list A) :=
  map (fun k => (k, filter (fun r => key r = k) df))
      (merge_sort key_le (remove_dups (map key df))).

(** [df.take(locs)]: the rows at the given positions; a position out of
    range is an [IndexError]. *)
Definition take {A} (df : list A) (locs : list nat) : result (list A) :=
  match mapM (fun i => df !! i) locs with
  | Some rows => Saved rows
  | None => Raised IndexError
  end.

(** [pd.concat(dfs).reset_index(drop=True)]; nothing to concatenate is a
    [ValueError]. *)
Definition concat {A} (dfs : list (list A)) : result (list A) :=
  match dfs with
  | [] => Raised ValueError
  | _ => Saved (List.concat dfs)
  end.

End pd.

(** [MinMaxScaler(feature_range=(-1, 1)).fit_transform] of scikit-learn on
    one column.  The floating-point arithmetic of the library is taken as
    exact rational arithmetic.  A zero range is replaced by 1 before the
    division (the library's [_handle_zeros_in_scale]); an empty column is
    refused with a [ValueError]. *)
Definition MinMaxScaler_fit_transform (X : list Z) : result (list Q) :=
  match pd.min X, pd.max X with
  | Some data_min, Some data_max =>
      let data_range := data_max - data_min in
      let handled := if data_range =? 0 then 1 else data_range in
      let scale_ := (inject_Z (1 - (-1)) / inject_Z handled)%Q in
      let min_ := (inject_Z (-1) - inject_Z data_min * scale_)%Q in
      Saved (map (fun x => (inject_Z x * scale_ + min_)%Q) X)
  | _, _ => Raised ValueError
  end.

(** ** The balancing scripts *)

(** A table row for the examples: an empty board, the side to move, the
    fullmove counter and the evaluation. *)
Definition position_row (white_to_move fullmove eval : Z) : row :=
  replicate 64 0 ++ [white_to_move; 1 - white_to_move; 0; 0; 0; 0; 0; 0; fullmove; eval].

(** numpy's random generator, as far as the scripts use it: the state of a
    generator, [np.random.RandomState(seed)], and
    [rs.choice(population, size=size, replace=False)], which returns the
    drawn positions and the advanced state. *)
Class RandomSource : Type := {
  rng : Type;
  RandomState : Z -> rng;
  choice : rng -> nat -> nat -> list nat * rng
}.

(** The contract of [choice] with [replace=False]: [size] pairwise
    distinct positions below [population]. *)
Definition draws_without_replacement `{RandomSource} : Prop :=
  forall (g : rng) (population size : nat),
    (size <= population)%nat ->
    let locs := fst (choice g population size) in
    length locs = size /\ NoDup locs /\ Forall (fun i => (i < population)%nat) locs.

(** A source that ignores its state and returns the first positions; it
    instantiates the random source in the examples below. *)
Definition first_positions : RandomSource := {|
  rng := unit;
  RandomState := fun _ => tt;
  choice := fun g _ size => (seq 0 size, g)
|}.

(** A source whose draw depends on its state: the positions are rotated by
    the state, and the state advances by one. *)
Definition rotating_positions : RandomSource := {|
  rng := nat;
  RandomState := fun seed => Z.to_nat seed;
  choice := fun g population size =>
              (map (fun i => ((i + g) mod population)%nat) (seq 0 size), S g)
|}.

Section Balancing.

Context `{RandomSource}.

(** A script runs in the state of numpy's global generator, which the
    process seeds from the operating system. *)
Definition M (A : Type) : Type := rng -> result A * rng.

Definition ret {A} (a : A) : M A := fun g => (Saved a, g).

Definition lift {A} (r : result A) : M A := fun g => (r, g).

Definition bind {A B} (m : M A) (k : A -> M B) : M B :=
  fun g =>
    match m g with
    | (Saved a, g') => k a g'
    | (Exited e, g') => (Exited e, g')
    | (Raised e, g') => (Raised e, g')
    end.

Notation "x <- m ; k" := (bind m (fun x => k))
  (at level 20, m at level 100, k at level 200).

(** [print(msg); return] *)
Definition exit {A} (m : exit_message) : M A := lift (Exited m).

(** [df.sample(n=n, random_state=random_state)]: an integer seed makes a
    fresh generator for this one call; without a seed the draw comes from
    the global generator and advances it. *)
Definition sample {A} (df : list A) (n : Z) (random_state : option Z) : M (list A) :=
  fun g =>
    if n <? 0 then (Raised ValueError, g)
    else if Z.of_nat (length df) <? n then (Raised ValueError, g)
    else
      match random_state with
      | Some seed =>
          let '(locs, _) := choice (RandomState seed) (length df) (Z.to_nat n) in
          (pd.take df locs, g)
      | None =>
          let '(locs, g') := choice g (length df) (Z.to_nat n) in
          (pd.take df locs, g')
      end.

Fixpoint mapM_groups {A B} (f : A -> M B) (l : list A) : M (list B) :=
  match l with
  | [] => ret []
  | a :: l' => b <- f a ; bs <- mapM_groups f l' ; ret (b :: bs)
  end.

(** The [win_loss_category] column. *)
Definition win_loss_category (r : row) : string :=
  let category := "neutral" in
  let category := if evaluation r >? 0 then "white_winning" else category in
  let category := if evaluation r <? 0 then "black_winning" else category in
  category.

Definition primary_key (r : row) : Z * string :=
  (is_white_to_move r, win_loss_category r).

(** The first loop over [grouped]: the smallest group size, starting from
    [float('inf')]. *)
Definition min_group_count (grouped : list ((Z * string) * DataFrame)) : count :=
  foldl (fun min_primary_group_count g =>
           if len_lt (length (snd g)) min_primary_group_count
           then Finite (Z.of_nat (length (snd g)))
           else min_primary_group_count)
        Infinity grouped.

(** Step 4, "Categorize and Balance Primary Groups". *)
Definition balance_primary_groups (df_centipawns : DataFrame) : M DataFrame :=
  let grouped := pd.groupby primary_key df_centipawns in
  let min_primary_group_count := min_group_count grouped in
  match min_primary_group_count with
  | Finite 0 => exit PrimaryGroupsEmpty
  | _ =>
      balanced_primary_dfs <-
        mapM_groups
          (fun g : (Z * string) * DataFrame =>
             let group := snd g in
             match min_primary_group_count with
             | Finite n =>
                 if Z.of_nat (length group) >? n
                 then sample group n (Some 42)
                 else ret group
             | Infinity => ret group
             end)
          grouped ;
      lift (pd.concat balanced_primary_dfs)
  end.

(** The bin edges of step 5. *)
Definition eval_bins (evaluations : list Z) (eval_bin_size : Z) : result (list Z) :=
  match pd.min evaluations, pd.max evaluations with
  | Some min_eval_for_bins, Some max_eval_for_bins =>
      np.arange (min_eval_for_bins / eval_bin_size * eval_bin_size)
                (max_eval_for_bins / eval_bin_size * eval_bin_size + eval_bin_size)
                eval_bin_size
  | _, _ => Raised ValueError
  end.

(** Step 5, "Balance Evaluation Distribution (Binning)". *)
Definition balance_evaluation_bins (df_balanced_primary : DataFrame)
    (eval_bin_size min_positions_per_eval_bin : Z) : M DataFrame :=
  bins <- lift (eval_bins (map evaluation df_balanced_primary) eval_bin_size) ;
  eval_bin <- lift (pd.cut (map evaluation df_balanced_primary) bins) ;
  let with_eval_bin := zip df_balanced_primary eval_bin in
  let bin_counts := pd.value_counts eval_bin in
  match bin_counts with
  | [] => exit NoEvaluationBins
  | _ =>
      balanced_eval_dfs <-
        mapM_groups
          (fun bin_label : Z =>
             let bin_df :=
               filter (fun r : row * option Z => snd r = Some bin_label)
                      with_eval_bin in
             if Z.of_nat (length bin_df) >? min_positions_per_eval_bin then
               sample bin_df min_positions_per_eval_bin (Some 42)
             else ret bin_df)
          (map fst bin_counts) ;
      df_final_balanced <- lift (pd.concat balanced_eval_dfs) ;
      ret (map fst df_final_balanced)
  end.

(** Step 6, "Normalize Evaluations": the table with the column
    [evaluation_normalized] appended. *)
Definition normalize_evaluations (df_final_balanced : DataFrame)
  : result (list (row * Q)) :=
  match MinMaxScaler_fit_transform (map evaluation df_final_balanced) with
  | Saved evaluation_normalized =>
      Saved (zip df_final_balanced evaluation_normalized)
  | Exited m => Exited m
  | Raised e => Raised e
  end.

(** Steps 2 and 3, shared by the two scripts: the move filter and the
    separation of the checkmate rows. *)
Definition filter_moves (df : DataFrame) (min_move max_move : Z) : DataFrame :=
  filter (fun r => fullmove_counter r >= min_move /\ fullmove_counter r <= max_move) df.

Definition checkmates (df_filtered : DataFrame) : DataFrame :=
  filter (fun r => evaluation r = 20000 \/ evaluation r = -20000) df_filtered.

Definition centipawns (df_filtered : DataFrame) : DataFrame :=
  filter (fun r => evaluation r <> 20000 /\ evaluation r <> -20000) df_filtered.

(** [filter_balance_normalize_data]; [input_file] is [None] when
    [pd.read_csv] fails. *)
Definition filter_balance_normalize_data (input_file : option DataFrame)
    (min_move max_move eval_bin_size min_positions_per_eval_bin
     eval_capping_threshold : Z) : M (list (row * Q)) :=
  match input_file with
  | None => exit InputNotLoaded
  | Some df =>
      let df_filtered := filter_moves df min_move max_move in
      if bool_decide (df_filtered = []) then exit NoPositionsAfterMoveFilter else
      let df_checkmates := checkmates df_filtered in
      let df_centipawns := centipawns df_filtered in
      if bool_decide (df_centipawns = []) then
        exit NoCentipawnsAfterCheckmateSeparation else
      let df_centipawns :=
        filter (fun r => evaluation r >= - eval_capping_threshold
                         /\ evaluation r <= eval_capping_threshold)
               df_centipawns in
      if bool_decide (df_centipawns = []) then
        exit NoCentipawnsAfterExtremeFilter else
      df_balanced_primary <- balance_primary_groups df_centipawns ;
      df_final_balanced <-
        balance_evaluation_bins df_balanced_primary eval_bin_size
                                min_positions_per_eval_bin ;
      lift (normalize_evaluations df_final_balanced)
  end.

(** [filter_balance_data_no_normalize]. *)
Definition filter_balance_data_no_normalize (input_file : option DataFrame)
    (min_move max_move eval_bin_size min_positions_per_eval_bin : Z)
  : M DataFrame :=
  match input_file with
  | None => exit InputNotLoaded
  | Some df =>
      let df_filtered := filter_moves df min_move max_move in
      if bool_decide (df_filtered = []) then exit NoPositionsAfterMoveFilter else
      let df_checkmates := checkmates df_filtered in
      let df_centipawns := centipawns df_filtered in
      if bool_decide (df_centipawns = []) then
        exit NoCentipawnsAfterCheckmateSeparation else
      df_balanced_primary <- balance_primary_groups df_centipawns ;
      balance_evaluation_bins df_balanced_primary eval_bin_size
                              min_positions_per_eval_bin
  end.

End Balancing.

(** The value the fitted scaler gives to [x] when the column it was fitted
    on has minimum [lo] and maximum [hi]. *)
Definition scaled (lo hi x : Z) : Q :=
  let data_range := hi - lo in
  let handled := if data_range =? 0 then 1 else data_range in
  let scale_ := (inject_Z (1 - (-1)) / inject_Z handled)%Q in
  (inject_Z x * scale_ + (inject_Z (-1) - inject_Z lo * scale_))%Q.

(** The scripts as run from the command line, with the defaults of their
    signatures. *)
Definition main_normalize `{RandomSource} (input_file : option DataFrame)
  : M (list (row * Q)) :=
  filter_balance_normalize_data input_file 5 35 100 1000 2500.

Definition main_no_normalize `{RandomSource} (input_file : option DataFrame)
  : M DataFrame :=
  filter_balance_data_no_normalize input_file 5 35 100 1000.

(** ** Notions of the specification *)

(** The grammar of evaluation tokens in the words of the specification: a
    centipawn token is an optionally signed run of decimal digits, a
    checkmate token is the marker, a mandatory sign and a distance. *)
Definition is_digit (c : N) : bool := ((48 <=? c) && (c <=? 57))%N.

Fixpoint all_digits (s : str) : bool :=
  match s with
  | [] => true
  | c :: s' => is_digit c && all_digits s'
  end.

Definition is_decimal (s : str) : bool :=
  match s with
  | [] => false
  | _ => all_digits s
  end.

Fixpoint decimal_value (s : str) (acc : Z) : Z :=
  match s with
  | [] => acc
  | c :: s' => decimal_value s' (10 * acc + (Z.of_N c - 48))
  end.

Definition is_sign (c : N) : bool := ((c =? ord "+") || (c =? ord "-"))%N.

(** A token without its sign, if it has one. *)
Definition unsigned_part (t : str) : str :=
  match t with
  | c :: d => if is_sign c then d else t
  | [] => []
  end.

Definition is_centipawn_token (t : str) : bool := is_decimal (unsigned_part t).

Definition centipawn_value (t : str) : Z :=
  match t with
  | c :: _ =>
      if (c =? ord "-")%N then - decimal_value (unsigned_part t) 0
      else decimal_value (unsigned_part t) 0
  | [] => 0
  end.

(** The sign of a checkmate token: [Some true] for [+], [Some false] for
    [-], [None] when the token is not a checkmate token. *)
Definition checkmate_sign (t : str) : option bool :=
  match t with
  | marker :: sign :: d =>
      if (marker =? ord "#")%N && is_decimal d then
        if (sign =? ord "+")%N then Some true
        else if (sign =? ord "-")%N then Some false
        else None
      else None
  | _ => None
  end.

Definition matches_neither_grammar (t : str) : bool :=
  negb (is_centipawn_token t) && negb (bool_decide (is_Some (checkmate_sign t))).

(** The digit part of an integer literal in the words of Python's
    reference: decimal digits, where one underscore may stand between two
    digits. *)
Inductive digit_groups `{UnicodeData} : str -> Prop :=
  | digit_groups_one (c : N) :
      is_Some (digit_of c) -> digit_groups [c]
  | digit_groups_digit (c : N) (s : str) :
      is_Some (digit_of c) -> digit_groups s -> digit_groups (c :: s)
  | digit_groups_underscore (c : N) (s : str) :
      is_Some (digit_of c) -> digit_groups s ->
      digit_groups (c :: ord "_" :: s).

(** The digits of a literal read in base 10; an underscore counts for
    nothing. *)
Definition digits_value `{UnicodeData} (s : str) (acc : Z) : Z :=
  foldl (fun acc c =>
           match digit_of c with Some d => 10 * acc + d | None => acc end)
        acc s.

(** The bin of an evaluation in the words of the specification: the
    evaluation floor-divided by the bin width. *)
Definition EvalBin (eval_bin_size : Z) (r : row) : Z :=
  evaluation r / eval_bin_size.

(** The rows of one (side-to-move, outcome) group of a table. *)
Definition group_rows (k : Z * string) (df : DataFrame) : DataFrame :=
  filter (fun r => primary_key r = k) df.

(** [out] holds the rows of [src] at pairwise distinct positions. *)
Definition drawn_without_replacement {A} (out src : list A) : Prop :=
  exists locs : list nat,
    NoDup locs /\ mapM (fun i => src !! i) locs = Some out.

(** A computation that neither reads nor advances the global generator. *)
Definition ambient_free `{RandomSource} {A} (m : M A) : Prop :=
  exists r, forall g, m g = (r, g).

(** ** Analisis de datos *)

Definition is_black_to_move (r : row) : Z := col "is_black_to_move" r.
Definition en_passant_flag (r : row) : Z := col "en_passant_available" r.

(** [df[name].sum()]. *)
Definition column_sum (name : string) (df : DataFrame) : Z :=
  foldr Z.add 0 (map (col name) df).

(** Python's [range(start, stop, step)] for a step that is not 0: the
    scripts pass the literal 50. *)
Definition py_range (start stop step : Z) : list Z :=
  map (fun i => start + Z.of_nat i * step)
      (seq 0 (Z.to_nat (- ((start - stop) / step)))).

(** The bin edges of the evaluation histogram of [generate_histograms];
    [None] on an empty table, where [int] of a missing value raises. *)
Definition evaluation_histogram_bins (df : DataFrame) : option (list Z) :=
  match pd.min (map evaluation df), pd.max (map evaluation df) with
  | Some min_eval, Some max_eval =>
      Some (py_range (min_eval / 50 * 50) (max_eval / 50 * 50 + 51) 50)
  | _, _ => None
  end.

(** The numbers [generate_histograms] prints under "Descriptive
    Statistics". *)
Record descriptive_statistics : Type := {
  en_passant_present_count : Z;
  black_to_move_count : Z;
  white_to_move_count : Z;
  neutral_positions_count : nat;
  white_move_good_for_white : nat;
  white_move_good_for_black : nat;
  black_move_good_for_white : nat;
  black_move_good_for_black : nat
}.

Definition generate_histograms_statistics (df : DataFrame)
  : descriptive_statistics :=
  let df_white_to_move := filter (fun r => is_white_to_move r = 1) df in
  let df_black_to_move := filter (fun r => is_black_to_move r = 1) df in
  {| en_passant_present_count := column_sum "en_passant_available" df;
     black_to_move_count := column_sum "is_black_to_move" df;
     white_to_move_count := column_sum "is_white_to_move" df;
     neutral_positions_count := length (filter (fun r => evaluation r = 0) df);
     white_move_good_for_white :=
       length (filter (fun r => evaluation r > 0) df_white_to_move);
     white_move_good_for_black :=
       length (filter (fun r => evaluation r < 0) df_white_to_move);
     black_move_good_for_white :=
       length (filter (fun r => evaluation r > 0) df_black_to_move);
     black_move_good_for_black :=
       length (filter (fun r => evaluation r < 0) df_black_to_move) |}.

(** The counts [analyze_balanced_data] prints; the table it loads has the
    column [evaluation_normalized] beside those of [OUTPUT_COLUMNS]. *)
Record balanced_statistics : Type := {
  total_positions : nat;
  balanced_white_to_move_count : Z;
  balanced_black_to_move_count : Z;
  white_winning_count : nat;
  black_winning_count : nat;
  neutral_count : nat
}.

Definition analyze_balanced_data_statistics (df : list (row * Q))
  : balanced_statistics :=
  {| total_positions := length df;
     balanced_white_to_move_count := column_sum "is_white_to_move" (map fst df);
     balanced_black_to_move_count := column_sum "is_black_to_move" (map fst df);
     white_winning_count :=
       length (filter (fun p : row * Q => evaluation (fst p) > 0) df);
     black_winning_count :=
       length (filter (fun p : row * Q => evaluation (fst p) < 0) df);
     neutral_count :=
       length (filter (fun p : row * Q => evaluation (fst p) = 0) df) |}.

(** The code of the piece [parse_fen] writes for a square of a board. *)
Definition piece_code (board : Board) (i : nat) : Z :=
  match piece_at board i with
  | Some symbol => default 0 (PIECE_MAPPING !! symbol)
  | None => 0
  end.

(** * Proofs *)

(** ** The evaluation parser *)

Section EvaluationParser.
Context {unicode : UnicodeData}.

Lemma is_digit_range c : is_digit c = true -> (48 <= c <= 57)%N.
Proof.
  unfold is_digit. intros [H1 H2]%andb_prop.
  apply N.leb_le in H1. apply N.leb_le in H2. lia.
Qed.

Lemma digit_of_is_digit c : is_digit c = true -> digit_of c = Some (Z.of_N c - 48).
Proof.
  intros Hc. pose proof (is_digit_range c Hc) as Hr. unfold digit_of.
  destruct (N.ltb_spec c 128) as [_|?]; [|lia].
  unfold is_digit in Hc. by rewrite Hc.
Qed.

Lemma below_128_not_space c :
  (33 <= c < 128)%N -> isspace c = false /\ int_isspace c = false.
Proof.
  intros Hc. unfold int_isspace, isspace.
  repeat match goal with
         | |- context [(?a <=? ?b)%N] => destruct (N.leb_spec a b); try lia
         | |- context [(?a =? ?b)%N] => destruct (N.eqb_spec a b); try lia
         end; done.
Qed.

Lemma digit_not_space c :
  is_digit c = true -> isspace c = false /\ int_isspace c = false.
Proof.
  intros Hc%is_digit_range. apply below_128_not_space. lia.
Qed.

Lemma sign_not_space c :
  is_sign c = true -> isspace c = false /\ int_isspace c = false.
Proof.
  unfold is_sign. intros Hc. apply below_128_not_space.
  apply orb_prop in Hc as [Hc|Hc]; apply N.eqb_eq in Hc; subst c;
    vm_compute; split; congruence.
Qed.

Lemma lstrip_no_space space s :
  Forall (fun c => space c = false) s -> lstrip space s = s.
Proof. destruct 1 as [|c s Hc _]; simpl; [done|]. by rewrite Hc. Qed.

Lemma rstrip_no_space space s :
  Forall (fun c => space c = false) s -> rstrip space s = s.
Proof.
  induction 1 as [|c s Hc _ IH]; simpl; [done|].
  rewrite IH, Hc. by destruct s.
Qed.

Lemma all_digits_Forall s : all_digits s = true -> Forall (fun c => is_digit c = true) s.
Proof.
  induction s as [|c s IH]; simpl; [constructor|].
  intros [Hc Hs]%andb_prop. constructor; auto.
Qed.

Lemma is_decimal_all_digits s : is_decimal s = true -> all_digits s = true.
Proof. by destruct s. Qed.

Lemma centipawn_token_unsigned t :
  is_centipawn_token t = true ->
  Forall (fun c => is_digit c = true) (unsigned_part t).
Proof. intros Ht. by apply all_digits_Forall, is_decimal_all_digits. Qed.

(** A centipawn token holds no whitespace, neither for [strip] nor for
    [int]. *)
Lemma centipawn_token_no_space t :
  is_centipawn_token t = true ->
  Forall (fun c => isspace c = false) t /\
  Forall (fun c => int_isspace c = false) t.
Proof.
  intros Ht. pose proof (centipawn_token_unsigned t Ht) as Hd.
  assert (Forall (fun c => isspace c = false /\ int_isspace c = false) t) as Hall.
  { destruct t as [|c d]; [constructor|]. unfold unsigned_part in Hd.
    destruct (is_sign c) eqn:Hs.
    - constructor; [by apply sign_not_space|].
      eapply Forall_impl; [exact Hd|]. apply digit_not_space.
    - eapply Forall_impl; [exact Hd|]. apply digit_not_space. }
  split; (eapply Forall_impl; [exact Hall|]); by intros c [? ?].
Qed.

Lemma int_digits_all_digits s acc :
  all_digits s = true -> int_digits s acc true = Some (decimal_value s acc).
Proof.
  revert acc. induction s as [|c s IH]; intros acc; simpl; [done|].
  intros [Hc Hs]%andb_prop. rewrite (digit_of_is_digit c Hc). by apply IH.
Qed.

Lemma int_digits_decimal s :
  is_decimal s = true -> int_digits s 0 false = Some (decimal_value s 0).
Proof.
  destruct s as [|c s]; [done|]. simpl.
  intros [Hc Hs]%andb_prop. rewrite (digit_of_is_digit c Hc).
  by apply int_digits_all_digits.
Qed.

Lemma count_digits_all_digits s :
  all_digits s = true -> count_digits s = length s.
Proof.
  unfold count_digits. induction s as [|c s IH]; simpl; [done|].
  intros [Hc Hs]%andb_prop. rewrite filter_cons.
  destruct (decide (is_Some (digit_of c))) as [_|Hn].
  - simpl. f_equal. by apply IH.
  - exfalso. apply Hn. rewrite (digit_of_is_digit c Hc). by eexists.
Qed.

(** [int] on a centipawn token: its signed decimal value, unless the
    token has more digits than [int] reads. *)
Lemma python_int_centipawn t :
  is_centipawn_token t = true ->
  python_int t
  = if (length (unsigned_part t) <=? int_max_str_digits)%nat
    then Some (centipawn_value t) else None.
Proof.
  intros Ht. destruct (centipawn_token_no_space t Ht) as [_ Hsp].
  unfold python_int.
  rewrite (lstrip_no_space _ t Hsp), (rstrip_no_space _ t Hsp).
  unfold is_centipawn_token in Ht.
  destruct t as [|c d]; [done|].
  unfold centipawn_value. unfold unsigned_part in *. unfold is_sign in *.
  destruct (N.eqb_spec c (ord "+")) as [->|Hp].
  { change (ord "+" =? ord "-")%N with false.
    cbn [orb] in Ht |- *. cbv beta iota zeta.
    rewrite (int_digits_decimal d Ht).
    rewrite (count_digits_all_digits d (is_decimal_all_digits d Ht)).
    destruct (_ <=? _)%nat; [|done]. f_equal; lia. }
  destruct (N.eqb_spec c (ord "-")) as [->|Hm].
  { cbn [orb] in Ht |- *. cbv beta iota zeta.
    rewrite (int_digits_decimal d Ht).
    rewrite (count_digits_all_digits d (is_decimal_all_digits d Ht)).
    destruct (_ <=? _)%nat; [|done]. f_equal; lia. }
  cbn [orb] in Ht |- *. cbv beta iota zeta.
  rewrite (int_digits_decimal (c :: d) Ht).
  rewrite (count_digits_all_digits (c :: d) (is_decimal_all_digits _ Ht)).
  destruct (_ <=? _)%nat; [|done]. f_equal; lia.
Qed.

Lemma startswith_cons a p b s :
  startswith (a :: p) (b :: s) = ((a =? b)%N && startswith p s).
Proof. reflexivity. Qed.

Lemma startswith_marker_sign sign t :
  startswith [ord "#"; sign] t = true -> startswith (text "#") t = true.
Proof.
  change (text "#") with [ord "#"].
  destruct t as [|c t]; [done|]. rewrite !startswith_cons.
  intros [-> _]%andb_prop. done.
Qed.

Lemma startswith_plus_not_minus t :
  startswith (text "#-") t = true -> startswith (text "#+") t = false.
Proof.
  change (text "#-") with [ord "#"; ord "-"].
  change (text "#+") with [ord "#"; ord "+"].
  destruct t as [|c [|c' t]]; [done| |]; rewrite !startswith_cons.
  - intros [_ H]%andb_prop. done.
  - intros [Hc [Hc' _]%andb_prop]%andb_prop. rewrite Hc.
    apply N.eqb_eq in Hc'. subst c'. done.
Qed.

Lemma centipawn_token_not_marker t :
  is_centipawn_token t = true -> startswith (text "#") t = false.
Proof.
  intros Ht. pose proof (centipawn_token_unsigned t Ht) as Hd.
  destruct t as [|c t]; [done|].
  change (text "#") with [ord "#"]. rewrite startswith_cons.
  apply andb_false_intro1, N.eqb_neq. intros <-. unfold unsigned_part in Hd.
  change (is_sign (ord "#")) with false in Hd.
  apply Forall_cons in Hd as [Hd _]. done.
Qed.

(** [C7], as amended: for every evaluation cell, with [t] its text
    stripped of surrounding whitespace, [parse_evaluation] returns the
    signed decimal value of [t] when [t] is an optionally signed decimal
    integer of at most 4300 digits, and 0 with a warning when it has more
    digits; it returns +20000 when [t] starts with the marker followed by
    a plus sign and -20000 when [t] starts with the marker followed by a
    minus sign, whatever follows the sign (the distance is neither
    required nor read); it returns 0 with a warning when [t] starts with
    the marker and no sign follows it; and when [t] does not start with
    the marker, it returns what [int] reads [t] as, and 0 with a warning
    when [int] rejects [t]. *)
Theorem parse_evaluation_by_prefix (token : cell) :
  let t := strip (str_of token) in
  (is_centipawn_token t = true ->
     (length (unsigned_part t) <= 4300)%nat ->
     parse_evaluation token = (centipawn_value t, [])) /\
  (is_centipawn_token t = true ->
     (4300 < length (unsigned_part t))%nat ->
     parse_evaluation token = (0, [CouldNotParseWarning t])) /\
  (startswith (text "#+") t = true -> parse_evaluation token = (20000, [])) /\
  (startswith (text "#-") t = true -> parse_evaluation token = (-20000, [])) /\
  (startswith (text "#") t = true -> startswith (text "#+") t = false ->
     startswith (text "#-") t = false ->
     parse_evaluation token = (0, [UnexpectedCheckmateWarning t])) /\
  (startswith (text "#") t = false ->
     forall v, python_int t = Some v -> parse_evaluation token = (v, [])) /\
  (startswith (text "#") t = false -> python_int t = None ->
     parse_evaluation token = (0, [CouldNotParseWarning t])).
Proof.
  intros t. unfold parse_evaluation. fold t. repeat split.
  - intros Ht Hlen. rewrite (centipawn_token_not_marker t Ht).
    rewrite (python_int_centipawn t Ht).
    destruct (Nat.leb_spec (length (unsigned_part t)) int_max_str_digits) as [_|Hgt];
      [done|]. unfold int_max_str_digits in Hgt. lia.
  - intros Ht Hlen. rewrite (centipawn_token_not_marker t Ht).
    rewrite (python_int_centipawn t Ht).
    destruct (Nat.leb_spec (length (unsigned_part t)) int_max_str_digits) as [Hle|_];
      [|done]. unfold int_max_str_digits in Hle. lia.
  - intros Hp. by rewrite (startswith_marker_sign _ t Hp), Hp.
  - intros Hm.
    by rewrite (startswith_marker_sign _ t Hm), (startswith_plus_not_minus t Hm), Hm.
  - intros -> -> ->. done.
  - intros -> v ->. done.
  - intros -> ->. done.
Qed.

End EvaluationParser.

(** [C7], counterexample: the marker and a plus sign with no distance
    after them match neither grammar of the specification, and the parser
    returns the sentinel +20000 for them, not 0. *)
Lemma parse_evaluation_mate_marker_without_distance :
  matches_neither_grammar (strip (text "#+")) = true /\
  forall unicode : UnicodeData,
    parse_evaluation (Text (text "#+")) = (20000, []).
Proof. split; [reflexivity|]. intros unicode. reflexivity. Qed.

(** ** The literals [int] reads *)

Section IntLiterals.
Context {unicode : UnicodeData}.

Lemma digit_of_underscore : digit_of (ord "_") = None.
Proof. reflexivity. Qed.

Lemma digit_of_plus : digit_of (ord "+") = None.
Proof. reflexivity. Qed.

Lemma digit_of_minus : digit_of (ord "-") = None.
Proof. reflexivity. Qed.

Lemma int_digits_groups (s : str) (acc : Z) (prev : bool) (v : Z) :
  int_digits s acc prev = Some v ->
  v = digits_value s acc /\
  (if prev
   then s = [] \/ digit_groups s \/ exists s', s = ord "_" :: s' /\ digit_groups s'
   else digit_groups s).
Proof.
  revert acc prev v. induction s as [|c s IH]; intros acc prev v.
  - cbn [int_digits]. destruct prev; [|done]. intros [= <-]. split; [done|by left].
  - cbn [int_digits]. unfold digits_value. cbn [foldl].
    destruct (digit_of c) as [d|] eqn:Hc.
    + intros [-> Hs]%IH. split; [done|].
      assert (digit_groups (c :: s)) as Hg.
      { destruct Hs as [->|[Hs|(s' & -> & Hs)]].
        - apply digit_groups_one. by rewrite Hc.
        - apply digit_groups_digit; [by rewrite Hc|done].
        - apply digit_groups_underscore; [by rewrite Hc|done]. }
      destruct prev; [right; by left|done].
    + destruct (N.eqb_spec c (ord "_")) as [->|Hne]; [|done].
      destruct prev; [|done]. intros [-> Hs]%IH. split; [done|].
      right. right. by exists s.
Qed.

Lemma groups_int_digits (s : str) :
  digit_groups s ->
  forall acc prev, int_digits s acc prev = Some (digits_value s acc).
Proof.
  induction 1 as [c [d Hc]|c s [d Hc] _ IH|c s [d Hc] _ IH]; intros acc prev;
    cbn [int_digits]; unfold digits_value; cbn [foldl]; rewrite Hc.
  - done.
  - apply IH.
  - cbn [int_digits foldl]. rewrite digit_of_underscore, N.eqb_refl. apply IH.
Qed.

Lemma digit_groups_first (s : str) :
  digit_groups s -> exists c s', s = c :: s' /\ is_Some (digit_of c).
Proof. destruct 1; eauto. Qed.

(** [X1]: the strings [int] reads, and the values it gives them: after
    the whitespace [int] skips at both ends, an optional sign, then
    decimal digits, where one underscore may stand between two digits,
    at most 4300 digits in all; the value is the digits read in base 10,
    negated after a minus sign.  Every other string is refused. *)
Theorem int_reads_signed_digits_with_single_underscores (s : str) (v : Z) :
  python_int s = Some v <->
  exists sign body,
    rstrip int_isspace (lstrip int_isspace s) = sign ++ body /\
    (sign = [] \/ sign = text "+" \/ sign = text "-") /\
    digit_groups body /\
    (count_digits body <= int_max_str_digits)%nat /\
    v = if bool_decide (sign = text "-")
        then - digits_value body 0 else digits_value body 0.
Proof.
  unfold python_int. cbv zeta.
  set (s0 := rstrip int_isspace (lstrip int_isspace s)). clearbody s0. split.
  - intros Hrun.
    assert (exists sign body k,
              s0 = sign ++ body /\
              (sign = [] /\ k = 1 \/ sign = text "+" /\ k = 1
               \/ sign = text "-" /\ k = -1) /\
              match int_digits body 0 false with
              | Some v0 =>
                  if (count_digits body <=? int_max_str_digits)%nat
                  then Some (k * v0) else None
              | None => None
              end = Some v) as (sign & body & k & Hs0 & Hsign & Hbody).
    { destruct s0 as [|c s']; [done|].
      destruct (N.eqb_spec c (ord "+")) as [->|Hp].
      { exists (text "+"), s', 1. split; [reflexivity|]. split; [auto|exact Hrun]. }
      destruct (N.eqb_spec c (ord "-")) as [->|Hm].
      { exists (text "-"), s', (-1). split; [reflexivity|]. split; [auto|exact Hrun]. }
      exists [], (c :: s'), 1. split; [reflexivity|]. split; [auto|exact Hrun]. }
    exists sign, body. split; [done|].
    destruct (int_digits body 0 false) as [v0|] eqn:Hd; [|done].
    destruct (Nat.leb_spec (count_digits body) int_max_str_digits) as [Hle|];
      [|done].
    apply int_digits_groups in Hd as [-> Hg]. injection Hbody as <-.
    split; [tauto|]. split; [done|]. split; [done|].
    destruct Hsign as [[-> ->]|[[-> ->]|[-> ->]]].
    + change (bool_decide ([] = text "-")) with false. cbv iota. lia.
    + change (bool_decide (text "+" = text "-")) with false. cbv iota. lia.
    + change (bool_decide (text "-" = text "-")) with true. cbv iota. lia.
  - intros (sign & body & Hs0 & Hsign & Hg & Hle & Hv). subst s0 v.
    pose proof (groups_int_digits body Hg 0 false) as Hd.
    apply Nat.leb_le in Hle.
    destruct Hsign as [-> | [-> | ->]].
    + destruct (digit_groups_first body Hg) as (c & s' & -> & [d Hc]).
      cbn [app].
      destruct (N.eqb_spec c (ord "+")) as [->|Hp];
        [by rewrite digit_of_plus in Hc|].
      destruct (N.eqb_spec c (ord "-")) as [->|Hm];
        [by rewrite digit_of_minus in Hc|].
      rewrite Hd, Hle. change (bool_decide ([] = text "-")) with false.
      cbv iota. f_equal; lia.
    + change (text "+" ++ body) with (ord "+" :: body). cbv beta iota.
      rewrite N.eqb_refl, Hd, Hle.
      change (bool_decide (text "+" = text "-")) with false.
      cbv iota. f_equal; lia.
    + change (text "-" ++ body) with (ord "-" :: body). cbv beta iota.
      change (ord "-" =? ord "+")%N with false. rewrite N.eqb_refl, Hd, Hle.
      change (bool_decide (text "-" = text "-")) with true.
      cbv iota. f_equal; lia.
Qed.

End IntLiterals.

(** ** Whitespace around an evaluation *)

Lemma lstrip_all_spaces space (s : str) :
  Forall (fun c => space c = true) s -> lstrip space s = [].
Proof. induction 1 as [|c s Hc _ IH]; simpl; [done|]. by rewrite Hc. Qed.

Lemma rstrip_all_spaces space (s : str) :
  Forall (fun c => space c = true) s -> rstrip space s = [].
Proof. induction 1 as [|c s Hc _ IH]; simpl; [done|]. by rewrite IH, Hc. Qed.

Lemma lstrip_app_spaces space (ws s : str) :
  Forall (fun c => space c = true) ws -> lstrip space (ws ++ s) = lstrip space s.
Proof. induction 1 as [|c ws Hc _ IH]; simpl; [done|]. by rewrite Hc. Qed.

Lemma rstrip_app_spaces space (s ws : str) :
  Forall (fun c => space c = true) ws -> rstrip space (s ++ ws) = rstrip space s.
Proof.
  intros Hws. induction s as [|c s IH]; simpl.
  - by apply rstrip_all_spaces.
  - by rewrite IH.
Qed.

Lemma strip_spaces_around (before token after : str) :
  Forall (fun c => isspace c = true) before ->
  Forall (fun c => isspace c = true) after ->
  strip (before ++ token ++ after) = strip token.
Proof.
  intros Hb Ha. unfold strip. rewrite (lstrip_app_spaces _ _ _ Hb).
  induction token as [|c token IH]; simpl.
  - by rewrite (lstrip_all_spaces _ _ Ha).
  - destruct (isspace c); [exact IH|].
    apply (rstrip_app_spaces isspace (c :: token) after Ha).
Qed.

(** [X2]: whitespace around an evaluation does not change what it is
    parsed as, nor the warning: the parser sees the stripped text, where
    whitespace is every character [str.isspace] holds of, the no-break
    space and the other Unicode spaces included. *)
Theorem parse_evaluation_ignores_surrounding_whitespace `{UnicodeData}
    (before token after : str) :
  Forall (fun c => isspace c = true) before ->
  Forall (fun c => isspace c = true) after ->
  parse_evaluation (Text (before ++ token ++ after))
  = parse_evaluation (Text token).
Proof.
  intros Hb Ha. unfold parse_evaluation. cbn [str_of].
  by rewrite (strip_spaces_around before token after Hb Ha).
Qed.

(** ** Lists keyed by a column *)

Lemma filter_all {A} (P : A -> Prop) `{forall x, Decision (P x)} (l : list A) :
  Forall P l -> filter P l = l.
Proof.
  induction 1 as [|x l Hx _ IH]; [done|].
  rewrite filter_cons. destruct (decide (P x)); [by rewrite IH|done].
Qed.

Lemma filter_none {A} (P : A -> Prop) `{forall x, Decision (P x)} (l : list A) :
  Forall (fun x => ~ P x) l -> filter P l = [].
Proof.
  induction 1 as [|x l Hx _ IH]; [done|].
  rewrite filter_cons. destruct (decide (P x)); [done|by rewrite IH].
Qed.

Lemma filter_concat_other {A K} `{EqDecision K} (key : A -> K)
    (keys : list K) (pieces : list (list A)) (k : K) :
  Forall2 (fun k' p => Forall (fun r => key r = k') p) keys pieces ->
  k ∉ keys ->
  filter (fun r => key r = k) (List.concat pieces) = [].
Proof.
  induction 1 as [|k0 p0 ks ps Hp0 _ IH]; intros Hk; [done|]. simpl.
  apply not_elem_of_cons in Hk as [Hne Hk].
  rewrite filter_app, IH by done. rewrite app_nil_r.
  apply filter_none. eapply Forall_impl; [exact Hp0|]. simpl. congruence.
Qed.

Lemma filter_concat_keyed {A K} `{EqDecision K} (key : A -> K)
    (keys : list K) (pieces : list (list A)) :
  NoDup keys ->
  Forall2 (fun k p => Forall (fun r => key r = k) p) keys pieces ->
  forall i k p, keys !! i = Some k -> pieces !! i = Some p ->
    filter (fun r => key r = k) (List.concat pieces) = p.
Proof.
  intros Hnd HF. induction HF as [|k0 p0 ks ps Hp0 Hps IH]; intros i k p Hk Hp;
    [done|].
  apply NoDup_cons in Hnd as [Hk0 Hnd]. simpl. rewrite filter_app.
  destruct i as [|i]; simpl in *; simplify_eq.
  - rewrite (filter_concat_other key ks ps k) by done.
    rewrite app_nil_r. by apply filter_all.
  - rewrite (IH Hnd i k p) by done.
    rewrite filter_none; [done|].
    eapply Forall_impl; [exact Hp0|]. simpl. intros r -> ->.
    apply Hk0. by eapply list_elem_of_lookup_2.
Qed.

Lemma elem_of_concat {A} (x : A) (ls : list (list A)) :
  x ∈ List.concat ls <-> exists l, x ∈ l /\ l ∈ ls.
Proof.
  induction ls as [|l ls IH]; simpl.
  - split; [by intros ?%elem_of_nil|by intros (? & _ & ?%elem_of_nil)].
  - rewrite elem_of_app, IH. split.
    + intros [Hx|(l' & Hx & Hl')]; [exists l; split; [done|by left]|].
      exists l'. split; [done|by right].
    + intros (l' & Hx & [->|Hl']%elem_of_cons); [by left|right; eauto].
Qed.

Lemma elem_of_zip_map {A B} (h : A -> B) (l : list A) (a : A) (b : B) :
  (a, b) ∈ zip l (map h l) -> a ∈ l /\ b = h a.
Proof.
  induction l as [|a' l IH]; simpl; [by intros ?%elem_of_nil|].
  intros [Heq|Hin]%elem_of_cons.
  - simplify_eq. split; [by left|done].
  - destruct (IH Hin) as [? ?]. split; [by right|done].
Qed.

Lemma map_fst_pair {A B} (f : A -> B) (l : list A) :
  map fst (map (fun r => (r, f r)) l) = l.
Proof. induction l as [|a l IH]; [done|]. simpl. by rewrite IH. Qed.

(** ** The position decoder *)

Section PreprocessingProofs.
Context {unicode : UnicodeData}.
Variable chess_Board : str -> option Board.

Lemma parse_fen_invalid (fen_string : str) :
  chess_Board fen_string = None ->
  parse_fen chess_Board (Text fen_string)
  = (Returns (replicate 64 0 ++ [0; 0; 0; 0; 0; 0; 0; 0; 0]),
     [InvalidFenWarning fen_string]).
Proof. intros Hinvalid. unfold parse_fen, chess_Board_of. by rewrite Hinvalid. Qed.

(** A cell that is no [str] makes [parse_fen] raise. *)
Lemma parse_fen_not_text (repr : str) :
  parse_fen chess_Board (NotText repr) = (Raises AttributeError, []).
Proof. reflexivity. Qed.

(** On a [str], valid or not, [parse_fen] returns. *)
Lemma parse_fen_text (fen_string : str) :
  exists features, fst (parse_fen chess_Board (Text fen_string)) = Returns features.
Proof.
  unfold parse_fen, chess_Board_of.
  destruct (chess_Board fen_string); cbn [fst]; eauto.
Qed.

Lemma parse_fen_Raises (fen_string : cell) (e : exception) :
  fst (parse_fen chess_Board fen_string) = Raises e ->
  is_text fen_string = false /\ e = AttributeError.
Proof.
  destruct fen_string as [fen|repr].
  - destruct (parse_fen_text fen) as [features ->]. done.
  - simpl. by intros [= <-].
Qed.

Lemma apply_parse_fen_Returns (column : list cell) (l : list (list Z)) :
  fst (apply_parse_fen chess_Board column) = Returns l <->
  Forall2 (fun x features => fst (parse_fen chess_Board x) = Returns features)
          column l.
Proof.
  revert l. induction column as [|x column IH]; intros l; simpl.
  - split; [intros [= <-]; constructor|by intros ->%Forall2_nil_inv_l].
  - destruct (parse_fen chess_Board x) as [[features|e] warnings] eqn:Ex.
    + destruct (apply_parse_fen chess_Board column) as [[l'|e] warnings'] eqn:Ec;
        simpl in *.
      * split.
        -- intros [= <-]. constructor; [by rewrite Ex|by apply IH].
        -- intros (f & l'' & Hf & Hl & ->)%Forall2_cons_inv_l.
           rewrite Ex in Hf. simpl in Hf. simplify_eq.
           apply IH in Hl. by simplify_eq.
      * split; [done|].
        intros (f & l'' & Hf & Hl & ->)%Forall2_cons_inv_l.
        by apply IH in Hl.
    + simpl. split; [done|].
      intros (f & l'' & Hf & Hl & ->)%Forall2_cons_inv_l.
      rewrite Ex in Hf. done.
Qed.

Lemma apply_parse_fen_warnings (column : list cell) (l : list (list Z)) :
  fst (apply_parse_fen chess_Board column) = Returns l ->
  snd (apply_parse_fen chess_Board column)
  = concat (map (fun x => snd (parse_fen chess_Board x)) column).
Proof.
  revert l. induction column as [|x column IH]; intros l; simpl; [done|].
  destruct (parse_fen chess_Board x) as [[features|e] warnings] eqn:Ex; [|done].
  destruct (apply_parse_fen chess_Board column) as [[l'|e] warnings'] eqn:Ec;
    simpl in *; [|done].
  intros _. f_equal. by apply (IH l').
Qed.

(** The first cell that is no [str] ends the pass over the FEN column. *)
Lemma apply_parse_fen_not_text (column : list cell) :
  Exists (fun x => is_text x = false) column ->
  fst (apply_parse_fen chess_Board column) = Raises AttributeError.
Proof.
  induction column as [|x column IH]; intros Hex; [by apply Exists_nil in Hex|].
  simpl. destruct x as [fen|repr].
  - apply Exists_cons in Hex as [Hx|Hex]; [done|].
    destruct (parse_fen_text fen) as [features Hf].
    destruct (parse_fen chess_Board (Text fen)) as [r warnings].
    simpl in Hf. subst r. specialize (IH Hex).
    destruct (apply_parse_fen chess_Board column) as [r' warnings'].
    simpl in IH. by subst r'.
  - by rewrite parse_fen_not_text.
Qed.

Lemma feature_record_rows (chunk : list (cell * cell)) (l : list (list Z)) :
  Forall2 (fun x features => fst (parse_fen chess_Board x) = Returns features)
          (map fst chunk) l ->
  Forall2 (fun r row => feature_record chess_Board r = Returns row) chunk
          (zip_with (fun f e => f ++ [fst e]) l
                    (map (fun r => parse_evaluation (snd r)) chunk)).
Proof.
  revert l. induction chunk as [|r chunk IH]; intros l; simpl.
  - intros ->%Forall2_nil_inv_l. constructor.
  - intros (f & l' & Hf & Hl & ->)%Forall2_cons_inv_l. simpl.
    constructor; [|by apply IH]. unfold feature_record. by rewrite Hf.
Qed.

Lemma feature_record_features (chunk : list (cell * cell)) (rows : list (list Z)) :
  Forall2 (fun r row => feature_record chess_Board r = Returns row) chunk rows ->
  exists l,
    Forall2 (fun x features => fst (parse_fen chess_Board x) = Returns features)
            (map fst chunk) l /\
    rows = zip_with (fun f e => f ++ [fst e]) l
                    (map (fun r => parse_evaluation (snd r)) chunk).
Proof.
  induction 1 as [|r row chunk rows Hr _ (l & Hl & ->)]; [by exists []|].
  unfold feature_record in Hr.
  destruct (fst (parse_fen chess_Board (fst r))) as [features|e] eqn:Hf; [|done].
  exists (features :: l). simpl. split; [by constructor|]. by simplify_eq.
Qed.

(** A chunk is processed exactly when it has a row and every row of it
    decodes; the rows written are then the feature records of its rows,
    in their order. *)
Lemma process_chunk_Returns (chunk : list (cell * cell)) (rows : list (list Z)) :
  fst (process_chunk chess_Board chunk) = Returns rows <->
  chunk <> [] /\
  Forall2 (fun r row => feature_record chess_Board r = Returns row) chunk rows.
Proof.
  unfold process_chunk.
  destruct (apply_parse_fen chess_Board (map fst chunk)) as [[l|e] warnings] eqn:E.
  - assert (fst (apply_parse_fen chess_Board (map fst chunk)) = Returns l) as Hl
      by (by rewrite E).
    apply apply_parse_fen_Returns in Hl. split.
    + destruct chunk as [|r chunk]; [done|]. intros [= <-]. split; [done|].
      by apply feature_record_rows.
    + intros [Hne (l' & Hl' & ->)%feature_record_features].
      apply apply_parse_fen_Returns in Hl'. rewrite E in Hl'. simpl in Hl'.
      simplify_eq. by destruct chunk.
  - simpl. split; [done|].
    intros [_ (l' & Hl' & _)%feature_record_features].
    apply apply_parse_fen_Returns in Hl'. by rewrite E in Hl'.
Qed.

Lemma process_chunk_warnings (chunk : list (cell * cell)) (rows : list (list Z)) :
  fst (process_chunk chess_Board chunk) = Returns rows ->
  snd (process_chunk chess_Board chunk)
  = concat (map (fun r => snd (parse_fen chess_Board (fst r))) chunk)
    ++ concat (map (fun r => snd (parse_evaluation (snd r))) chunk).
Proof.
  unfold process_chunk.
  destruct (apply_parse_fen chess_Board (map fst chunk)) as [[l|e] warnings] eqn:E;
    [|done].
  assert (fst (apply_parse_fen chess_Board (map fst chunk)) = Returns l) as Hl
    by (by rewrite E).
  apply apply_parse_fen_warnings in Hl. rewrite E in Hl. simpl in Hl. subst.
  destruct chunk as [|r chunk]; [done|]. intros _. cbn [snd].
  by rewrite !map_map.
Qed.

(** A description that is no [str] ends the chunk with [AttributeError]:
    no row of the chunk is written. *)
Lemma process_chunk_not_text (chunk : list (cell * cell)) :
  Exists (fun r => is_text (fst r) = false) chunk ->
  fst (process_chunk chess_Board chunk) = Raises AttributeError.
Proof.
  intros Hex. unfold process_chunk.
  assert (fst (apply_parse_fen chess_Board (map fst chunk)) = Raises AttributeError)
    as Hraise.
  { apply apply_parse_fen_not_text. apply Exists_fmap.
    eapply Exists_impl; [exact Hex|]. done. }
  destruct (apply_parse_fen chess_Board (map fst chunk)) as [r warnings].
  simpl in Hraise. by subst r.
Qed.

(** A chunk ends with an exception in two cases only: it has no row
    ([ValueError]), or a description in it is no [str]
    ([AttributeError]). *)
Lemma process_chunk_Raises (chunk : list (cell * cell)) (e : exception) :
  fst (process_chunk chess_Board chunk) = Raises e ->
  (chunk = [] /\ e = ValueError) \/
  (Exists (fun r => is_text (fst r) = false) chunk /\ e = AttributeError).
Proof.
  destruct (decide (Exists (fun r => is_text (fst r) = false) chunk)) as [Hex|Hall].
  - rewrite (process_chunk_not_text chunk Hex). intros [= <-]. by right.
  - apply not_Exists_Forall in Hall; [|intros r; apply _].
    destruct chunk as [|r0 chunk0]; [simpl; intros [= <-]; by left|].
    assert (exists rows,
      Forall2 (fun r row => feature_record chess_Board r = Returns row)
              (r0 :: chunk0) rows) as [rows Hrows].
    { clear -Hall. induction Hall as [|r chunk Hr _ [rows IH]]; [by exists []|].
      destruct r as [[fen|repr] ev]; [|simpl in Hr; by destruct Hr].
      destruct (parse_fen_text fen) as [features Hf].
      exists ((features ++ [fst (parse_evaluation ev)]) :: rows).
      constructor; [|done]. unfold feature_record. simpl. by rewrite Hf. }
    assert (fst (process_chunk chess_Board (r0 :: chunk0)) = Returns rows) as ->
      by (by apply process_chunk_Returns).
    done.
Qed.

(** Every column of the default row reads 0, the evaluation apart: the
    64 squares, the two side-to-move flags, the four castling flags, the
    en-passant flag, the halfmove clock and the fullmove counter. *)
Lemma default_row_columns (eval : Z) (name : string) :
  name ∈ take 73 OUTPUT_COLUMNS ->
  col name (replicate 64 0 ++ [0; 0; 0; 0; 0; 0; 0; 0; 0] ++ [eval]) = 0.
Proof.
  intros Hn.
  assert (forallb (fun name =>
                     col name (replicate 64 0 ++ [0; 0; 0; 0; 0; 0; 0; 0; 0]
                               ++ [eval]) =? 0)
                  (take 73 OUTPUT_COLUMNS) = true) as Hall
    by (vm_compute; reflexivity).
  rewrite forallb_forall in Hall. apply Z.eqb_eq, Hall.
  by apply list_elem_of_In.
Qed.

(** When [chess.Board] rejects a description [str] with [ValueError],
    [parse_fen] returns the default vector and logs the string; in a
    chunk whose other rows decode, the row of that record is the default
    vector followed by its parsed evaluation, the rows before and after
    it are written as usual, and the warning is in the chunk's log. *)
Lemma rejected_description_yields_default_row (fen_string : str)
    (before after : list (cell * cell)) (eval_string : cell)
    (rows_before rows_after : list (list Z)) :
  chess_Board fen_string = None ->
  Forall2 (fun r row => feature_record chess_Board r = Returns row)
          before rows_before ->
  Forall2 (fun r row => feature_record chess_Board r = Returns row)
          after rows_after ->
  let chunk := before ++ (Text fen_string, eval_string) :: after in
  fst (process_chunk chess_Board chunk)
  = Returns (rows_before
             ++ [replicate 64 0 ++ [0; 0; 0; 0; 0; 0; 0; 0; 0]
                 ++ [fst (parse_evaluation eval_string)]]
             ++ rows_after) /\
  InvalidFenWarning fen_string ∈ snd (process_chunk chess_Board chunk).
Proof.
  intros Hinvalid Hbefore Hafter chunk.
  pose proof (parse_fen_invalid fen_string Hinvalid) as Hfen.
  assert (fst (process_chunk chess_Board chunk)
          = Returns (rows_before
                     ++ [replicate 64 0 ++ [0; 0; 0; 0; 0; 0; 0; 0; 0]
                         ++ [fst (parse_evaluation eval_string)]]
                     ++ rows_after)) as Hrows.
  { apply process_chunk_Returns. split; [unfold chunk; by destruct before|].
    unfold chunk. apply Forall2_app; [done|]. constructor; [|done].
    unfold feature_record. cbn [fst snd]. rewrite Hfen. cbn [fst].
    by rewrite <- app_assoc. }
  split; [done|].
  rewrite (process_chunk_warnings chunk _ Hrows).
  apply elem_of_app. left. apply elem_of_concat.
  exists [InvalidFenWarning fen_string]. split; [by left|].
  apply list_elem_of_fmap. exists (Text fen_string, eval_string).
  split; [simpl; by rewrite Hfen|].
  unfold chunk. apply elem_of_app. right. by left.
Qed.

(** Rows whose descriptions are [str]s all decode. *)
Lemma text_rows_decode (chunk : list (cell * cell)) :
  Forall (fun r => is_text (fst r) = true) chunk ->
  exists rows,
    Forall2 (fun r row => feature_record chess_Board r = Returns row) chunk rows.
Proof.
  induction 1 as [|r chunk Hr _ [rows IH]]; [by exists []|].
  destruct r as [[fen|repr] ev]; [|done].
  destruct (parse_fen_text fen) as [features Hf].
  exists ((features ++ [fst (parse_evaluation ev)]) :: rows).
  constructor; [|done]. unfold feature_record. simpl. by rewrite Hf.
Qed.

Lemma process_chunks_rows (i chunk_size : nat)
    (chunks : list (list (cell * cell))) (tables : list (list (list Z)))
    (file : option csv_file) (out : list stdout_line) :
  Forall2 (fun chunk rows => fst (process_chunk chess_Board chunk) = Returns rows)
          chunks tables ->
  let r := process_chunks chess_Board i chunk_size chunks file out in
  raised r = None /\
  rows_written (output_file r) = rows_written file ++ List.concat tables /\
  (chunks <> [] ->
   option_map csv_header (output_file r)
   = Some (from_option csv_header OUTPUT_COLUMNS file)).
Proof.
  intros Hall. revert i file out.
  induction Hall as [|chunk rows chunks tables Hchunk _ IH]; intros i file out.
  - simpl. split; [done|]. split; [by rewrite app_nil_r|done].
  - cbn [process_chunks].
    destruct (process_chunk chess_Board chunk) as [r warnings].
    simpl in Hchunk. subst r. cbv zeta.
    match goal with
    | |- context [process_chunks _ (S i) chunk_size chunks ?f ?o] =>
        destruct (IH (S i) f o) as (Hr & Hrows & Hheader)
    end.
    split; [done|]. split.
    + rewrite Hrows. destruct file as [f|]; simpl; [by rewrite <- app_assoc|done].
    + intros _. destruct chunks as [|chunk' chunks'].
      * simpl. by destruct file.
      * rewrite Hheader by done. by destruct file.
Qed.

(** When every chunk read has a row and every description in the file is
    a [str], the streaming stage runs to its end and writes the header
    and one row per input record, in input order, whichever records fail
    to decode or to parse. *)
Lemma process_chess_data_rows (input_file : nat -> list (list (cell * cell)))
    (chunk_size : nat) (tables : list (list (list Z))) :
  Forall2 (fun chunk rows => fst (process_chunk chess_Board chunk) = Returns rows)
          (input_file chunk_size) tables ->
  let r := process_chess_data chess_Board input_file chunk_size in
  raised r = None /\
  rows_written (output_file r) = List.concat tables /\
  (input_file chunk_size <> [] ->
   option_map csv_header (output_file r) = Some OUTPUT_COLUMNS) /\
  last (stdout r) = Some ProcessingComplete.
Proof.
  intros Hall r.
  destruct (process_chunks_rows 0 chunk_size _ _ None [StartingProcessing] Hall)
    as (Hraised & Hrows & Hheader).
  unfold r, process_chess_data. rewrite Hraised. simpl.
  split; [done|]. split; [done|]. split; [done|]. apply last_snoc.
Qed.

Lemma parse_fen_log (fen_string : cell) :
  ProcessingComplete ∉ snd (parse_fen chess_Board fen_string).
Proof.
  unfold parse_fen. destruct (chess_Board_of chess_Board fen_string) as [board|[]];
    cbn [snd]; try apply not_elem_of_nil.
  by intros [=]%list_elem_of_singleton.
Qed.

Lemma parse_evaluation_log (eval_string : cell) :
  ProcessingComplete ∉ snd (parse_evaluation eval_string).
Proof.
  unfold parse_evaluation.
  repeat match goal with
         | |- context [if ?b then _ else _] => destruct b
         | |- context [match ?o with Some _ => _ | None => _ end] => destruct o
         end; cbn [snd]; try apply not_elem_of_nil;
    by intros [=]%list_elem_of_singleton.
Qed.

Lemma apply_parse_fen_log (column : list cell) :
  ProcessingComplete ∉ snd (apply_parse_fen chess_Board column).
Proof.
  induction column as [|x column IH]; simpl; [apply not_elem_of_nil|].
  pose proof (parse_fen_log x) as Hx.
  destruct (parse_fen chess_Board x) as [[features|e] warnings]; [|done].
  destruct (apply_parse_fen chess_Board column) as [[l|e] warnings'];
    simpl in *; by apply not_elem_of_app.
Qed.

Lemma process_chunk_log (chunk : list (cell * cell)) :
  ProcessingComplete ∉ snd (process_chunk chess_Board chunk).
Proof.
  unfold process_chunk. pose proof (apply_parse_fen_log (map fst chunk)) as Hfen.
  destruct (apply_parse_fen chess_Board (map fst chunk)) as [[l|e] warnings];
    [|done].
  assert (ProcessingComplete
            ∉ warnings ++ concat (map snd (map (fun r => parse_evaluation (snd r))
                                               chunk))) as Hall.
  { apply not_elem_of_app. split; [done|].
    intros (ws & Hw & Hws)%elem_of_concat.
    apply list_elem_of_fmap in Hws as (p & -> & Hp).
    apply list_elem_of_fmap in Hp as (r & -> & _).
    by apply (parse_evaluation_log (snd r)). }
  by destruct chunk.
Qed.

Lemma process_chunks_Raises (i chunk_size : nat)
    (chunks : list (list (cell * cell))) (tables : list (list (list Z)))
    (chunk : list (cell * cell)) (later : list (list (cell * cell)))
    (e : exception) (file : option csv_file) (out : list stdout_line) :
  Forall2 (fun chunk rows => fst (process_chunk chess_Board chunk) = Returns rows)
          chunks tables ->
  fst (process_chunk chess_Board chunk) = Raises e ->
  ProcessingComplete ∉ out ->
  let r := process_chunks chess_Board i chunk_size (chunks ++ chunk :: later)
                          file out in
  raised r = Some e /\
  rows_written (output_file r) = rows_written file ++ List.concat tables /\
  ProcessingComplete ∉ stdout r.
Proof.
  intros Hall Hraise. revert i file out.
  induction Hall as [|c rows cs ts Hc _ IH]; intros i file out Hout.
  - cbn [app process_chunks]. pose proof (process_chunk_log chunk) as Hlog.
    destruct (process_chunk chess_Board chunk) as [r0 warnings].
    simpl in Hraise, Hlog. subst r0. simpl. split; [done|].
    split; [by rewrite app_nil_r|].
    apply not_elem_of_app. split; [done|].
    apply not_elem_of_cons. by split.
  - cbn [app process_chunks]. pose proof (process_chunk_log c) as Hlog.
    destruct (process_chunk chess_Board c) as [r0 warnings].
    simpl in Hc, Hlog. subst r0. cbv zeta.
    match goal with
    | |- context [process_chunks _ (S i) chunk_size _ ?f ?o] =>
        destruct (IH (S i) f o) as (Hr & Hrows & Hstdout)
    end.
    { apply not_elem_of_app. split; [done|].
      apply not_elem_of_cons. split; [done|].
      apply not_elem_of_app. split; [done|].
      by intros [=]%list_elem_of_singleton. }
    split; [done|]. split; [|done].
    rewrite Hrows. destruct file as [f|]; simpl; [by rewrite <- app_assoc|done].
Qed.

(** The run stops at the first chunk that raises: what the chunks before
    it wrote stays in the output file, nothing of that chunk or of a
    later one is written, and the closing line is not printed. *)
Lemma process_chess_data_Raises (input_file : nat -> list (list (cell * cell)))
    (chunk_size : nat) (chunks : list (list (cell * cell)))
    (tables : list (list (list Z))) (chunk : list (cell * cell))
    (later : list (list (cell * cell))) (e : exception) :
  input_file chunk_size = chunks ++ chunk :: later ->
  Forall2 (fun chunk rows => fst (process_chunk chess_Board chunk) = Returns rows)
          chunks tables ->
  fst (process_chunk chess_Board chunk) = Raises e ->
  let r := process_chess_data chess_Board input_file chunk_size in
  raised r = Some e /\
  rows_written (output_file r) = List.concat tables /\
  ProcessingComplete ∉ stdout r.
Proof.
  intros Hfile Hall Hraise r.
  destruct (process_chunks_Raises 0 chunk_size chunks tables chunk later e None
              [StartingProcessing] Hall Hraise) as (Hraised & Hrows & Hstdout).
  { by intros [=]%list_elem_of_singleton. }
  unfold r, process_chess_data. rewrite Hfile, Hraised. done.
Qed.

(** [C8], the input where the code parts from it: a record whose
    description field is empty is read as the float [nan]; [chess.Board]
    raises [AttributeError] on it, which [parse_fen] does not catch.  The
    run stops in the first chunk: no default row is substituted, no
    warning names the record, the next record is not processed and no
    output file is written. *)
Theorem missing_description_aborts_the_run (chunk_size : nat) :
  let chunk := [(nan, Text (text "#+5")); (Text STARTING_FEN, Text (text "+12"))] in
  parse_fen chess_Board nan = (Raises AttributeError, []) /\
  process_chunk chess_Board chunk = (Raises AttributeError, []) /\
  process_chess_data chess_Board (fun _ => [chunk]) chunk_size
  = {| raised := Some AttributeError;
       output_file := None;
       stdout := [StartingProcessing;
                  ProcessingChunk 1 1 (Z.of_nat chunk_size)] |}.
Proof.
  intros chunk. split; [done|]. split; [done|].
  unfold process_chess_data. cbn [process_chunks].
  change (process_chunk chess_Board chunk) with
    (@Raises (list (list Z)) AttributeError, @nil stdout_line).
  cbn. repeat f_equal. lia.
Qed.

End PreprocessingProofs.

(** ** The decoded position *)

Section DecodedPosition.
Context {unicode : UnicodeData}.
Variable chess_Board : str -> option Board.

(** The loop of [parse_fen] over the squares. *)
Local Abbreviation place_pieces board :=
  (foldl (fun board_state i =>
            match piece_at board i with
            | Some symbol =>
                <[i := default 0 (PIECE_MAPPING !! symbol)]> board_state
            | None => board_state
            end)).

Lemma place_pieces_length board (board_state : list Z) (squares : list nat) :
  length (place_pieces board board_state squares) = length board_state.
Proof.
  revert board_state. induction squares as [|i squares IH]; intros bs; [done|].
  cbn [foldl]. rewrite IH. destruct (piece_at board i); [apply length_insert|done].
Qed.

Lemma place_pieces_other board (board_state : list Z) (squares : list nat) (i : nat) :
  i ∉ squares ->
  place_pieces board board_state squares !! i = board_state !! i.
Proof.
  revert board_state. induction squares as [|j squares IH]; intros bs Hi; [done|].
  apply not_elem_of_cons in Hi as [Hij Hi]. cbn [foldl]. rewrite IH by done.
  destruct (piece_at board j); [by apply list_lookup_insert_ne|done].
Qed.

Lemma place_pieces_square board (board_state : list Z) (squares : list nat) (i : nat) :
  NoDup squares -> i ∈ squares -> board_state !! i = Some 0 ->
  place_pieces board board_state squares !! i = Some (piece_code board i).
Proof.
  revert board_state. induction squares as [|j squares IH]; intros bs Hnd Hi Hzero.
  - by apply elem_of_nil in Hi.
  - apply NoDup_cons in Hnd as [Hj Hnd]. cbn [foldl].
    apply elem_of_cons in Hi as [->|Hi].
    + rewrite place_pieces_other by done. unfold piece_code.
      destruct (piece_at board j); [|done].
      apply list_lookup_insert_eq. by eapply lookup_lt_Some.
    + apply IH; [done|done|].
      destruct (piece_at board j); [|done].
      rewrite list_lookup_insert_ne; [done|]. intros ->. done.
Qed.

Lemma board_state_cells board (n : nat) :
  place_pieces board (replicate n 0) (seq 0 n) = map (piece_code board) (seq 0 n).
Proof.
  apply list_eq. intros i. destruct (decide (i < n)%nat) as [Hi|Hi].
  - rewrite place_pieces_square.
    + rewrite list_lookup_fmap, lookup_seq_lt by exact Hi. reflexivity.
    + apply NoDup_seq.
    + apply elem_of_seq. lia.
    + apply lookup_replicate_2. exact Hi.
  - rewrite !lookup_ge_None_2; [reflexivity| |].
    + rewrite length_map, length_seq. lia.
    + rewrite place_pieces_length, length_replicate. lia.
Qed.

(** What [parse_fen] returns for a string that [chess.Board] accepts. *)
Lemma parse_fen_valid (fen_string : str) (board : Board) :
  chess_Board fen_string = Some board ->
  parse_fen chess_Board (Text fen_string)
  = (Returns
       (map (piece_code board) SQUARES ++
        [if Bool.eqb (turn board) WHITE then 1 else 0;
         if Bool.eqb (turn board) BLACK then 1 else 0;
         if has_kingside_castling_rights board WHITE then 1 else 0;
         if has_queenside_castling_rights board WHITE then 1 else 0;
         if has_kingside_castling_rights board BLACK then 1 else 0;
         if has_queenside_castling_rights board BLACK then 1 else 0;
         match ep_square board with Some _ => 1 | None => 0 end;
         halfmove_clock board;
         fullmove_number board]), []).
Proof.
  intros Hb. unfold parse_fen, chess_Board_of. rewrite Hb. cbv zeta.
  unfold SQUARES. rewrite (board_state_cells board 64). reflexivity.
Qed.

Lemma piece_code_range board i : -6 <= piece_code board i <= 6.
Proof.
  unfold piece_code. destruct (piece_at board i) as [symbol|]; [|lia].
  destruct (PIECE_MAPPING !! symbol) as [v|] eqn:E; simpl; [|lia].
  unfold PIECE_MAPPING in E. apply elem_of_list_to_map_2 in E.
  repeat (apply elem_of_cons in E as [E|E]; [simplify_eq; lia|]).
  by apply elem_of_nil in E.
Qed.

Lemma parse_fen_length (fen_string : cell) (features : list Z) :
  fst (parse_fen chess_Board fen_string) = Returns features ->
  length features = 73%nat.
Proof.
  destruct fen_string as [fen|repr]; [|done].
  destruct (chess_Board fen) as [board|] eqn:Hb.
  - rewrite (parse_fen_valid fen board Hb). cbn [fst]. intros [= <-]. reflexivity.
  - rewrite (parse_fen_invalid chess_Board fen Hb). cbn [fst]. by intros [= <-].
Qed.

Lemma column_index_square (i : nat) :
  (i < 64)%nat -> column_index (square_name i) = i.
Proof.
  intros Hi.
  assert (forallb (fun i => (column_index (square_name i) =? i)%nat) (seq 0 64)
          = true) as Hall by (vm_compute; reflexivity).
  rewrite forallb_forall in Hall. apply Nat.eqb_eq, Hall.
  apply list_elem_of_In, elem_of_seq. lia.
Qed.

Lemma feature_record_valid (fen_string : str) (board : Board) (eval_string : cell) :
  chess_Board fen_string = Some board ->
  feature_record chess_Board (Text fen_string, eval_string)
  = Returns
      (map (piece_code board) SQUARES ++
       [if Bool.eqb (turn board) WHITE then 1 else 0;
        if Bool.eqb (turn board) BLACK then 1 else 0;
        if has_kingside_castling_rights board WHITE then 1 else 0;
        if has_queenside_castling_rights board WHITE then 1 else 0;
        if has_kingside_castling_rights board BLACK then 1 else 0;
        if has_queenside_castling_rights board BLACK then 1 else 0;
        match ep_square board with Some _ => 1 | None => 0 end;
        halfmove_clock board;
        fullmove_number board;
        fst (parse_evaluation eval_string)]).
Proof.
  intros Hb. unfold feature_record. cbn [fst snd].
  rewrite (parse_fen_valid fen_string board Hb). cbn [fst].
  rewrite <- app_assoc. reflexivity.
Qed.

Lemma feature_record_invalid (fen_string : str) (eval_string : cell) :
  chess_Board fen_string = None ->
  feature_record chess_Board (Text fen_string, eval_string)
  = Returns (replicate 64 0
             ++ [0; 0; 0; 0; 0; 0; 0; 0; 0; fst (parse_evaluation eval_string)]).
Proof.
  intros Hb. unfold feature_record. cbn [fst snd].
  rewrite (parse_fen_invalid chess_Board fen_string Hb). cbn [fst].
  rewrite <- app_assoc. reflexivity.
Qed.

(** The cells of a row read by the names of [OUTPUT_COLUMNS]. *)
Lemma row_columns (cells : list Z) (a b c d e f g h i j : Z) :
  length cells = 64%nat ->
  let r := cells ++ [a; b; c; d; e; f; g; h; i; j] in
  length r = length OUTPUT_COLUMNS /\
  (forall k, (k < 64)%nat -> col (square_name k) r = default 0 (cells !! k)) /\
  col "is_white_to_move" r = a /\
  col "is_black_to_move" r = b /\
  col "white_kingside_castling" r = c /\
  col "white_queenside_castling" r = d /\
  col "black_kingside_castling" r = e /\
  col "black_queenside_castling" r = f /\
  col "en_passant_available" r = g /\
  col "halfmove_clock" r = h /\
  col "fullmove_counter" r = i /\
  col "evaluation" r = j.
Proof.
  intros Hlen r. split; [unfold r; rewrite length_app, Hlen; reflexivity|].
  split.
  { intros k Hk. unfold col, r. rewrite (column_index_square k Hk).
    by rewrite lookup_app_l by (rewrite Hlen; exact Hk). }
  unfold col, r.
  repeat match goal with
         | |- context [column_index ?name] =>
             let n := eval vm_compute in (column_index name) in
             change (column_index name) with n
         end.
  rewrite !lookup_app_r by (rewrite Hlen; lia). rewrite Hlen.
  repeat split; reflexivity.
Qed.

(** [X3]: for a description that [chess.Board] accepts, [parse_fen]
    prints nothing and returns, square by square from a1 to h8, the code
    of the piece standing on the square (0 on an empty square and for a
    symbol the mapping does not know), followed by the two side-to-move
    flags, the four castling flags, the en-passant flag and the two
    counters; every one of the 64 codes lies between -6 and 6. *)
Theorem parse_fen_decodes_every_square (fen_string : str) (board : Board) :
  chess_Board fen_string = Some board ->
  parse_fen chess_Board (Text fen_string)
  = (Returns
       (map (piece_code board) SQUARES ++
        [if Bool.eqb (turn board) WHITE then 1 else 0;
         if Bool.eqb (turn board) BLACK then 1 else 0;
         if has_kingside_castling_rights board WHITE then 1 else 0;
         if has_queenside_castling_rights board WHITE then 1 else 0;
         if has_kingside_castling_rights board BLACK then 1 else 0;
         if has_queenside_castling_rights board BLACK then 1 else 0;
         match ep_square board with Some _ => 1 | None => 0 end;
         halfmove_clock board;
         fullmove_number board]), []) /\
  Forall (fun code => -6 <= code <= 6) (map (piece_code board) SQUARES).
Proof.
  intros Hb. split; [by apply parse_fen_valid|].
  apply Forall_fmap, Forall_forall. intros i _. apply piece_code_range.
Qed.

(** [X4]: the row written for a record whose description [chess.Board]
    accepts has one cell per name of [OUTPUT_COLUMNS], and read by name
    the cells are the decoded fields: the column of a square holds the
    code of the piece on it, the flag and counter columns hold the
    fields of the board, and [evaluation] holds the parsed evaluation. *)
Theorem named_columns_hold_the_decoded_fields
    (fen_string : str) (board : Board) (eval_string : cell) :
  chess_Board fen_string = Some board ->
  exists r,
    feature_record chess_Board (Text fen_string, eval_string) = Returns r /\
    length r = length OUTPUT_COLUMNS /\
    (forall i, (i < 64)%nat -> col (square_name i) r = piece_code board i) /\
    col "is_white_to_move" r = (if turn board then 1 else 0) /\
    col "is_black_to_move" r = (if turn board then 0 else 1) /\
    col "white_kingside_castling" r
    = (if has_kingside_castling_rights board WHITE then 1 else 0) /\
    col "white_queenside_castling" r
    = (if has_queenside_castling_rights board WHITE then 1 else 0) /\
    col "black_kingside_castling" r
    = (if has_kingside_castling_rights board BLACK then 1 else 0) /\
    col "black_queenside_castling" r
    = (if has_queenside_castling_rights board BLACK then 1 else 0) /\
    col "en_passant_available" r
    = (match ep_square board with Some _ => 1 | None => 0 end) /\
    col "halfmove_clock" r = halfmove_clock board /\
    col "fullmove_counter" r = fullmove_number board /\
    col "evaluation" r = fst (parse_evaluation eval_string).
Proof.
  intros Hb. eexists. split; [by apply feature_record_valid|].
  assert (length (map (piece_code board) SQUARES) = 64%nat) as Hlen
    by (by rewrite length_map).
  destruct (row_columns _
              (if Bool.eqb (turn board) WHITE then 1 else 0)
              (if Bool.eqb (turn board) BLACK then 1 else 0)
              (if has_kingside_castling_rights board WHITE then 1 else 0)
              (if has_queenside_castling_rights board WHITE then 1 else 0)
              (if has_kingside_castling_rights board BLACK then 1 else 0)
              (if has_queenside_castling_rights board BLACK then 1 else 0)
              (match ep_square board with Some _ => 1 | None => 0 end)
              (halfmove_clock board) (fullmove_number board)
              (fst (parse_evaluation eval_string)) Hlen)
    as (H0 & Hsq & H1 & H2 & H3 & H4 & H5 & H6 & H7 & H8 & H9 & H10).
  split; [exact H0|]. split.
  { intros i Hi. rewrite (Hsq i Hi). unfold SQUARES.
    by rewrite list_lookup_fmap, lookup_seq_lt by exact Hi. }
  rewrite H1, H2. repeat split; try done; by destruct (turn board).
Qed.

(** [X5]: the two side-to-move flags tell a decoded row from a default
    row: in the row of a description that [chess.Board] accepts exactly
    one of them is 1, in the row of a description it rejects both are
    0. *)
Theorem side_to_move_flags_tell_decoded_rows
    (fen_string : str) (eval_string : cell) :
  exists r,
    feature_record chess_Board (Text fen_string, eval_string) = Returns r /\
    (is_white_to_move r = 0 \/ is_white_to_move r = 1) /\
    (is_black_to_move r = 0 \/ is_black_to_move r = 1) /\
    is_white_to_move r + is_black_to_move r
    = match chess_Board fen_string with Some _ => 1 | None => 0 end.
Proof.
  destruct (chess_Board fen_string) as [board|] eqn:Hb.
  - eexists. split; [by apply feature_record_valid|].
    assert (length (map (piece_code board) SQUARES) = 64%nat) as Hlen
      by (by rewrite length_map).
    unfold is_white_to_move, is_black_to_move.
    match goal with
    | |- context [col _ (?cells ++ [?a; ?b; ?c; ?d; ?e; ?f; ?g; ?h; ?i; ?j])] =>
        destruct (row_columns cells a b c d e f g h i j Hlen)
          as (_ & _ & -> & -> & _)
    end.
    destruct (turn board); cbn; auto.
  - eexists. split; [by apply feature_record_invalid|].
    split; [by left|]. split; [by left|]. reflexivity.
Qed.

(** [X6]: a chunk that is processed gives one row per record, each with
    one cell per name of [OUTPUT_COLUMNS], so that naming the columns of
    the joined frame succeeds. *)
Theorem processed_chunk_has_one_full_row_per_record
    (chunk : list (cell * cell)) (rows : list (list Z)) :
  fst (process_chunk chess_Board chunk) = Returns rows ->
  length rows = length chunk /\
  Forall (fun r => length r = length OUTPUT_COLUMNS) rows.
Proof.
  intros [_ Hrows]%process_chunk_Returns. split.
  - symmetry. by eapply Forall2_length.
  - induction Hrows as [|record r chunk rows Hr _ IH]; constructor; [|done].
    unfold feature_record in Hr.
    destruct (fst (parse_fen chess_Board (fst record))) as [features|e] eqn:Hf;
      [|done].
    injection Hr as <-. rewrite length_app, (parse_fen_length _ _ Hf).
    reflexivity.
Qed.

Lemma Forall2_concat_rows {A B} (R : A -> B -> Prop)
    (ls : list (list A)) (ks : list (list B)) :
  Forall2 (Forall2 R) ls ks -> Forall2 R (List.concat ls) (List.concat ks).
Proof.
  induction 1 as [|l k ls ks Hlk _ IH]; [constructor|].
  simpl. by apply Forall2_app.
Qed.

(** [X7]: when every chunk read has a row and every description in the
    file is a [str], the streaming stage runs to its end: it writes the
    header once and one row per input record, in input order and across
    the chunk boundaries, whichever records fail to decode or to parse,
    and its last line is the closing message. *)
Theorem streaming_stage_keeps_every_record_in_order
    (input_file : nat -> list (list (cell * cell))) (chunk_size : nat) :
  input_file chunk_size <> [] ->
  Forall (fun chunk =>
            chunk <> [] /\ Forall (fun r => is_text (fst r) = true) chunk)
         (input_file chunk_size) ->
  let r := process_chess_data chess_Board input_file chunk_size in
  raised r = None /\
  option_map csv_header (output_file r) = Some OUTPUT_COLUMNS /\
  Forall2 (fun record row => feature_record chess_Board record = Returns row)
          (List.concat (input_file chunk_size)) (rows_written (output_file r)) /\
  last (stdout r) = Some ProcessingComplete.
Proof.
  intros Hne Hall r.
  assert (exists tables,
            Forall2 (Forall2 (fun record row =>
                                feature_record chess_Board record = Returns row))
                    (input_file chunk_size) tables /\
            Forall2 (fun chunk rows =>
                       fst (process_chunk chess_Board chunk) = Returns rows)
                    (input_file chunk_size) tables) as (tables & Hrows & Htables).
  { clear Hne r. induction Hall as [|chunk chunks [Hchunk Htext] _ (tables & IH1 & IH2)].
    - exists []. split; constructor.
    - destruct (text_rows_decode chess_Board chunk Htext) as [rows Hrows].
      exists (rows :: tables). split; constructor; try done.
      by apply process_chunk_Returns. }
  destruct (process_chess_data_rows chess_Board input_file chunk_size tables Htables)
    as (Hraised & Hwritten & Hheader & Hlast).
  fold r in Hraised, Hwritten, Hheader, Hlast.
  split; [done|]. split; [by apply Hheader|]. split; [|done].
  rewrite Hwritten. by apply Forall2_concat_rows.
Qed.

(** [X8]: the run stops at the first chunk that holds a description that
    is no [str]: it ends with [AttributeError], the rows of the chunks
    before it stay in the output file as they were written, no row of
    the chunk or of a later chunk is written, and the closing message is
    not printed. *)
Theorem rows_written_before_an_abort_stay
    (input_file : nat -> list (list (cell * cell))) (chunk_size : nat)
    (chunks : list (list (cell * cell))) (tables : list (list (list Z)))
    (chunk : list (cell * cell)) (later : list (list (cell * cell))) :
  input_file chunk_size = chunks ++ chunk :: later ->
  Forall2 (fun chunk rows => fst (process_chunk chess_Board chunk) = Returns rows)
          chunks tables ->
  Exists (fun r => is_text (fst r) = false) chunk ->
  let r := process_chess_data chess_Board input_file chunk_size in
  raised r = Some AttributeError /\
  rows_written (output_file r) = List.concat tables /\
  ProcessingComplete ∉ stdout r.
Proof.
  intros Hfile Hall Hex.
  apply (process_chess_data_Raises chess_Board input_file chunk_size chunks tables
           chunk later AttributeError Hfile Hall).
  by apply process_chunk_not_text.
Qed.

(** [X9]: a chunk ends with an exception in two cases and no other: it
    has no row, and naming the columns raises [ValueError]; or one of
    its descriptions is no [str], and [chess.Board] raises
    [AttributeError]. *)
Theorem a_chunk_fails_without_rows_or_on_a_missing_description
    (chunk : list (cell * cell)) (e : exception) :
  fst (process_chunk chess_Board chunk) = Raises e <->
  (chunk = [] /\ e = ValueError) \/
  (Exists (fun r => is_text (fst r) = false) chunk /\ e = AttributeError).
Proof.
  split; [apply process_chunk_Raises|].
  intros [[-> ->]|[Hex ->]]; [reflexivity|by apply process_chunk_not_text].
Qed.

End DecodedPosition.

(** ** [groupby], [take], [concat] and [cut] *)

Section groupby.
Context {A : Type} (key : A -> Z * string).

Lemma groupby_fst (df : list A) :
  map fst (pd.groupby key df)
  = merge_sort pd.key_le (remove_dups (map key df)).
Proof.
  unfold pd.groupby. induction (merge_sort _ _) as [|k ks IH]; [done|].
  simpl. by rewrite IH.
Qed.

Lemma groupby_keys (df : list A) :
  NoDup (map fst (pd.groupby key df)) /\
  forall k, k ∈ map fst (pd.groupby key df) <-> exists r, r ∈ df /\ key r = k.
Proof.
  rewrite groupby_fst.
  split.
  - rewrite merge_sort_Permutation. apply NoDup_remove_dups.
  - intros k. rewrite merge_sort_Permutation, elem_of_remove_dups, list_elem_of_fmap.
    split; [intros (r & -> & Hr)|intros (r & Hr & <-)]; eauto.
Qed.

Lemma groupby_lookup (df : list A) i k rows :
  pd.groupby key df !! i = Some (k, rows) ->
  rows = filter (fun r => key r = k) df /\ rows <> [].
Proof.
  intros Hi. assert (k ∈ map fst (pd.groupby key df)) as Hk.
  { apply list_elem_of_fmap. exists (k, rows). split; [done|].
    by eapply list_elem_of_lookup_2. }
  apply groupby_keys in Hk as (r & Hr & Hkr).
  unfold pd.groupby in Hi. rewrite list_lookup_fmap in Hi.
  destruct (_ !! i) as [k'|]; [|done]. simpl in Hi. simplify_eq.
  split; [done|]. intros Hnil.
  eapply (filter_nil_not_elem_of _ _ r) in Hnil; done.
Qed.

End groupby.

Lemma take_Saved_elem {A} (df : list A) locs out :
  pd.take df locs = Saved out -> forall x, x ∈ out -> x ∈ df.
Proof.
  unfold pd.take. destruct (mapM _ locs) as [rows|] eqn:E; [|done].
  intros ?; simplify_eq. apply mapM_Some in E.
  induction E as [|i y locs rows Hi _ IH]; intros x Hx.
  - by apply elem_of_nil in Hx.
  - apply elem_of_cons in Hx as [->|Hx]; [|by apply IH].
    by eapply list_elem_of_lookup_2.
Qed.

Lemma concat_Saved {A} (dfs : list (list A)) out :
  pd.concat dfs = Saved out -> out = List.concat dfs.
Proof. destruct dfs; simpl; [done|]. by intros ?; simplify_eq. Qed.

Lemma cut_Saved (x bins : list Z) (labels : list (option Z)) :
  pd.cut x bins = Saved labels ->
  exists lowest rest,
    bins = lowest :: rest /\ labels = map (pd.cut_label bins lowest) x.
Proof.
  unfold pd.cut. destruct (negb _); [done|]. destruct (_ && _); [done|].
  destruct bins as [|lowest rest]; [done|]. intros ?; simplify_eq. eauto.
Qed.

Lemma lookup_positions_full {A} (l : list A) :
  mapM (fun i => l !! i) (seq 0 (length l)) = Some l.
Proof.
  apply mapM_Some. apply Forall2_same_length_lookup. split; [by rewrite length_seq|].
  intros i j x Hj Hx. apply lookup_seq in Hj as [-> _]. done.
Qed.

Lemma drawn_without_replacement_refl {A} (l : list A) :
  drawn_without_replacement l l.
Proof. exists (seq 0 (length l)). split; [apply NoDup_seq|apply lookup_positions_full]. Qed.

Lemma drawn_without_replacement_elem {A} (out src : list A) x :
  drawn_without_replacement out src -> x ∈ out -> x ∈ src.
Proof.
  intros (locs & _ & Hm) Hx. eapply (take_Saved_elem src locs out); [|done].
  unfold pd.take. by rewrite Hm.
Qed.

(** ** Column minimum and maximum *)

Lemma foldl_min_spec (l : list Z) (v : Z) :
  foldl Z.min v l ∈ v :: l /\ Forall (fun x => foldl Z.min v l <= x) (v :: l).
Proof.
  revert v. induction l as [|a l IH]; intros v; simpl.
  - split; [by left|]. constructor; [lia|constructor].
  - destruct (IH (Z.min v a)) as [Hin Hall].
    apply Forall_cons in Hall as [Hle Hall]. split.
    + apply elem_of_cons in Hin as [Hin|Hin]; [|by right; right].
      rewrite Hin. destruct (Z.min_spec v a) as [[_ ->]|[_ ->]];
        [by left|right; by left].
    + constructor; [lia|]. constructor; [lia|done].
Qed.

Lemma foldl_max_spec (l : list Z) (v : Z) :
  foldl Z.max v l ∈ v :: l /\ Forall (fun x => x <= foldl Z.max v l) (v :: l).
Proof.
  revert v. induction l as [|a l IH]; intros v; simpl.
  - split; [by left|]. constructor; [lia|constructor].
  - destruct (IH (Z.max v a)) as [Hin Hall].
    apply Forall_cons in Hall as [Hle Hall]. split.
    + apply elem_of_cons in Hin as [Hin|Hin]; [|by right; right].
      rewrite Hin. destruct (Z.max_spec v a) as [[_ ->]|[_ ->]];
        [right; by left|by left].
    + constructor; [lia|]. constructor; [lia|done].
Qed.

Lemma pd_min_spec (x : list Z) (lo : Z) :
  pd.min x = Some lo -> lo ∈ x /\ Forall (fun v => lo <= v) x.
Proof.
  destruct x as [|v x]; [done|]. simpl. intros [= <-]. apply foldl_min_spec.
Qed.

Lemma pd_max_spec (x : list Z) (hi : Z) :
  pd.max x = Some hi -> hi ∈ x /\ Forall (fun v => v <= hi) x.
Proof.
  destruct x as [|v x]; [done|]. simpl. intros [= <-]. apply foldl_max_spec.
Qed.

Lemma pd_min_max_nonempty (x : list Z) :
  x <> [] -> exists lo hi, pd.min x = Some lo /\ pd.max x = Some hi.
Proof. destruct x; [done|]. intros _. simpl. eauto. Qed.

(** ** The bin edges *)

Lemma arange_edges (lo w : Z) (k : nat) :
  0 < w ->
  np.arange lo (lo + Z.of_nat k * w + w) w
  = Saved (map (fun i => lo + Z.of_nat i * w) (seq 0 (S k))).
Proof.
  intros Hw. unfold np.arange.
  destruct (w =? 0) eqn:E; [apply Z.eqb_eq in E; lia|].
  replace (lo - (lo + Z.of_nat k * w + w)) with (- (Z.of_nat k + 1) * w) by lia.
  rewrite Z.div_mul by lia.
  replace (- - (Z.of_nat k + 1)) with (Z.of_nat (S k)) by lia.
  by rewrite Nat2Z.id.
Qed.

Lemma eval_bins_edges (x : list Z) (w lo hi : Z) :
  0 < w -> pd.min x = Some lo -> pd.max x = Some hi ->
  exists k : nat,
    hi / w * w = lo / w * w + Z.of_nat k * w /\
    eval_bins x w
    = Saved (map (fun i => lo / w * w + Z.of_nat i * w) (seq 0 (S k))).
Proof.
  intros Hw Hlo Hhi. unfold eval_bins. rewrite Hlo, Hhi.
  apply pd_min_spec in Hlo as [Hlo_in Hlo]. apply pd_max_spec in Hhi as [Hhi_in Hhi].
  rewrite Forall_forall in Hlo. specialize (Hlo _ Hhi_in).
  assert (lo / w <= hi / w) as Hdiv by (apply Z.div_le_mono; lia).
  exists (Z.to_nat (hi / w - lo / w)).
  assert (hi / w * w = lo / w * w + Z.of_nat (Z.to_nat (hi / w - lo / w)) * w) as Heq.
  { rewrite Z2Nat.id by lia. lia. }
  split; [done|]. rewrite Heq at 1. by apply arange_edges.
Qed.

(** A value at or above the last edge has no label. *)
Lemma cut_label_at_or_above_last_edge (lo w : Z) (k : nat) (v : Z) :
  0 < w -> lo + Z.of_nat k * w <= v ->
  pd.cut_label (map (fun i => lo + Z.of_nat i * w) (seq 0 (S k))) lo v = None.
Proof.
  intros Hw Hv. unfold pd.cut_label, np.searchsorted_right.
  set (bins := map (fun i => lo + Z.of_nat i * w) (seq 0 (S k))).
  assert (filter (fun b => b <= v) bins = bins) as ->.
  { apply filter_all. apply Forall_forall. intros b Hb.
    apply list_elem_of_fmap in Hb as (i & -> & Hi).
    apply elem_of_seq in Hi. nia. }
  assert (length bins = S k) as Hlen.
  { unfold bins. by rewrite length_map, length_seq. }
  destruct (v =? lo) eqn:E.
  - apply Z.eqb_eq in E. assert (k = 0%nat) as -> by nia.
    rewrite Hlen. done.
  - by rewrite Nat.eqb_refl.
Qed.

(** ** The labels [pd.cut] gives *)

Lemma edges_monotonic (lo w : Z) (s n : nat) :
  0 < w ->
  pd.is_monotonic_increasing
    (map (fun i => lo + Z.of_nat i * w) (seq s n)) = true.
Proof.
  intros Hw. revert s. induction n as [|n IH]; intros s; [done|].
  destruct n as [|n]; [done|].
  change (seq s (S (S n))) with (s :: seq (S s) (S n)).
  rewrite fmap_cons. specialize (IH (S s)).
  change (seq (S s) (S n)) with (S s :: seq (S (S s)) n) in *.
  rewrite fmap_cons in *. simpl. simpl in IH. rewrite IH.
  rewrite andb_true_r. apply Z.leb_le. nia.
Qed.

Lemma edges_NoDup (lo w : Z) (n : nat) :
  0 < w -> NoDup (map (fun i => lo + Z.of_nat i * w) (seq 0 n)).
Proof.
  intros Hw. apply NoDup_fmap_2_strong; [|apply NoDup_seq].
  intros i j _ _ Hij. nia.
Qed.

Lemma remove_dups_NoDup {A} `{EqDecision A} (l : list A) :
  NoDup l -> remove_dups l = l.
Proof.
  induction 1 as [|x l Hx _ IH]; [done|]. simpl.
  destruct (decide_rel _ x l); [done|]. by rewrite IH.
Qed.

Lemma cut_edges (x : list Z) (lo w : Z) (k : nat) :
  0 < w ->
  pd.cut x (map (fun i => lo + Z.of_nat i * w) (seq 0 (S k)))
  = Saved (map (pd.cut_label
                  (map (fun i => lo + Z.of_nat i * w) (seq 0 (S k))) lo) x).
Proof.
  intros Hw. unfold pd.cut.
  rewrite edges_monotonic by done. simpl negb. cbv iota.
  rewrite remove_dups_NoDup by (by apply edges_NoDup).
  rewrite Nat.ltb_irrefl. simpl andb. cbv iota.
  change (seq 0 (S k)) with (0%nat :: seq 1 k) at 1. rewrite fmap_cons.
  do 3 f_equal. lia.
Qed.

Lemma count_edges_le (lo w v : Z) (n : nat) :
  0 < w -> lo <= v ->
  length (filter (fun b => b <= v)
            (map (fun i => lo + Z.of_nat i * w) (seq 0 n)))
  = Nat.min n (Z.to_nat ((v - lo) / w) + 1).
Proof.
  intros Hw Hv. induction n as [|n IH]; [done|].
  rewrite seq_S, fmap_app, filter_app, length_app.
  etrans; [apply (f_equal2 Nat.add); [exact IH|reflexivity]|].
  assert (0 <= (v - lo) / w) as Hq by (apply Z.div_pos; lia).
  change ((fun i : nat => lo + Z.of_nat i * w) <$> [(0 + n)%nat])
    with [lo + Z.of_nat n * w].
  rewrite filter_cons, filter_nil.
  destruct (decide (lo + Z.of_nat n * w <= v)) as [Hle|Hgt]; cbn [length].
  - assert (Z.of_nat n <= (v - lo) / w) by (apply Z.div_le_lower_bound; lia).
    lia.
  - assert ((v - lo) / w < Z.of_nat n) by (apply Z.div_lt_upper_bound; lia).
    lia.
Qed.

(** Below the last edge the label is the distance, in bins, from the
    first edge. *)
Lemma cut_label_below_last_edge (lo w : Z) (k : nat) (v : Z) :
  0 < w -> lo <= v < lo + Z.of_nat k * w ->
  pd.cut_label (map (fun i => lo + Z.of_nat i * w) (seq 0 (S k))) lo v
  = Some ((v - lo) / w).
Proof.
  intros Hw [Hlo Hhi]. unfold pd.cut_label, np.searchsorted_right.
  rewrite count_edges_le by done.
  rewrite length_map, length_seq.
  assert (0 <= (v - lo) / w) as Hq by (apply Z.div_pos; lia).
  assert ((v - lo) / w < Z.of_nat k) as Hk by (apply Z.div_lt_upper_bound; lia).
  destruct (v =? lo) eqn:E.
  - apply Z.eqb_eq in E. subst v. rewrite (Z.sub_diag lo) in *.
    rewrite Z.div_0_l by lia.
    destruct k as [|k]; [lia|]. done.
  - replace (Nat.min (S k) (Z.to_nat ((v - lo) / w) + 1))
      with (S (Z.to_nat ((v - lo) / w))) by lia.
    destruct (S (Z.to_nat ((v - lo) / w)) =? S k)%nat eqn:E2;
      [apply Nat.eqb_eq in E2; lia|].
    simpl. f_equal. lia.
Qed.

(** The labels of the observed evaluations in terms of floor division:
    the bin of the specification counted from the bin of the lowest
    observed evaluation, and no label at all in the bin of the highest. *)
Lemma eval_bin_label (x : list Z) (w lo hi : Z) :
  0 < w -> pd.min x = Some lo -> pd.max x = Some hi ->
  exists bins lowest rest,
    eval_bins x w = Saved bins /\ bins = lowest :: rest /\
    pd.cut x bins = Saved (map (pd.cut_label bins lowest) x) /\
    forall v, lo <= v ->
      pd.cut_label bins lowest v
      = if v / w <? hi / w then Some (v / w - lo / w) else None.
Proof.
  intros Hw Hlo Hhi.
  destruct (eval_bins_edges x w lo hi Hw Hlo Hhi) as (k & Hk & Hedges).
  exists (map (fun i => lo / w * w + Z.of_nat i * w) (seq 0 (S k))),
         (lo / w * w), (map (fun i => lo / w * w + Z.of_nat i * w) (seq 1 k)).
  split; [done|]. split; [simpl; do 2 f_equal; lia|].
  split; [by apply cut_edges|]. intros v Hv.
  pose proof (Z.mul_div_le lo w Hw) as Hlo'.
  destruct (v / w <? hi / w) eqn:E.
  - apply Z.ltb_lt in E.
    assert (v < hi / w * w).
    { pose proof (Z.mul_succ_div_gt v w Hw). nia. }
    rewrite cut_label_below_last_edge by lia. f_equal.
    replace (v - lo / w * w) with (v + (- (lo / w)) * w) by lia.
    rewrite Z.div_add by lia. lia.
  - apply Z.ltb_ge in E.
    assert (hi / w * w <= v).
    { pose proof (Z.mul_div_le v w Hw). nia. }
    apply cut_label_at_or_above_last_edge; [done|lia].
Qed.

(** The bins of the two extremes of a column: the highest observed
    evaluation never has a label, and the lowest falls in bin 0 when the
    column spans more than one bin. *)
Lemma bins_of_the_extremes (x : list Z) (w lo hi : Z) :
  0 < w -> pd.min x = Some lo -> pd.max x = Some hi ->
  exists bins lowest rest,
    eval_bins x w = Saved bins /\ bins = lowest :: rest /\
    pd.cut_label bins lowest hi = None /\
    (lo / w < hi / w -> pd.cut_label bins lowest lo = Some 0).
Proof.
  intros Hw Hlo Hhi.
  destruct (eval_bin_label x w lo hi Hw Hlo Hhi)
    as (bins & lowest & rest & Hbins & Hb & _ & Hlabel).
  exists bins, lowest, rest. split; [done|]. split; [done|].
  assert (lo <= hi) as Hle.
  { apply pd_min_spec in Hlo as [_ Hlo]. apply pd_max_spec in Hhi as [Hhi _].
    rewrite Forall_forall in Hlo. by apply Hlo. }
  split.
  - rewrite Hlabel by done. by rewrite Z.ltb_irrefl.
  - intros Hspan. rewrite Hlabel by lia.
    destruct (lo / w <? hi / w) eqn:E; [f_equal; lia|apply Z.ltb_ge in E; lia].
Qed.

(** ** [value_counts] *)

Lemma insert_count_Permutation c l : pd.insert_count c l ≡ₚ c :: l.
Proof.
  induction l as [|c' l IH]; simpl; [done|].
  destruct (_ <? _)%nat; [done|]. rewrite IH. apply Permutation_swap.
Qed.

Lemma sort_counts_Permutation l acc :
  foldl (fun sorted c => pd.insert_count c sorted) acc l ≡ₚ l ++ acc.
Proof.
  revert acc. induction l as [|c l IH]; intros acc; simpl; [done|].
  rewrite IH, insert_count_Permutation. by rewrite Permutation_middle.
Qed.

Lemma value_counts_labels (x : list (option Z)) :
  NoDup (fst <$> pd.value_counts x) /\
  forall b, b ∈ fst <$> pd.value_counts x <-> Some b ∈ x.
Proof.
  unfold pd.value_counts. cbv zeta.
  set (U := pd.unique (omap id x)).
  set (cnt := fun l : Z => (l, length (filter (fun v : option Z => v = Some l) x))).
  assert (fst <$> foldl (fun sorted c => pd.insert_count c sorted) [] (map cnt U)
          ≡ₚ U) as HP.
  { rewrite sort_counts_Permutation, app_nil_r.
    change (map cnt U) with (cnt <$> U). rewrite <- list_fmap_compose.
    by rewrite list_fmap_id. }
  split.
  - rewrite HP. unfold U, pd.unique. rewrite reverse_Permutation.
    apply NoDup_remove_dups.
  - intros b. rewrite HP. unfold U, pd.unique.
    rewrite elem_of_reverse, elem_of_remove_dups, elem_of_reverse, list_elem_of_omap.
    split; [intros (o & Ho & Hid); simpl in Hid; by subst|].
    intros Hb. exists (Some b). done.
Qed.

Lemma zip_map_self {A B} (h : A -> B) (l : list A) :
  zip l (map h l) = map (fun a => (a, h a)) l.
Proof. induction l as [|a l IH]; [done|]. simpl. by rewrite IH. Qed.

Lemma filter_map_fst_labelled {A B} `{EqDecision B} (h : A -> B) (b : B)
    (C : list (A * B)) :
  Forall (fun p => snd p = h (fst p)) C ->
  filter (fun a => h a = b) (map fst C)
  = map fst (filter (fun p : A * B => snd p = b) C).
Proof.
  induction 1 as [|[a b'] C Hp _ IH]; [done|]. simpl in *. subst b'.
  rewrite !filter_cons. simpl.
  destruct (decide (h a = b)); simpl; by rewrite IH.
Qed.

(** ** The min-max transform *)

Lemma MinMaxScaler_fit_transform_scaled (X : list Z) lo hi :
  pd.min X = Some lo -> pd.max X = Some hi ->
  MinMaxScaler_fit_transform X = Saved (map (scaled lo hi) X).
Proof. unfold MinMaxScaler_fit_transform. by intros -> ->. Qed.

Lemma scaled_lowest lo hi : (scaled lo hi lo == -1)%Q.
Proof. unfold scaled. cbv zeta. ring. Qed.



Lemma scaled_constant lo : (scaled lo lo lo == -1)%Q.
Proof. apply scaled_lowest. Qed.

Lemma normalize_evaluations_scaled (df : DataFrame) lo hi :
  pd.min (map evaluation df) = Some lo ->
  pd.max (map evaluation df) = Some hi ->
  normalize_evaluations df
  = Saved (map (fun r => (r, scaled lo hi (evaluation r))) df).
Proof.
  intros Hlo Hhi. unfold normalize_evaluations.
  rewrite (MinMaxScaler_fit_transform_scaled _ lo hi Hlo Hhi). f_equal.
  clear Hlo Hhi. induction df as [|r df IH]; [done|]. simpl. by rewrite IH.
Qed.




(** ** The balancing scripts *)

Section BalancingProofs.
Context `{RandomSource}.

(** ** The result monad *)

Lemma bind_Saved {A B} (m : M A) (k : A -> M B) g b g' :
  bind m k g = (Saved b, g') ->
  exists a g1, m g = (Saved a, g1) /\ k a g1 = (Saved b, g').
Proof.
  unfold bind. destruct (m g) as [[a| |] g1]; [eauto|done|done].
Qed.

Lemma lift_Saved {A} (r : result A) g a g' :
  lift r g = (Saved a, g') -> r = Saved a /\ g' = g.
Proof. unfold lift. by intros [= -> ->]. Qed.

Lemma mapM_groups_Saved {A B} (f : A -> M B) l g bs g' :
  mapM_groups f l g = (Saved bs, g') ->
  Forall2 (fun a b => exists g1 g2, f a g1 = (Saved b, g2)) l bs.
Proof.
  revert g bs. induction l as [|a l IH]; intros g bs; simpl.
  - unfold ret. intros ?. simplify_eq. constructor.
  - intros (b & g1 & Hb & Hk)%bind_Saved.
    apply bind_Saved in Hk as (bs' & g2 & Hbs & Hr).
    unfold ret in Hr. simplify_eq.
    constructor; [eauto|]. by eapply IH.
Qed.

Lemma mapM_groups_total {A B} (P : A -> B -> Prop) (f : A -> M B) l g :
  (forall a, a ∈ l -> exists b, f a g = (Saved b, g) /\ P a b) ->
  exists bs, mapM_groups f l g = (Saved bs, g) /\ Forall2 P l bs.
Proof.
  induction l as [|a l IH]; intros Hf; simpl.
  - exists []. split; [done|constructor].
  - destruct (Hf a) as (b & Hb & HP); [by left|].
    destruct IH as (bs & Hbs & HPs); [intros a' Ha'; apply Hf; by right|].
    exists (b :: bs). split; [|by constructor].
    unfold bind. rewrite Hb, Hbs. done.
Qed.

(** ** Computations that leave the global generator alone *)

Lemma ambient_free_ret {A} (a : A) : ambient_free (ret a).
Proof. by exists (Saved a). Qed.

Lemma ambient_free_lift {A} (r : result A) : ambient_free (lift r).
Proof. by exists r. Qed.

Lemma ambient_free_exit {A} m : ambient_free (@exit _ A m).
Proof. apply ambient_free_lift. Qed.

Lemma ambient_free_bind {A B} (m : M A) (k : A -> M B) :
  ambient_free m -> (forall a, ambient_free (k a)) -> ambient_free (bind m k).
Proof.
  intros [r Hr] Hk. destruct r as [a|e|e].
  - destruct (Hk a) as [r' Hr']. exists r'. intros g. unfold bind. by rewrite Hr, Hr'.
  - exists (Exited e). intros g. unfold bind. by rewrite Hr.
  - exists (Raised e). intros g. unfold bind. by rewrite Hr.
Qed.

Lemma ambient_free_sample_seeded {A} (df : list A) n seed :
  ambient_free (sample df n (Some seed)).
Proof.
  unfold sample.
  destruct (n <? 0); [by exists (Raised ValueError)|].
  destruct (Z.of_nat (length df) <? n); [by exists (Raised ValueError)|].
  destruct (choice (RandomState seed) (length df) (Z.to_nat n)) as [locs g0].
  by exists (pd.take df locs).
Qed.

Lemma ambient_free_mapM_groups {A B} (f : A -> M B) l :
  (forall a, ambient_free (f a)) -> ambient_free (mapM_groups f l).
Proof.
  intros Hf. induction l as [|a l IH]; simpl.
  - apply ambient_free_ret.
  - apply ambient_free_bind; [apply Hf|]. intros b.
    apply ambient_free_bind; [apply IH|]. intros bs. apply ambient_free_ret.
Qed.

Create HintDb ambient.
#[local] Hint Resolve ambient_free_ret ambient_free_lift ambient_free_exit
  ambient_free_sample_seeded : ambient.

Ltac ambient :=
  repeat first
    [ progress cbv zeta
    | solve [auto with ambient]
    | apply ambient_free_sample_seeded
    | simple apply ambient_free_bind; [|intros ?]
    | simple apply ambient_free_mapM_groups; intros ?
    | match goal with
      | |- ambient_free (if ?b then _ else _) => destruct b
      | |- ambient_free (match ?x with _ => _ end) => destruct x
      end ].

Lemma ambient_free_balance_primary_groups df :
  ambient_free (balance_primary_groups df).
Proof. unfold balance_primary_groups. ambient. Qed.

Lemma ambient_free_balance_evaluation_bins df w target :
  ambient_free (balance_evaluation_bins df w target).
Proof. unfold balance_evaluation_bins. ambient. Qed.

#[local] Hint Resolve ambient_free_balance_primary_groups
  ambient_free_balance_evaluation_bins : ambient.

Lemma ambient_free_filter_balance_normalize_data input a b w t c :
  ambient_free (filter_balance_normalize_data input a b w t c).
Proof. unfold filter_balance_normalize_data. ambient. Qed.

Lemma ambient_free_filter_balance_data_no_normalize input a b w t :
  ambient_free (filter_balance_data_no_normalize input a b w t).
Proof. unfold filter_balance_data_no_normalize. ambient. Qed.

(** [C9]: two runs of a balancing script on the same input and
    configuration give the same result whatever the states [g1] and [g2]
    of the process-wide random generator they start in: every sampling
    call, for a category group and for an evaluation bin alike, draws from
    a generator made afresh from the seed 42, so the rows selected do not
    depend on the global generator. *)
Theorem balancing_runs_select_the_same_rows
    (input_file : option DataFrame)
    (min_move max_move eval_bin_size min_positions_per_eval_bin
     eval_capping_threshold : Z) (g1 g2 : rng) :
  fst (filter_balance_normalize_data input_file min_move max_move eval_bin_size
         min_positions_per_eval_bin eval_capping_threshold g1)
  = fst (filter_balance_normalize_data input_file min_move max_move eval_bin_size
           min_positions_per_eval_bin eval_capping_threshold g2)
  /\
  fst (filter_balance_data_no_normalize input_file min_move max_move
         eval_bin_size min_positions_per_eval_bin g1)
  = fst (filter_balance_data_no_normalize input_file min_move max_move
           eval_bin_size min_positions_per_eval_bin g2).
Proof.
  split.
  - destruct (ambient_free_filter_balance_normalize_data input_file min_move
                max_move eval_bin_size min_positions_per_eval_bin
                eval_capping_threshold) as [r Hr].
    by rewrite !Hr.
  - destruct (ambient_free_filter_balance_data_no_normalize input_file min_move
                max_move eval_bin_size min_positions_per_eval_bin) as [r Hr].
    by rewrite !Hr.
Qed.

(** ** Where the rows of a result come from *)

Lemma sample_Saved_elem {A} (df : list A) n random_state g out g' :
  sample df n random_state g = (Saved out, g') -> forall x, x ∈ out -> x ∈ df.
Proof.
  unfold sample.
  destruct (n <? 0); [done|].
  destruct (Z.of_nat (length df) <? n); [done|].
  destruct random_state as [seed|].
  - destruct (choice _ _ _) as [locs g0]. intros ?; simplify_eq.
    by eapply take_Saved_elem.
  - destruct (choice _ _ _) as [locs g0]. intros ?; simplify_eq.
    by eapply take_Saved_elem.
Qed.

Lemma balance_primary_groups_elem df g out g' :
  balance_primary_groups df g = (Saved out, g') ->
  forall r, r ∈ out -> r ∈ df.
Proof.
  unfold balance_primary_groups.
  set (grouped := pd.groupby primary_key df).
  set (c := min_group_count grouped).
  intros Hrun.
  assert (exists bs g1,
    mapM_groups
      (fun g : (Z * string) * DataFrame =>
         let group := snd g in
         match c with
         | Finite n =>
             if Z.of_nat (length group) >? n
             then sample group n (Some 42)
             else ret group
         | Infinity => ret group
         end) grouped g = (Saved bs, g1) /\ out = List.concat bs)
    as (bs & g1 & Hbs & ->).
  { destruct c as [|[| |]]; try done;
      apply bind_Saved in Hrun as (bs & g1 & Hbs & Hc);
      apply lift_Saved in Hc as [Hc _]; apply concat_Saved in Hc; eauto. }
  apply mapM_groups_Saved in Hbs.
  intros r Hr. apply elem_of_concat in Hr as (b & Hrb & Hb).
  apply list_elem_of_lookup in Hb as [i Hi].
  destruct (Forall2_lookup_r _ _ _ _ _ Hbs Hi) as ([k rows] & Hk & g2 & g3 & Hf).
  assert (r ∈ rows) as Hrows.
  { simpl in Hf. destruct c as [|n].
    - unfold ret in Hf. by simplify_eq.
    - destruct (Z.of_nat (length rows) >? n).
      + by eapply sample_Saved_elem.
      + unfold ret in Hf. by simplify_eq. }
  apply list_elem_of_lookup_2 in Hk. unfold grouped, pd.groupby in Hk.
  apply list_elem_of_fmap in Hk as (k' & Heq & _). simplify_eq.
  by apply list_elem_of_filter in Hrows as [_ ?].
Qed.

Lemma balance_evaluation_bins_labelled df w target g out g' :
  balance_evaluation_bins df w target g = (Saved out, g') ->
  exists bins lowest rest,
    eval_bins (map evaluation df) w = Saved bins /\
    bins = lowest :: rest /\
    forall r, r ∈ out ->
      r ∈ df /\ is_Some (pd.cut_label bins lowest (evaluation r)).
Proof.
  unfold balance_evaluation_bins. intros Hrun.
  apply bind_Saved in Hrun as (bins & g1 & Hbins & Hrun).
  apply lift_Saved in Hbins as [Hbins ->].
  apply bind_Saved in Hrun as (eval_bin & g2 & Hcut & Hrun).
  apply lift_Saved in Hcut as [Hcut ->].
  apply cut_Saved in Hcut as (lowest & rest & Hb & Hlabels).
  exists bins, lowest, rest. split; [done|]. split; [done|].
  cbv zeta in Hrun.
  destruct (pd.value_counts eval_bin) as [|bc bcs]; [done|].
  apply bind_Saved in Hrun as (bs & g3 & Hbs & Hrun).
  apply bind_Saved in Hrun as (final & g4 & Hc & Hrun).
  apply lift_Saved in Hc as [Hc _]. apply concat_Saved in Hc.
  unfold ret in Hrun. simplify_eq.
  apply mapM_groups_Saved in Hbs.
  intros r Hr. apply list_elem_of_fmap in Hr as ([r' l] & -> & Hr). simpl.
  apply elem_of_concat in Hr as (b & Hrb & Hb).
  apply list_elem_of_lookup in Hb as [i Hi].
  destruct (Forall2_lookup_r _ _ _ _ _ Hbs Hi) as (label & _ & g5 & g6 & Hf).
  assert ((r', l) ∈ filter (fun r : row * option Z => snd r = Some label)
            (zip df (map (pd.cut_label (lowest :: rest) lowest)
                         (map evaluation df)))) as Hin.
  { simpl in Hf. destruct (Z.of_nat _ >? target).
    - by eapply sample_Saved_elem.
    - unfold ret in Hf. by simplify_eq. }
  apply list_elem_of_filter in Hin as [Hl Hin]. simpl in Hl. subst l.
  rewrite <- list_fmap_compose in Hin.
  apply elem_of_zip_map in Hin as [Hdf Hlabel]. split; [done|].
  simpl in Hlabel. by rewrite <- Hlabel.
Qed.

(** Whatever the table, the rows at or above the last bin edge, the row
    with the highest evaluation among them, are in no bin and are dropped
    by the bin balancing. *)
Lemma top_rows_never_survive_binning df w target g out g' highest :
  0 < w ->
  pd.max (map evaluation df) = Some highest ->
  balance_evaluation_bins df w target g = (Saved out, g') ->
  forall r, r ∈ out -> evaluation r < highest / w * w <= highest.
Proof.
  intros Hw Hhi Hrun r Hr.
  destruct (balance_evaluation_bins_labelled _ _ _ _ _ _ Hrun)
    as (bins & lowest & rest & Hbins & Hb & Hout).
  destruct (Hout r Hr) as [Hdf Hlabel].
  destruct (pd_min_max_nonempty (map evaluation df)) as (lo & hi' & Hlo & Hhi').
  { intros E. by rewrite E in Hhi. }
  destruct (eval_bins_edges _ w lo highest Hw Hlo Hhi) as (k & Hk & Hedges).
  rewrite Hbins in Hedges. injection Hedges as Hedges.
  assert (lowest = lo / w * w) as Hlowest.
  { rewrite Hb in Hedges. simpl in Hedges. injection Hedges as -> _. lia. }
  split; [|pose proof (Z.mul_div_le highest w Hw); lia].
  destruct (Z.lt_ge_cases (evaluation r) (highest / w * w)) as [|Hge]; [done|].
  exfalso. rewrite Hedges, Hlowest in Hlabel.
  rewrite (cut_label_at_or_above_last_edge (lo / w * w) w k) in Hlabel; [|done|lia].
  by destruct Hlabel.
Qed.

Lemma balance_evaluation_bins_elem df w target g out g' :
  balance_evaluation_bins df w target g = (Saved out, g') ->
  forall r, r ∈ out -> r ∈ df.
Proof.
  intros Hrun r Hr.
  destruct (balance_evaluation_bins_labelled _ _ _ _ _ _ Hrun)
    as (bins & lowest & rest & _ & _ & Hout).
  by destruct (Hout r Hr).
Qed.

Lemma normalize_evaluations_rows df out :
  normalize_evaluations df = Saved out -> forall p, p ∈ out -> fst p ∈ df.
Proof.
  unfold normalize_evaluations.
  destruct (MinMaxScaler_fit_transform _) as [norm| |]; [|done|done].
  intros ?; simplify_eq. intros [r q] Hp. by apply elem_of_zip_l in Hp.
Qed.

Lemma filter_balance_data_no_normalize_rows input min_move max_move w target g out g' :
  filter_balance_data_no_normalize input min_move max_move w target g
  = (Saved out, g') ->
  forall r, r ∈ out ->
    exists df, input = Some df /\ r ∈ filter_moves df min_move max_move.
Proof.
  unfold filter_balance_data_no_normalize. destruct input as [df|]; [|done].
  destruct (bool_decide _); [done|]. cbv zeta.
  destruct (bool_decide _); [done|].
  intros (primary & g1 & Hp & Hb)%bind_Saved r Hr.
  exists df. split; [done|].
  eapply balance_evaluation_bins_elem in Hr; [|done].
  eapply balance_primary_groups_elem in Hr; [|done].
  unfold centipawns in Hr. by apply list_elem_of_filter in Hr as [_ ?].
Qed.

Lemma filter_balance_normalize_data_rows input min_move max_move w target cap g out g' :
  filter_balance_normalize_data input min_move max_move w target cap g
  = (Saved out, g') ->
  forall p, p ∈ out ->
    exists df, input = Some df /\ fst p ∈ filter_moves df min_move max_move.
Proof.
  unfold filter_balance_normalize_data. destruct input as [df|]; [|done].
  destruct (bool_decide _); [done|]. cbv zeta.
  destruct (bool_decide _); [done|].
  destruct (bool_decide _); [done|].
  intros (primary & g1 & Hp & Hb)%bind_Saved p Hr.
  apply bind_Saved in Hb as (final & g2 & Hb & Hn).
  apply lift_Saved in Hn as [Hn _].
  exists df. split; [done|].
  eapply normalize_evaluations_rows in Hr; [|done].
  eapply balance_evaluation_bins_elem in Hr; [|done].
  eapply balance_primary_groups_elem in Hr; [|done].
  apply list_elem_of_filter in Hr as [_ Hr].
  unfold centipawns in Hr. by apply list_elem_of_filter in Hr as [_ ?].
Qed.

(** ** The primary groups *)

Lemma foldl_min_count (grouped : list ((Z * string) * DataFrame)) (a : nat) :
  exists m : nat,
    foldl (fun c g =>
             if len_lt (length (snd g)) c
             then Finite (Z.of_nat (length (snd g))) else c)
          (Finite (Z.of_nat a)) grouped = Finite (Z.of_nat m) /\
    (m <= a)%nat /\
    Forall (fun g => (m <= length (snd g))%nat) grouped /\
    (m = a \/ exists g, g ∈ grouped /\ length (snd g) = m).
Proof.
  revert a. induction grouped as [|g grouped IH]; intros a; simpl.
  - exists a. split; [done|]. split; [lia|]. split; [constructor|by left].
  - destruct (_ <? _) eqn:E.
    + apply Z.ltb_lt in E.
      destruct (IH (length (snd g))) as (m & Hm & Hle & Hall & Hex).
      exists m. split; [done|]. split; [lia|]. split; [by constructor|].
      right. destruct Hex as [->|(g' & Hg' & Hlen)].
      * exists g. split; [by left|done].
      * exists g'. split; [by right|done].
    + apply Z.ltb_ge in E.
      destruct (IH a) as (m & Hm & Hle & Hall & Hex).
      exists m. split; [done|]. split; [done|]. split; [constructor; [lia|done]|].
      destruct Hex as [->|(g' & Hg' & Hlen)]; [by left|].
      right. exists g'. split; [by right|done].
Qed.

Lemma min_group_count_spec (grouped : list ((Z * string) * DataFrame)) :
  grouped <> [] ->
  Forall (fun g => snd g <> []) grouped ->
  exists m : nat,
    min_group_count grouped = Finite (Z.of_nat m) /\
    (1 <= m)%nat /\
    Forall (fun g => (m <= length (snd g))%nat) grouped /\
    exists g, g ∈ grouped /\ length (snd g) = m.
Proof.
  destruct grouped as [|g grouped]; [done|]. intros _ Hne.
  unfold min_group_count. simpl.
  destruct (foldl_min_count grouped (length (snd g))) as (m & Hm & Hle & Hall & Hex).
  exists m. split; [done|].
  assert (exists g', g' ∈ g :: grouped /\ length (snd g') = m) as Hex'.
  { destruct Hex as [->|(g' & Hg' & Hlen)].
    - exists g. split; [by left|done].
    - exists g'. split; [by right|done]. }
  split; [|split; [constructor; [lia|done]|done]].
  destruct Hex' as (g' & Hg' & <-).
  rewrite Forall_forall in Hne. specialize (Hne g' Hg').
  destruct (snd g'); [done|simpl; lia].
Qed.

(** The guard [min_primary_group_count == 0] never holds: [groupby]
    yields only groups that have rows. *)
Lemma primary_group_guard_is_dead (df : DataFrame) :
  min_group_count (pd.groupby primary_key df) <> Finite 0.
Proof.
  destruct (pd.groupby primary_key df) as [|g grouped] eqn:E; [done|].
  destruct (min_group_count_spec (g :: grouped)) as (m & Hm & Hpos & _); [done| |].
  - rewrite <- E. apply Forall_lookup. intros i [k rows] Hi.
    by apply groupby_lookup in Hi as [_ ?].
  - rewrite Hm. intros [= Hz]. lia.
Qed.

Lemma sample_seeded_contract {A} (df : list A) (n : nat) seed g :
  draws_without_replacement ->
  (n <= length df)%nat ->
  exists out,
    sample df (Z.of_nat n) (Some seed) g = (Saved out, g) /\
    length out = n /\ drawn_without_replacement out df /\
    mapM (fun i => df !! i) (fst (choice (RandomState seed) (length df) n))
    = Some out.
Proof.
  intros Hc Hn. unfold sample.
  destruct (Z.of_nat n <? 0) eqn:E1; [apply Z.ltb_lt in E1; lia|].
  destruct (Z.of_nat (length df) <? Z.of_nat n) eqn:E2; [apply Z.ltb_lt in E2; lia|].
  rewrite Nat2Z.id.
  destruct (Hc (RandomState seed) (length df) n Hn) as (Hlen & Hnd & Hlt).
  destruct (choice (RandomState seed) (length df) n) as [locs g0]. simpl in *.
  destruct (mapM (fun i => df !! i) locs) as [out|] eqn:Hm.
  - exists out. unfold pd.take. rewrite Hm. split; [done|]. split; [|split].
    + apply length_mapM in Hm. lia.
    + by exists locs.
    + done.
  - exfalso. assert (is_Some (mapM (fun i => df !! i) locs)) as [? ?]; [|congruence].
    apply mapM_is_Some. eapply Forall_impl; [exact Hlt|].
    intros i Hi. by apply lookup_lt_is_Some.
Qed.

Lemma groupby_group_rows (df : DataFrame) (k : Z * string) :
  group_rows k df <> [] ->
  exists i, pd.groupby primary_key df !! i = Some (k, group_rows k df).
Proof.
  intros Hne.
  assert (k ∈ map fst (pd.groupby primary_key df)) as Hk.
  { apply groupby_keys. destruct (group_rows k df) as [|r rows] eqn:E; [done|].
    assert (r ∈ group_rows k df) as Hr by (rewrite E; by left).
    apply list_elem_of_filter in Hr as [? ?]. eauto. }
  apply list_elem_of_fmap in Hk as ([k' rows] & -> & Hin).
  apply list_elem_of_lookup in Hin as [i Hi]. exists i.
  destruct (groupby_lookup primary_key df i k' rows Hi) as [-> _]. done.
Qed.

(** [C4]: when [choice] honours its contract, category balancing of a
    non-empty table succeeds, and with [target] the smallest size among
    the non-empty (side-to-move, outcome) groups of the input, every
    non-empty group has exactly [target] rows in the output, drawn from
    the group's input rows at pairwise distinct positions (without
    replacement); a group whose input size is [target] is kept whole, a
    larger group is cut down to the rows at the positions that a generator
    made from the seed 42 draws; and no group of the output has more than
    [target] rows. *)
Theorem primary_groups_balanced_to_minimum (df_centipawns : DataFrame) (g : rng) :
  draws_without_replacement ->
  df_centipawns <> [] ->
  exists (target : nat) (out : DataFrame),
    balance_primary_groups df_centipawns g = (Saved out, g) /\
    (exists k, group_rows k df_centipawns <> [] /\
               length (group_rows k df_centipawns) = target) /\
    (forall k, group_rows k df_centipawns <> [] ->
               (target <= length (group_rows k df_centipawns))%nat) /\
    (forall k, group_rows k df_centipawns <> [] ->
       length (group_rows k out) = target /\
       drawn_without_replacement (group_rows k out) (group_rows k df_centipawns) /\
       (length (group_rows k df_centipawns) = target ->
        group_rows k out = group_rows k df_centipawns) /\
       ((target < length (group_rows k df_centipawns))%nat ->
        mapM (fun i => group_rows k df_centipawns !! i)
             (fst (choice (RandomState 42)
                          (length (group_rows k df_centipawns)) target))
        = Some (group_rows k out))) /\
    (forall k, (length (group_rows k out) <= target)%nat).
Proof.
  intros Hc Hdf.
  set (grouped := pd.groupby primary_key df_centipawns).
  assert (Forall (fun kg => snd kg <> []) grouped) as Hne.
  { apply Forall_lookup. intros i [k rows] Hi.
    by apply groupby_lookup in Hi as [_ ?]. }
  assert (grouped <> []) as Hgrouped.
  { destruct df_centipawns as [|r df]; [done|].
    assert (primary_key r ∈ map fst grouped) as Hk.
    { apply groupby_keys. exists r. split; [by left|done]. }
    intros E. rewrite E in Hk. by apply elem_of_nil in Hk. }
  destruct (min_group_count_spec grouped Hgrouped Hne)
    as (m & Hm & Hpos & Hall & (kg0 & Hkg0 & Hlen0)).
  assert (balance_primary_groups df_centipawns g
          = bind (mapM_groups
                    (fun kg : (Z * string) * DataFrame =>
                       if Z.of_nat (length (snd kg)) >? Z.of_nat m
                       then sample (snd kg) (Z.of_nat m) (Some 42)
                       else ret (snd kg)) grouped)
                 (fun bs => lift (pd.concat bs)) g) as Hrun.
  { unfold balance_primary_groups. fold grouped. rewrite Hm.
    destruct (Z.of_nat m) eqn:Ez; [lia|done|done]. }
  set (P := fun (kg : (Z * string) * DataFrame) (b : DataFrame) =>
              length b = m /\ drawn_without_replacement b (snd kg) /\
              (length (snd kg) = m -> b = snd kg) /\
              ((m < length (snd kg))%nat ->
               mapM (fun i => snd kg !! i)
                    (fst (choice (RandomState 42) (length (snd kg)) m))
               = Some b) /\
              Forall (fun r => primary_key r = fst kg) b).
  destruct (mapM_groups_total P
              (fun kg : (Z * string) * DataFrame =>
                 if Z.of_nat (length (snd kg)) >? Z.of_nat m
                 then sample (snd kg) (Z.of_nat m) (Some 42)
                 else ret (snd kg)) grouped g) as (bs & Hbs & HP).
  { intros [k rows] Hin. simpl.
    rewrite Forall_forall in Hall. specialize (Hall _ Hin). simpl in Hall.
    apply list_elem_of_lookup in Hin as [i Hi].
    apply groupby_lookup in Hi as [Hrows _].
    assert (forall b, drawn_without_replacement b rows ->
                      Forall (fun r => primary_key r = k) b) as Hkey.
    { intros b Hd. apply Forall_forall. intros r Hr.
      eapply drawn_without_replacement_elem in Hr; [|done].
      rewrite Hrows in Hr. by apply list_elem_of_filter in Hr as [? _]. }
    destruct (Z.of_nat (length rows) >? Z.of_nat m) eqn:E.
    - destruct (sample_seeded_contract rows m 42 g Hc Hall)
        as (b & Hb & Hlen & Hd & Hlocs).
      exists b. split; [done|]. unfold P. simpl.
      split; [done|]. split; [done|]. split; [|split; [done|by apply Hkey]].
      intros Heq. apply Z.gtb_lt in E. lia.
    - exists rows. split; [done|].
      assert (length rows = m) as Hlen.
      { rewrite Z.gtb_ltb in E. apply Z.ltb_ge in E. lia. }
      unfold P. simpl. split; [done|].
      split; [apply drawn_without_replacement_refl|].
      split; [done|]. split; [lia|].
      apply Hkey, drawn_without_replacement_refl. }
  assert (Forall2 (fun k p => Forall (fun r => primary_key r = k) p)
                  (map fst grouped) bs) as Hkeyed.
  { apply Forall2_fmap_l. eapply Forall2_impl; [exact HP|].
    by intros [k rows] b (_ & _ & _ & _ & ?). }
  assert (NoDup (map fst grouped)) as Hnd by apply groupby_keys.
  assert (bs <> []) as Hbsne.
  { intros ->. apply Forall2_nil_inv_r in HP. done. }
  exists m, (List.concat bs). split.
  { rewrite Hrun. unfold bind. rewrite Hbs. unfold lift.
    destruct bs; [done|done]. }
  assert (forall k, group_rows k df_centipawns <> [] ->
            exists b, group_rows k (List.concat bs) = b /\
                      P (k, group_rows k df_centipawns) b) as Hgroup.
  { intros k Hk. destruct (groupby_group_rows df_centipawns k Hk) as [i Hi].
    fold grouped in Hi.
    destruct (Forall2_lookup_l _ _ _ _ _ HP Hi) as (b & Hb & HPb).
    exists b. split; [|done].
    apply (filter_concat_keyed primary_key (map fst grouped) bs Hnd Hkeyed i k b);
      [|done].
    by rewrite list_lookup_fmap, Hi. }
  split.
  { destruct kg0 as [k0 rows0]. apply list_elem_of_lookup in Hkg0 as [i Hi].
    destruct (groupby_lookup primary_key df_centipawns i k0 rows0 Hi) as [-> Hne0].
    exists k0. split; done. }
  split.
  { intros k Hk. destruct (groupby_group_rows df_centipawns k Hk) as [i Hi].
    rewrite Forall_forall in Hall.
    apply (Hall (k, group_rows k df_centipawns)).
    by eapply list_elem_of_lookup_2. }
  split.
  { intros k Hk.
    destruct (Hgroup k Hk) as (b & -> & Hlen & Hd & Hsame & Hlocs & _). done. }
  intros k. destruct (decide (group_rows k df_centipawns = [])) as [Hnil|Hk].
  - unfold group_rows.
    rewrite (filter_concat_other primary_key (map fst grouped) bs k Hkeyed);
      [simpl; lia|].
    intros Hin.
    apply (proj2 (groupby_keys primary_key df_centipawns)) in Hin as (r & Hr & Hkr).
    unfold group_rows in Hnil.
    by apply (filter_nil_not_elem_of _ _ r Hnil Hkr).
  - destruct (Hgroup k Hk) as (b & -> & Hlen & _). lia.
Qed.

(** ** The evaluation bins *)

(** [X14]: what the bin balancing keeps: when the observed evaluations
    span more than one bin of the specification, the stage saves its
    output; every bin below the bin of the highest observed evaluation
    has at most [target] rows in the output and keeps all its rows when
    it had at most [target]; the bin of the highest observed evaluation
    is emptied. *)
Lemma bins_below_the_top_respect_the_target
    (df : DataFrame) (w target : Z) (g : rng) (lo hi : Z) :
  draws_without_replacement ->
  0 < w -> 0 <= target ->
  pd.min (map evaluation df) = Some lo ->
  pd.max (map evaluation df) = Some hi ->
  lo / w < hi / w ->
  exists out,
    balance_evaluation_bins df w target g = (Saved out, g) /\
    forall e,
      (e < hi / w ->
       Z.of_nat (length (filter (fun r => EvalBin w r = e) out)) <= target /\
       (Z.of_nat (length (filter (fun r => EvalBin w r = e) df)) <= target ->
        filter (fun r => EvalBin w r = e) out
        = filter (fun r => EvalBin w r = e) df)) /\
      (hi / w <= e -> filter (fun r => EvalBin w r = e) out = []).
Proof.
  intros Hc Hw Htarget Hlo Hhi Hspan.
  destruct (eval_bin_label (map evaluation df) w lo hi Hw Hlo Hhi)
    as (bins & lowest & rest & Hbins & Hb & Hcut & Hlabel).
  set (label_of := fun r : row =>
         if EvalBin w r <? hi / w then Some (EvalBin w r - lo / w) else None).
  assert (map (pd.cut_label bins lowest) (map evaluation df) = map label_of df)
    as Hlabels.
  { rewrite <- list_fmap_compose. apply list_fmap_ext. intros i r Hr. simpl.
    apply Hlabel. apply pd_min_spec in Hlo as [_ Hlo].
    rewrite Forall_forall in Hlo. apply Hlo, list_elem_of_fmap.
    exists r. split; [done|]. by eapply list_elem_of_lookup_2. }
  rewrite Hlabels in Hcut.
  set (zipped := map (fun r => (r, label_of r)) df).
  set (keys := fst <$> pd.value_counts (map label_of df)).
  destruct (value_counts_labels (map label_of df)) as [Hnd Hkeys]. fold keys in Hnd, Hkeys.
  set (bin_df := fun b : Z =>
         filter (fun p : row * option Z => snd p = Some b) zipped).
  set (P := fun (b : Z) (piece : list (row * option Z)) =>
              Forall (fun p => snd p = Some b /\ snd p = label_of (fst p)) piece /\
              Z.of_nat (length piece) <= target /\
              (Z.of_nat (length (bin_df b)) <= target -> piece = bin_df b)).
  assert (forall p, p ∈ zipped -> snd p = label_of (fst p)) as Hzipped.
  { intros p (r & -> & _)%list_elem_of_fmap. done. }
  destruct (mapM_groups_total P
              (fun bin_label : Z =>
                 if Z.of_nat (length (bin_df bin_label)) >? target
                 then sample (bin_df bin_label) target (Some 42)
                 else ret (bin_df bin_label)) keys g) as (pieces & Hpieces & HP).
  { intros b _. 
    assert (forall piece, (forall p, p ∈ piece -> p ∈ bin_df b) ->
              Forall (fun p => snd p = Some b /\ snd p = label_of (fst p)) piece)
      as Hsub.
    { intros piece Hin. apply Forall_forall. intros p Hp.
      apply Hin, list_elem_of_filter in Hp as [? ?]. split; [done|by apply Hzipped]. }
    destruct (Z.of_nat (length (bin_df b)) >? target) eqn:E.
    - apply Z.gtb_lt in E.
      destruct (sample_seeded_contract (bin_df b) (Z.to_nat target) 42 g Hc)
        as (piece & Hs & Hlen & Hd & _); [lia|].
      rewrite Z2Nat.id in Hs by done.
      exists piece. split; [done|]. split; [|split; [lia|lia]].
      apply Hsub. intros p Hp. by eapply drawn_without_replacement_elem.
    - rewrite Z.gtb_ltb in E. apply Z.ltb_ge in E.
      exists (bin_df b). split; [done|]. split; [by apply Hsub|]. split; [lia|done]. }
  assert (0 ∈ keys) as Hzero.
  { apply Hkeys. apply pd_min_spec in Hlo as [Hlo_in _].
    apply list_elem_of_fmap in Hlo_in as (r & Hr & Hin).
    apply list_elem_of_fmap. exists r. split; [|done].
    unfold label_of, EvalBin. rewrite <- Hr.
    destruct (lo / w <? hi / w) eqn:E; [f_equal; lia|apply Z.ltb_ge in E; lia]. }
  assert (pieces <> []) as Hne.
  { intros ->. apply Forall2_nil_inv_r in HP. rewrite HP in Hzero.
    by apply elem_of_nil in Hzero. }
  set (C := List.concat pieces).
  assert (balance_evaluation_bins df w target g = (Saved (map fst C), g)) as Hrun.
  { unfold balance_evaluation_bins, bind, lift. rewrite Hbins, Hcut.
    rewrite zip_map_self. fold zipped. cbv zeta.
    destruct (pd.value_counts (map label_of df)) as [|bc bcs] eqn:Evc.
    { by apply elem_of_nil in Hzero. }
    change (map fst (bc :: bcs)) with keys.
    unfold bin_df in Hpieces. rewrite Hpieces.
    unfold ret. by destruct pieces. }
  exists (map fst C). split; [done|]. intros e.
  assert (Forall (fun p => snd p = label_of (fst p)) C) as HC.
  { apply Forall_forall. intros p (piece & Hp & Hpiece)%elem_of_concat.
    apply list_elem_of_lookup in Hpiece as [i Hi].
    destruct (Forall2_lookup_r _ _ _ _ _ HP Hi) as (b & _ & Hall & _).
    rewrite Forall_forall in Hall. by apply Hall. }
  assert (Forall2 (fun k piece => Forall (fun p : row * option Z => snd p = k) piece)
                  (Some <$> keys) pieces) as Hkeyed.
  { apply Forall2_fmap_l. eapply Forall2_impl; [exact HP|].
    intros b piece (Hall & _). eapply Forall_impl; [exact Hall|]. by intros p [? _]. }
  split.
  - intros He. set (b := e - lo / w).
    assert (forall r, EvalBin w r = e <-> label_of r = Some b) as Hiff.
    { intros r. unfold label_of, b. destruct (EvalBin w r <? hi / w) eqn:E.
      - split; [by intros ->|intros [= ?]; lia].
      - apply Z.ltb_ge in E. split; [lia|done]. }
    rewrite (list_filter_iff _ (fun r => label_of r = Some b) (map fst C)) by done.
    rewrite (list_filter_iff _ (fun r => label_of r = Some b) df) by done.
    rewrite (filter_map_fst_labelled label_of (Some b) C HC).
    assert (filter (fun r => label_of r = Some b) df = map fst (bin_df b)) as ->.
    { unfold bin_df, zipped.
      rewrite <- (filter_map_fst_labelled label_of (Some b)).
      - by rewrite map_fst_pair.
      - apply Forall_forall. by intros p (r & -> & _)%list_elem_of_fmap. }
    destruct (decide (b ∈ keys)) as [Hin|Hout].
    + apply list_elem_of_lookup in Hin as [i Hi].
      destruct (Forall2_lookup_l _ _ _ _ _ HP Hi) as (piece & Hpiece & _ & Hlen & Hwhole).
      rewrite (filter_concat_keyed snd (Some <$> keys) pieces
                 (NoDup_fmap_2 Some keys Hnd) Hkeyed i (Some b) piece);
        [|by rewrite list_lookup_fmap, Hi|done].
      rewrite !length_map. split; [done|]. intros Hle. by rewrite Hwhole.
    + rewrite (filter_concat_other snd (Some <$> keys) pieces (Some b) Hkeyed).
      2:{ intros (b' & [= <-] & Hb')%list_elem_of_fmap. done. }
      assert (bin_df b = []) as ->.
      { apply filter_none. apply Forall_forall. intros p Hp Hsnd.
        apply Hout, Hkeys. apply list_elem_of_fmap in Hp as (r & -> & Hr).
        simpl in Hsnd. apply list_elem_of_fmap. eauto. }
      simpl. split; [lia|done].
  - intros He. apply filter_none. apply Forall_forall.
    intros r Hr. unfold EvalBin. 
    destruct (top_rows_never_survive_binning df w target g (map fst C) g hi
                Hw Hhi Hrun r Hr) as [Hlt _].
    assert (evaluation r / w < hi / w); [|lia].
    apply Z.div_lt_upper_bound; [lia|]. lia.
Qed.

(** [X15]: when all the observed evaluations lie in one bin of the
    specification, no row gets a label: the stage prints that no
    evaluation bin was found and saves nothing. *)
Lemma single_bin_saves_nothing (df : DataFrame) (w target : Z) (g : rng) (lo hi : Z) :
  0 < w ->
  pd.min (map evaluation df) = Some lo ->
  pd.max (map evaluation df) = Some hi ->
  lo / w = hi / w ->
  balance_evaluation_bins df w target g = (Exited NoEvaluationBins, g).
Proof.
  intros Hw Hlo Hhi Hsame.
  destruct (eval_bin_label (map evaluation df) w lo hi Hw Hlo Hhi)
    as (bins & lowest & rest & Hbins & Hb & Hcut & Hlabel).
  assert (map (pd.cut_label bins lowest) (map evaluation df)
          = map (fun _ => None) df) as Hlabels.
  { rewrite <- list_fmap_compose. apply list_fmap_ext. intros i r Hr. simpl.
    apply list_elem_of_lookup_2 in Hr.
    assert (evaluation r ∈ map evaluation df) as He.
    { apply list_elem_of_fmap. eauto. }
    apply pd_min_spec in Hlo as [_ Hlo]. apply pd_max_spec in Hhi as [_ Hhi].
    rewrite Forall_forall in Hlo, Hhi.
    rewrite Hlabel by (by apply Hlo).
    destruct (evaluation r / w <? hi / w) eqn:E; [|done].
    apply Z.ltb_lt in E. specialize (Hhi _ He).
    assert (evaluation r / w <= hi / w) by (apply Z.div_le_mono; lia). 
    specialize (Hlo _ He).
    assert (lo / w <= evaluation r / w) by (apply Z.div_le_mono; lia). lia. }
  rewrite Hlabels in Hcut.
  unfold balance_evaluation_bins, bind, lift. rewrite Hbins, Hcut. cbv zeta.
  assert (pd.value_counts (map (fun _ : row => @None Z) df) = []) as ->; [|done].
  destruct (pd.value_counts _) as [|[b n] bcs] eqn:E; [done|].
  assert (b ∈ fst <$> pd.value_counts (map (fun _ : row => @None Z) df)) as Hin.
  { rewrite E. by left. }
  apply value_counts_labels in Hin.
  by apply list_elem_of_fmap in Hin as (r & ? & _).
Qed.

(** ** The scripts at the inputs where they part from the specification *)

(** [C1], the script at a failing input: with evaluations 10, 50 and
    150 and bins of width 100 the edges are 0 and 100, so the only bin is
    [0, 100); the row with the highest evaluation, 150, gets no bin
    ([None], pandas' NaN) and is absent from the output of the bin
    balancing and of the whole script. *)
Theorem highest_evaluation_row_gets_no_bin (g : rng) :
  let df := [position_row 1 10 10; position_row 1 10 50; position_row 1 10 150] in
  balance_primary_groups df g = (Saved df, g) /\
  pd.max (map evaluation df) = Some 150 /\
  eval_bins (map evaluation df) 100 = Saved [0; 100] /\
  pd.cut (map evaluation df) [0; 100] = Saved [Some 0; Some 0; None] /\
  balance_evaluation_bins df 100 1000 g
  = (Saved [position_row 1 10 10; position_row 1 10 50], g) /\
  filter_balance_data_no_normalize (Some df) 5 35 100 1000 g
  = (Saved [position_row 1 10 10; position_row 1 10 50], g).
Proof. vm_compute. repeat split. Qed.

(** [C5], the script at a failing input: with evaluations -30, 0, 0 and
    10, width 100 and target 1000, the bin of the specification with index
    0 (evaluations in [0, 100)) holds three input rows, at most the
    target, and none of them is in the output. *)
Theorem bin_below_target_loses_its_rows (g : rng) :
  let df := [position_row 0 10 (-30); position_row 0 10 0;
             position_row 1 10 0; position_row 1 10 10] in
  let in_bin (b : Z) (t : DataFrame) := filter (fun r => EvalBin 100 r = b) t in
  exists out,
    balance_evaluation_bins df 100 1000 g = (Saved out, g) /\
    balance_primary_groups df g = (Saved df, g) /\
    length (in_bin 0 df) = 3%nat /\ 3 <= 1000 /\
    length (in_bin 0 out) = 0%nat.
Proof.
  exists [position_row 0 10 (-30)]. vm_compute. repeat split. intros; discriminate.
Qed.

(** [C2], the script at a failing input: a table with rows in two of the
    six (side-to-move, outcome) groups only.  [groupby] yields the two
    groups that occur, the other four are empty, and the script balances
    the two and saves its output; it does not stop with
    [PrimaryGroupsEmpty]. *)
Theorem absent_groups_do_not_stop_balancing (g : rng) :
  let df := [position_row 1 10 10; position_row 1 12 250;
             position_row 0 20 (-40); position_row 0 21 (-300)] in
  map fst (pd.groupby primary_key df)
  = [(0, "black_winning"%string); (1, "white_winning"%string)] /\
  group_rows (0, "neutral"%string) df = [] /\
  group_rows (0, "white_winning"%string) df = [] /\
  group_rows (1, "neutral"%string) df = [] /\
  group_rows (1, "black_winning"%string) df = [] /\
  balance_primary_groups df g
  = (Saved [position_row 0 20 (-40); position_row 0 21 (-300);
            position_row 1 10 10; position_row 1 12 250], g) /\
  filter_balance_data_no_normalize (Some df) 5 35 100 1000 g
  = (Saved [position_row 0 20 (-40); position_row 0 21 (-300);
            position_row 1 10 10], g).
Proof. vm_compute. repeat split. Qed.

End BalancingProofs.

(** ** The filters of the balancing scripts *)

Section Filters.
Context `{RandomSource}.

Lemma bind_run {A B} (m : M A) (k : A -> M B) g a g1 :
  m g = (Saved a, g1) -> bind m k g = k a g1.
Proof. intros Hm. unfold bind. by rewrite Hm. Qed.

(** [X10]: every row that either balancing script saves is a row of the
    input table that passes the script's filters: its fullmove counter
    lies between [min_move] and [max_move], its evaluation is neither
    checkmate sentinel and, in the normalizing script, lies within the
    capping threshold. *)
Theorem saved_rows_pass_every_filter (input_file : option DataFrame)
    (min_move max_move eval_bin_size min_positions_per_eval_bin
     eval_capping_threshold : Z) (g : rng) :
  (forall out g',
     filter_balance_data_no_normalize input_file min_move max_move
       eval_bin_size min_positions_per_eval_bin g = (Saved out, g') ->
     exists df, input_file = Some df /\
       Forall (fun r =>
                 r ∈ df /\
                 min_move <= fullmove_counter r <= max_move /\
                 evaluation r <> 20000 /\ evaluation r <> -20000) out) /\
  (forall out g',
     filter_balance_normalize_data input_file min_move max_move
       eval_bin_size min_positions_per_eval_bin eval_capping_threshold g
     = (Saved out, g') ->
     exists df, input_file = Some df /\
       Forall (fun p =>
                 fst p ∈ df /\
                 min_move <= fullmove_counter (fst p) <= max_move /\
                 evaluation (fst p) <> 20000 /\ evaluation (fst p) <> -20000 /\
                 - eval_capping_threshold <= evaluation (fst p)
                 <= eval_capping_threshold) out).
Proof.
  split.
  - unfold filter_balance_data_no_normalize. destruct input_file as [df|]; [|done].
    destruct (bool_decide _); [done|]. cbv zeta.
    destruct (bool_decide _); [done|].
    intros out g' (primary & g1 & Hp & Hb)%bind_Saved.
    exists df. split; [done|]. apply Forall_forall. intros r Hr.
    eapply balance_evaluation_bins_elem in Hr; [|done].
    eapply balance_primary_groups_elem in Hr; [|done].
    unfold centipawns in Hr. apply list_elem_of_filter in Hr as [[? ?] Hr].
    unfold filter_moves in Hr. apply list_elem_of_filter in Hr as [[? ?] Hr].
    repeat split; try done; lia.
  - unfold filter_balance_normalize_data. destruct input_file as [df|]; [|done].
    destruct (bool_decide _); [done|]. cbv zeta.
    destruct (bool_decide _); [done|].
    destruct (bool_decide _); [done|].
    intros out g' (primary & g1 & Hp & Hb)%bind_Saved.
    apply bind_Saved in Hb as (final & g2 & Hb & Hn).
    apply lift_Saved in Hn as [Hn _].
    exists df. split; [done|]. apply Forall_forall. intros p Hr.
    eapply normalize_evaluations_rows in Hr; [|done].
    eapply balance_evaluation_bins_elem in Hr; [|done].
    eapply balance_primary_groups_elem in Hr; [|done].
    apply list_elem_of_filter in Hr as [[? ?] Hr].
    unfold centipawns in Hr. apply list_elem_of_filter in Hr as [[? ?] Hr].
    unfold filter_moves in Hr. apply list_elem_of_filter in Hr as [[? ?] Hr].
    repeat split; try done; lia.
Qed.

(** [X11]: when [max_move] is below [min_move] no row passes the move
    filter: on every table that loads, either script prints that no
    position remains and saves nothing. *)
Theorem empty_move_window_saves_nothing (df : DataFrame)
    (min_move max_move eval_bin_size min_positions_per_eval_bin
     eval_capping_threshold : Z) (g : rng) :
  max_move < min_move ->
  filter_balance_data_no_normalize (Some df) min_move max_move
    eval_bin_size min_positions_per_eval_bin g
  = (Exited NoPositionsAfterMoveFilter, g) /\
  filter_balance_normalize_data (Some df) min_move max_move
    eval_bin_size min_positions_per_eval_bin eval_capping_threshold g
  = (Exited NoPositionsAfterMoveFilter, g).
Proof.
  intros Hwindow.
  assert (filter_moves df min_move max_move = []) as Hnone.
  { apply filter_none, Forall_forall. intros r _ [? ?]. lia. }
  unfold filter_balance_data_no_normalize, filter_balance_normalize_data.
  rewrite Hnone. done.
Qed.

(** [X12]: when the capping threshold removes no centipawn row, the two
    scripts select the same rows: whenever the script without
    normalization saves a table that has a row, the normalizing script
    saves that table with the column [evaluation_normalized] appended,
    and every table the normalizing script saves is one the other script
    saves. *)
Theorem cap_that_removes_nothing_changes_no_row (df : DataFrame)
    (min_move max_move eval_bin_size min_positions_per_eval_bin
     eval_capping_threshold : Z) (g : rng) :
  Forall (fun r => - eval_capping_threshold <= evaluation r
                   <= eval_capping_threshold)
         (centipawns (filter_moves df min_move max_move)) ->
  (forall out g',
     filter_balance_data_no_normalize (Some df) min_move max_move
       eval_bin_size min_positions_per_eval_bin g = (Saved out, g') ->
     out <> [] ->
     exists normalized,
       filter_balance_normalize_data (Some df) min_move max_move
         eval_bin_size min_positions_per_eval_bin eval_capping_threshold g
       = (Saved normalized, g') /\
       map fst normalized = out) /\
  (forall normalized g',
     filter_balance_normalize_data (Some df) min_move max_move
       eval_bin_size min_positions_per_eval_bin eval_capping_threshold g
     = (Saved normalized, g') ->
     filter_balance_data_no_normalize (Some df) min_move max_move
       eval_bin_size min_positions_per_eval_bin g
     = (Saved (map fst normalized), g')).
Proof.
  intros Hcap.
  assert (filter (fun r => evaluation r >= - eval_capping_threshold
                           /\ evaluation r <= eval_capping_threshold)
                 (centipawns (filter_moves df min_move max_move))
          = centipawns (filter_moves df min_move max_move)) as Hsame.
  { apply filter_all. eapply Forall_impl; [exact Hcap|]. simpl. lia. }
  unfold filter_balance_data_no_normalize, filter_balance_normalize_data.
  destruct (bool_decide (filter_moves df min_move max_move = [])); [done|].
  cbv zeta. rewrite Hsame.
  destruct (bool_decide (centipawns (filter_moves df min_move max_move) = []));
    [done|].
  split.
  - intros out g' (primary & g1 & Hp & Hb)%bind_Saved Hne.
    rewrite (bind_run _ _ _ _ _ Hp), (bind_run _ _ _ _ _ Hb).
    destruct (pd_min_max_nonempty (map evaluation out)) as (lo & hi & Hlo & Hhi).
    { by destruct out. }
    rewrite (normalize_evaluations_scaled out lo hi Hlo Hhi).
    eexists. split; [reflexivity|]. apply map_fst_pair.
  - intros normalized g' (primary & g1 & Hp & Hb)%bind_Saved.
    apply bind_Saved in Hb as (final & g2 & Hb & Hn).
    apply lift_Saved in Hn as [Hn ->].
    rewrite (bind_run _ _ _ _ _ Hp), Hb. do 2 f_equal.
    unfold normalize_evaluations in Hn.
    destruct (MinMaxScaler_fit_transform _) as [norm| |] eqn:Hfit; [|done|done].
    injection Hn as <-. symmetry. apply fst_zip.
    unfold MinMaxScaler_fit_transform in Hfit.
    destruct (pd.min _); [|done]. destruct (pd.max _); [|done].
    injection Hfit as <-. by rewrite !length_map.
Qed.

(** The affine map of the fitted scaler grows with its argument. *)
Lemma scaled_increasing lo hi x y :
  lo <= hi -> x < y -> (scaled lo hi x < scaled lo hi y)%Q.
Proof.
  intros Hle Hxy. unfold scaled. cbv zeta.
  destruct (hi - lo =? 0) eqn:E.
  - unfold Qlt, Qplus, Qminus, Qopp, Qmult, Qdiv, Qinv, inject_Z. simpl. nia.
  - apply Z.eqb_neq in E.
    destruct (hi - lo) as [|p|p] eqn:Er; [lia| |lia].
    unfold Qlt, Qplus, Qminus, Qopp, Qmult, Qdiv, Qinv, inject_Z. simpl.
    apply Z.mul_lt_mono_pos_r; [lia|]. apply Z.add_lt_mono_r.
    apply Z.mul_lt_mono_pos_r; [lia|]. lia.
Qed.

(** [X13]: normalization keeps the order of the evaluations: of two rows
    of the normalized table, the one with the smaller evaluation never
    has the larger [evaluation_normalized]; rows with equal evaluations
    have equal normalized values. *)
Theorem normalization_preserves_order (df_final_balanced : DataFrame)
    (out : list (list Z * Q)) :
  normalize_evaluations df_final_balanced = Saved out ->
  forall p q, p ∈ out -> q ∈ out ->
    evaluation (fst p) <= evaluation (fst q) -> (snd p <= snd q)%Q.
Proof.
  intros Hrun p q Hp Hq Hpq.
  destruct (pd_min_max_nonempty (map evaluation df_final_balanced))
    as (lo & hi & Hlo & Hhi).
  { intros Hnil. apply map_eq_nil in Hnil. subst. done. }
  rewrite (normalize_evaluations_scaled _ lo hi Hlo Hhi) in Hrun.
  injection Hrun as <-.
  apply list_elem_of_fmap in Hp as (r & -> & Hr).
  apply list_elem_of_fmap in Hq as (r' & -> & Hr').
  cbn [fst snd] in Hpq |- *.
  assert (lo <= hi) as Hle.
  { destruct (pd_min_spec _ _ Hlo) as [_ Hmin].
    destruct (pd_max_spec _ _ Hhi) as [Hin _].
    rewrite Forall_forall in Hmin. by apply Hmin. }
  destruct (decide (evaluation r = evaluation r')) as [->|Hne].
  - apply Qle_refl.
  - apply Qlt_le_weak, scaled_increasing; [done|lia].
Qed.

End Filters.

(** ** The target of the bins *)

Section BinTargets.
Context `{RandomSource}.

(** [X16]: a negative target for the bins is refused: on a table whose
    evaluations span more than one bin, the first bin holds more rows
    than the target, [sample] is asked for a negative number of rows and
    raises [ValueError]; nothing is saved. *)
Theorem negative_bin_target_raises (df : DataFrame) (w target : Z) (g : rng)
    (lo hi : Z) :
  0 < w -> target < 0 ->
  pd.min (map evaluation df) = Some lo ->
  pd.max (map evaluation df) = Some hi ->
  lo / w < hi / w ->
  balance_evaluation_bins df w target g = (Raised ValueError, g).
Proof.
  intros Hw Ht Hlo Hhi Hspan.
  destruct (eval_bin_label (map evaluation df) w lo hi Hw Hlo Hhi)
    as (bins & lowest & rest & Hbins & Hb & Hcut & Hlabel).
  unfold balance_evaluation_bins, bind, lift. rewrite Hbins, Hcut. cbv zeta.
  assert (Some 0 ∈ map (pd.cut_label bins lowest) (map evaluation df)) as Hzero.
  { apply list_elem_of_fmap. exists lo. split; [|by apply pd_min_spec].
    rewrite Hlabel by lia. apply Z.ltb_lt in Hspan. rewrite Hspan.
    f_equal. lia. }
  apply value_counts_labels in Hzero.
  destruct (pd.value_counts _) as [|[b n] bcs] eqn:E;
    [by apply elem_of_nil in Hzero|].
  cbn [map fst mapM_groups]. unfold bind at 1.
  assert ((Z.of_nat (length (filter (fun r : row * option Z => snd r = Some b)
                                    (zip df (map (pd.cut_label bins lowest)
                                                 (map evaluation df)))))
           >? target) = true) as -> by (apply Z.gtb_lt; lia).
  unfold sample. apply Z.ltb_lt in Ht. by rewrite Ht.
Qed.

End BinTargets.

(** ** Default rows and the move filter *)

Lemma default_row_fullmove_counter (eval : Z) :
  fullmove_counter (replicate 64 0 ++ [0; 0; 0; 0; 0; 0; 0; 0; 0] ++ [eval]) = 0.
Proof. reflexivity. Qed.

(** [C10]: the row written for an input whose board-description string
    [chess.Board] rejects is the default vector followed by the parsed
    evaluation; it has fullmove counter 0; it is in the output of the
    streaming stage for every chunk that is processed (the other
    descriptions of the chunk are strings), it fails the inclusive
    fullmove-counter filter for every [min_move] of at least 1, and it
    is in no output that either balancing script saves. *)
Theorem default_rows_never_reach_balanced_output `{RandomSource}
    {unicode : UnicodeData}
    (chess_Board : str -> option Board) (fen_string : str) (eval_string : cell)
    (input_file : option DataFrame)
    (min_move max_move eval_bin_size min_positions_per_eval_bin
     eval_capping_threshold : Z) (g : rng) :
  chess_Board fen_string = None ->
  1 <= min_move ->
  let r := replicate 64 0 ++ [0; 0; 0; 0; 0; 0; 0; 0; 0]
           ++ [fst (parse_evaluation eval_string)] in
  feature_record chess_Board (Text fen_string, eval_string) = Returns r /\
  fullmove_counter r = 0 /\
  (forall before after,
     Forall (fun c => is_text (fst c) = true) (before ++ after) ->
     exists rows,
       fst (process_chunk chess_Board
              (before ++ (Text fen_string, eval_string) :: after))
       = Returns rows /\
       r ∈ rows) /\
  (forall df, r ∉ filter_moves df min_move max_move) /\
  (forall out g',
     filter_balance_data_no_normalize input_file min_move max_move
       eval_bin_size min_positions_per_eval_bin g = (Saved out, g') ->
     r ∉ out) /\
  (forall out g',
     filter_balance_normalize_data input_file min_move max_move
       eval_bin_size min_positions_per_eval_bin eval_capping_threshold g
     = (Saved out, g') ->
     r ∉ map fst out).
Proof.
  intros Hinvalid Hmin r.
  pose proof (parse_fen_invalid chess_Board fen_string Hinvalid) as Hfen.
  assert (feature_record chess_Board (Text fen_string, eval_string) = Returns r)
    as Hrecord.
  { unfold feature_record. cbn [fst snd]. rewrite Hfen. cbn [fst].
    by rewrite <- app_assoc. }
  assert (fullmove_counter r = 0) as Hzero
    by apply default_row_fullmove_counter.
  assert (forall df, r ∉ filter_moves df min_move max_move) as Hfilter.
  { intros df Hr. unfold filter_moves in Hr.
    apply list_elem_of_filter in Hr as [[Hge _] _]. lia. }
  split; [done|]. split; [done|]. split; [|split; [done|split]].
  - intros before after [Hbefore Hafter]%Forall_app.
    destruct (text_rows_decode chess_Board before Hbefore) as [rows_before Hb].
    destruct (text_rows_decode chess_Board after Hafter) as [rows_after Ha].
    destruct (rejected_description_yields_default_row chess_Board fen_string
                before after eval_string rows_before rows_after Hinvalid Hb Ha)
      as [Hrows _].
    eexists. split; [exact Hrows|].
    apply elem_of_app. right. apply elem_of_app. left. by left.
  - intros out g' Hrun Hr.
    destruct (filter_balance_data_no_normalize_rows _ _ _ _ _ _ _ _ Hrun r Hr)
      as (df & _ & Hin). by apply (Hfilter df).
  - intros out g' Hrun Hr.
    apply list_elem_of_fmap in Hr as (p & -> & Hp).
    destruct (filter_balance_normalize_data_rows _ _ _ _ _ _ _ _ _ Hrun p Hp)
      as (df & _ & Hin). by apply (Hfilter df).
Qed.

(** ** The analysis scripts *)

Lemma py_range_edges (lo : Z) (k : nat) :
  py_range lo (lo + Z.of_nat k * 50 + 51) 50
  = map (fun i => lo + Z.of_nat i * 50) (seq 0 (k + 2)).
Proof.
  unfold py_range. do 2 f_equal.
  replace (lo - (lo + Z.of_nat k * 50 + 51)) with (49 + (- (Z.of_nat k + 2)) * 50)
    by lia.
  rewrite Z.div_add by lia. change (49 / 50) with 0. lia.
Qed.

(** [X17]: the bin edges of the evaluation histogram cover the table:
    they start at the multiple of 50 at or below the lowest evaluation,
    lie 50 apart, and the last of them is above the highest evaluation,
    so that every evaluation of the table falls between the first edge
    and the last. *)
Theorem histogram_bins_cover_every_evaluation (df : DataFrame) (bins : list Z) :
  evaluation_histogram_bins df = Some bins ->
  exists (first : Z) (k : nat),
    bins = map (fun i => first + Z.of_nat i * 50) (seq 0 (k + 2)) /\
    first mod 50 = 0 /\
    Forall (fun r => first <= evaluation r < first + (Z.of_nat k + 1) * 50) df.
Proof.
  unfold evaluation_histogram_bins.
  destruct (pd.min _) as [min_eval|] eqn:Hmin; [|done].
  destruct (pd.max _) as [max_eval|] eqn:Hmax; [|done].
  intros [= <-].
  destruct (pd_min_spec _ _ Hmin) as [Hmin_in Hlow].
  destruct (pd_max_spec _ _ Hmax) as [Hmax_in Hhigh].
  rewrite Forall_forall in Hlow, Hhigh.
  assert (min_eval <= max_eval) as Hle by (by apply Hlow).
  assert (min_eval / 50 <= max_eval / 50) as Hdiv by (apply Z.div_le_mono; lia).
  exists (min_eval / 50 * 50), (Z.to_nat (max_eval / 50 - min_eval / 50)).
  split; [|split].
  - rewrite <- py_range_edges. f_equal. lia.
  - apply Z.mod_mul. lia.
  - apply Forall_forall. intros r Hr.
    assert (evaluation r ∈ map evaluation df) as He
      by (apply list_elem_of_fmap; eauto).
    specialize (Hlow _ He). specialize (Hhigh _ He).
    pose proof (Z.mul_div_le min_eval 50).
    pose proof (Z.mod_pos_bound max_eval 50).
    pose proof (Z.div_mod max_eval 50). lia.
Qed.

Lemma length_filter_trichotomy {A} (f : A -> Z) (l : list A) :
  (length (filter (fun a => (f a > 0)%Z) l)
   + length (filter (fun a => (f a < 0)%Z) l)
   + length (filter (fun a => (f a = 0)%Z) l))%nat = length l.
Proof.
  induction l as [|a l IH]; [done|]. rewrite !filter_cons.
  destruct (decide (f a > 0)), (decide (f a < 0)), (decide (f a = 0));
    simpl; lia.
Qed.

(** [X18]: the three outcome counts that [analyze_balanced_data] prints
    add up to the total it prints first: every row is counted as white
    winning, black winning or neutral, and none twice. *)
Theorem balanced_outcome_counts_add_up (df : list (list Z * Q)) :
  let s := analyze_balanced_data_statistics df in
  (white_winning_count s + black_winning_count s + neutral_count s)%nat
  = total_positions s.
Proof.
  intros s. unfold s, analyze_balanced_data_statistics. cbn.
  apply (length_filter_trichotomy (fun p : list Z * Q => evaluation (fst p))).
Qed.

Lemma column_sum_flag (name : string) (df : DataFrame) :
  Forall (fun r => col name r = 0 \/ col name r = 1) df ->
  column_sum name df = Z.of_nat (length (filter (fun r => col name r = 1) df)).
Proof.
  unfold column_sum. induction 1 as [|r df Hr _ IH]; [done|].
  cbn [map foldr]. rewrite IH, filter_cons.
  destruct (decide (col name r = 1)) as [->|Hne]; simpl; [lia|].
  destruct Hr as [->|?]; [lia|done].
Qed.

(** [X19]: on a table in which every row has exactly one side-to-move
    flag set, as the rows of decoded positions have, the two
    side-to-move totals that [generate_histograms] prints add up to the
    number of rows, and so do its four side-and-outcome counts together
    with the rows that are neutral. *)
Theorem side_to_move_counts_add_up (df : DataFrame) :
  Forall (fun r => (is_white_to_move r = 1 /\ is_black_to_move r = 0) \/
                   (is_white_to_move r = 0 /\ is_black_to_move r = 1)) df ->
  let s := generate_histograms_statistics df in
  white_to_move_count s + black_to_move_count s = Z.of_nat (length df) /\
  (white_move_good_for_white s + white_move_good_for_black s
   + black_move_good_for_white s + black_move_good_for_black s
   + neutral_positions_count s)%nat = length df.
Proof.
  intros Hflags s. unfold s, generate_histograms_statistics. cbn. clear s.
  split.
  - rewrite !column_sum_flag.
    + change (col "is_white_to_move") with is_white_to_move.
      change (col "is_black_to_move") with is_black_to_move.
      induction Hflags as [|r df Hr _ IH]; [done|]. rewrite !filter_cons.
      destruct Hr as [[Hw Hb]|[Hw Hb]];
        destruct (decide (is_white_to_move r = 1)),
                 (decide (is_black_to_move r = 1)); simpl length; lia.
    + eapply Forall_impl; [exact Hflags|]. intros r Hr. cbv beta in Hr |- *.
      change (col "is_black_to_move" r) with (is_black_to_move r). lia.
    + eapply Forall_impl; [exact Hflags|]. intros r Hr. cbv beta in Hr |- *.
      change (col "is_white_to_move" r) with (is_white_to_move r). lia.
  - induction Hflags as [|r df Hr _ IH]; [done|]. rewrite !filter_cons.
    destruct Hr as [[Hw Hb]|[Hw Hb]];
      destruct (decide (is_white_to_move r = 1)),
               (decide (is_black_to_move r = 1)); try lia;
      rewrite ?filter_cons;
      destruct (decide (evaluation r > 0)), (decide (evaluation r < 0)),
               (decide (evaluation r = 0)); simpl length; lia.
Qed.

(** ** Examples *)

(** The examples run with the table [arabic_indic_digits]. *)
#[local] Existing Instance arabic_indic_digits.

Example parse_fen_starting_position :
  parse_fen starting_position_only (Text STARTING_FEN)
  = (Returns
       [4; 2; 3; 5; 6; 3; 2; 4;  1; 1; 1; 1; 1; 1; 1; 1;
        0; 0; 0; 0; 0; 0; 0; 0;  0; 0; 0; 0; 0; 0; 0; 0;
        0; 0; 0; 0; 0; 0; 0; 0;  0; 0; 0; 0; 0; 0; 0; 0;
        -1; -1; -1; -1; -1; -1; -1; -1;  -4; -2; -3; -5; -6; -3; -2; -4;
        1; 0;  1; 1; 1; 1;  0;  0;  1], []).
Proof. vm_compute. reflexivity. Qed.

Example parse_evaluation_examples :
  parse_evaluation (Text (text "123")) = (123, []) /\
  parse_evaluation (Text (text "-45")) = (-45, []) /\
  parse_evaluation (Text (text "#+5")) = (20000, []) /\
  parse_evaluation (Text (text "#-3")) = (-20000, []) /\
  parse_evaluation (Text (text "mate")) = (0, [CouldNotParseWarning (text "mate")]) /\
  parse_evaluation (Text (text "#5")) = (0, [UnexpectedCheckmateWarning (text "#5")]).
Proof. repeat split. Qed.

(** [int] reads more than plain digits: single underscores may stand
    between them. *)
Example parse_evaluation_underscore :
  is_centipawn_token (text "1_000") = false /\
  parse_evaluation (Text (text "1_000")) = (1000, []).
Proof. split; reflexivity. Qed.

(** Whitespace and digits beyond ASCII: a no-break space and NEL are
    stripped, Arabic-Indic digits are read as decimal digits.  [strip]
    removes the separators FS to US, which [int] alone does not skip. *)
Example parse_evaluation_beyond_ascii :
  parse_evaluation (Text [0xA0; 0x31; 0x32; 0x85]%N) = (12, []) /\
  parse_evaluation (Text [0x661; 0x662]%N) = (12, []) /\
  parse_evaluation (Text [0x1C; 0x31; 0x1F]%N) = (1, []) /\
  python_int [0x1C; 0x31]%N = None.
Proof. repeat split. Qed.

(** A literal of more than 4300 digits is not read. *)
Example parse_evaluation_digit_limit :
  fst (parse_evaluation (Text (replicate 4300 (ord "1"))))
  = decimal_value (replicate 4300 (ord "1")) 0 /\
  parse_evaluation (Text (replicate 4301 (ord "1")))
  = (0, [CouldNotParseWarning (replicate 4301 (ord "1"))]).
Proof. split; vm_compute; reflexivity. Qed.

(** Cells of a numeric column: an integer is parsed from its digits, a
    float (every cell of a column with a missing field is one) never
    is. *)
Example parse_evaluation_numeric_cells :
  parse_evaluation (NotText (text "56")) = (56, []) /\
  parse_evaluation (NotText (text "56.0"))
  = (0, [CouldNotParseWarning (text "56.0")]) /\
  parse_evaluation nan = (0, [CouldNotParseWarning (text "nan")]).
Proof. repeat split. Qed.

(** A chunk without rows, which a file with the header line alone
    yields, stops the run. *)
Example header_only_file_raises :
  process_chess_data starting_position_only (fun _ => [[]]) 1000
  = {| raised := Some ValueError;
       output_file := None;
       stdout := [StartingProcessing; ProcessingChunk 1 1 1000] |}.
Proof. reflexivity. Qed.

(** A draw without a seed depends on the state of the global generator. *)
Example unseeded_sample_depends_on_the_generator :
  fst (sample (H := rotating_positions) [10; 20; 30] 1 None 0%nat)
  <> fst (sample (H := rotating_positions) [10; 20; 30] 1 None 1%nat).
Proof. vm_compute. discriminate. Qed.

Lemma first_positions_contract : draws_without_replacement (H := first_positions).
Proof.
  intros g population size Hle. simpl.
  split; [apply length_seq|]. split; [apply NoDup_seq|].
  apply Forall_seq. intros j Hj. lia.
Qed.

(** ** Instances of the theorems *)

Lemma parse_evaluation_by_prefix_witness :
  (is_centipawn_token (strip (text " -45 ")) = true /\
   (length (unsigned_part (strip (text " -45 "))) <= 4300)%nat /\
   parse_evaluation (Text (text " -45 ")) = (-45, [])) /\
  (is_centipawn_token (strip (replicate 4301 (ord "7"))) = true /\
   (4300 < length (unsigned_part (strip (replicate 4301 (ord "7")))))%nat /\
   parse_evaluation (Text (replicate 4301 (ord "7")))
   = (0, [CouldNotParseWarning (strip (replicate 4301 (ord "7")))])) /\
  (startswith (text "#+") (strip (text "#+5")) = true /\
   parse_evaluation (Text (text "#+5")) = (20000, [])) /\
  (startswith (text "#-") (strip (text "#-3")) = true /\
   parse_evaluation (Text (text "#-3")) = (-20000, [])) /\
  (startswith (text "#") (strip (text "#5")) = true /\
   startswith (text "#+") (strip (text "#5")) = false /\
   startswith (text "#-") (strip (text "#5")) = false /\
   parse_evaluation (Text (text "#5"))
   = (0, [UnexpectedCheckmateWarning (text "#5")])) /\
  (startswith (text "#") (strip [0x661; 0x5F; 0x662]%N) = false /\
   python_int (strip [0x661; 0x5F; 0x662]%N) = Some 12 /\
   parse_evaluation (Text [0x661; 0x5F; 0x662]%N) = (12, [])) /\
  (startswith (text "#") (strip (text "mate")) = false /\
   python_int (strip (text "mate")) = None /\
   parse_evaluation (Text (text "mate")) = (0, [CouldNotParseWarning (text "mate")])).
Proof.
  pose proof (parse_evaluation_by_prefix (Text (text " -45 "))) as H1.
  pose proof (parse_evaluation_by_prefix (Text (replicate 4301 (ord "7")))) as H2.
  pose proof (parse_evaluation_by_prefix (Text (text "#+5"))) as H3.
  pose proof (parse_evaluation_by_prefix (Text (text "#-3"))) as H4.
  pose proof (parse_evaluation_by_prefix (Text (text "#5"))) as H5.
  pose proof (parse_evaluation_by_prefix (Text [0x661; 0x5F; 0x662]%N)) as H6.
  pose proof (parse_evaluation_by_prefix (Text (text "mate"))) as H7.
  cbv zeta in H1, H2, H3, H4, H5, H6, H7.
  split; [split; [reflexivity|split; [vm_compute; lia|]]|].
  { apply (proj1 H1); [reflexivity|vm_compute; lia]. }
  split; [split; [vm_compute; reflexivity|split; [vm_compute; lia|]]|].
  { apply (proj1 (proj2 H2)); [vm_compute; reflexivity|vm_compute; lia]. }
  split; [split; [reflexivity|]|].
  { apply (proj1 (proj2 (proj2 H3))). reflexivity. }
  split; [split; [reflexivity|]|].
  { apply (proj1 (proj2 (proj2 (proj2 H4)))). reflexivity. }
  split; [do 3 (split; [reflexivity|])|].
  { apply (proj1 (proj2 (proj2 (proj2 (proj2 H5))))); reflexivity. }
  split; [do 2 (split; [reflexivity|])|do 2 (split; [reflexivity|])].
  { apply (proj1 (proj2 (proj2 (proj2 (proj2 (proj2 H6))))) eq_refl 12).
    reflexivity. }
  apply (proj2 (proj2 (proj2 (proj2 (proj2 (proj2 H7)))))); reflexivity.
Defined.



Lemma primary_groups_balanced_to_minimum_witness :
  let df := [position_row 1 10 10; position_row 1 10 50; position_row 0 10 (-30);
             position_row 1 10 150; position_row 0 10 (-130); position_row 0 10 0] in
  draws_without_replacement (H := first_positions) /\
  df <> [] /\
  exists (target : nat) (out : DataFrame),
    balance_primary_groups (H := first_positions) df tt = (Saved out, tt) /\
    (exists k, group_rows k df <> [] /\ length (group_rows k df) = target) /\
    (forall k, group_rows k df <> [] -> (target <= length (group_rows k df))%nat) /\
    (forall k, group_rows k df <> [] ->
       length (group_rows k out) = target /\
       drawn_without_replacement (group_rows k out) (group_rows k df) /\
       (length (group_rows k df) = target -> group_rows k out = group_rows k df) /\
       ((target < length (group_rows k df))%nat ->
        mapM (fun i => group_rows k df !! i)
             (fst (@choice first_positions (@RandomState first_positions 42)
                           (length (group_rows k df)) target))
        = Some (group_rows k out))) /\
    (forall k, (length (group_rows k out) <= target)%nat).
Proof.
  intros df. split; [apply first_positions_contract|]. split; [discriminate|].
  apply (primary_groups_balanced_to_minimum (H := first_positions) df tt);
    [apply first_positions_contract|discriminate].
Defined.

Lemma default_rows_never_reach_balanced_output_witness :
  let r := replicate 64 0 ++ [0; 0; 0; 0; 0; 0; 0; 0; 0]
           ++ [fst (parse_evaluation (Text (text "17")))] in
  let input_file := Some [r; position_row 1 10 10; position_row 0 12 (-40)] in
  starting_position_only (text "8/8/8 w - - 0") = None /\
  1 <= 5 /\
  feature_record starting_position_only
    (Text (text "8/8/8 w - - 0"), Text (text "17")) = Returns r /\
  fullmove_counter r = 0 /\
  (forall before after,
     Forall (fun c => is_text (fst c) = true) (before ++ after) ->
     exists rows,
       fst (process_chunk starting_position_only
              (before ++ (Text (text "8/8/8 w - - 0"), Text (text "17")) :: after))
       = Returns rows /\
       r ∈ rows) /\
  (forall df, r ∉ filter_moves df 5 35) /\
  (forall out g',
     filter_balance_data_no_normalize (H := first_positions) input_file 5 35
       100 1000 tt = (Saved out, g') ->
     r ∉ out) /\
  (forall out g',
     filter_balance_normalize_data (H := first_positions) input_file 5 35
       100 1000 2500 tt = (Saved out, g') ->
     r ∉ map fst out).
Proof.
  intros r input_file. split; [reflexivity|]. split; [lia|].
  apply (default_rows_never_reach_balanced_output (H := first_positions)
           starting_position_only (text "8/8/8 w - - 0") (Text (text "17"))
           input_file 5 35 100 1000 2500 tt); [reflexivity|lia].
Defined.

Lemma parse_fen_decodes_every_square_witness :
  starting_position_only STARTING_FEN = Some starting_board /\
  parse_fen starting_position_only (Text STARTING_FEN)
  = (Returns
       (map (piece_code starting_board) SQUARES ++
        [if Bool.eqb (turn starting_board) WHITE then 1 else 0;
         if Bool.eqb (turn starting_board) BLACK then 1 else 0;
         if has_kingside_castling_rights starting_board WHITE then 1 else 0;
         if has_queenside_castling_rights starting_board WHITE then 1 else 0;
         if has_kingside_castling_rights starting_board BLACK then 1 else 0;
         if has_queenside_castling_rights starting_board BLACK then 1 else 0;
         match ep_square starting_board with Some _ => 1 | None => 0 end;
         halfmove_clock starting_board;
         fullmove_number starting_board]), []) /\
  Forall (fun code => -6 <= code <= 6) (map (piece_code starting_board) SQUARES).
Proof.
  split; [reflexivity|].
  apply (parse_fen_decodes_every_square starting_position_only STARTING_FEN
           starting_board).
  reflexivity.
Defined.

Lemma named_columns_hold_the_decoded_fields_witness :
  starting_position_only STARTING_FEN = Some starting_board /\
  exists r,
    feature_record starting_position_only (Text STARTING_FEN, Text (text "+12"))
    = Returns r /\
    length r = length OUTPUT_COLUMNS /\
    (forall i, (i < 64)%nat -> col (square_name i) r = piece_code starting_board i) /\
    col "is_white_to_move" r = (if turn starting_board then 1 else 0) /\
    col "is_black_to_move" r = (if turn starting_board then 0 else 1) /\
    col "white_kingside_castling" r
    = (if has_kingside_castling_rights starting_board WHITE then 1 else 0) /\
    col "white_queenside_castling" r
    = (if has_queenside_castling_rights starting_board WHITE then 1 else 0) /\
    col "black_kingside_castling" r
    = (if has_kingside_castling_rights starting_board BLACK then 1 else 0) /\
    col "black_queenside_castling" r
    = (if has_queenside_castling_rights starting_board BLACK then 1 else 0) /\
    col "en_passant_available" r
    = (match ep_square starting_board with Some _ => 1 | None => 0 end) /\
    col "halfmove_clock" r = halfmove_clock starting_board /\
    col "fullmove_counter" r = fullmove_number starting_board /\
    col "evaluation" r = fst (parse_evaluation (Text (text "+12"))).
Proof.
  split; [reflexivity|].
  apply (named_columns_hold_the_decoded_fields starting_position_only
           STARTING_FEN starting_board (Text (text "+12"))).
  reflexivity.
Defined.

Lemma processed_chunk_has_one_full_row_per_record_witness :
  let chunk := [(Text STARTING_FEN, Text (text "+12"));
                (Text (text "8/8"), Text (text "#-3"))] in
  let rows := [[4; 2; 3; 5; 6; 3; 2; 4;  1; 1; 1; 1; 1; 1; 1; 1;
                0; 0; 0; 0; 0; 0; 0; 0;  0; 0; 0; 0; 0; 0; 0; 0;
                0; 0; 0; 0; 0; 0; 0; 0;  0; 0; 0; 0; 0; 0; 0; 0;
                -1; -1; -1; -1; -1; -1; -1; -1;  -4; -2; -3; -5; -6; -3; -2; -4;
                1; 0;  1; 1; 1; 1;  0;  0;  1;  12];
               replicate 64 0 ++ [0; 0; 0; 0; 0; 0; 0; 0; 0; -20000]] in
  fst (process_chunk starting_position_only chunk) = Returns rows /\
  length rows = length chunk /\
  Forall (fun r => length r = length OUTPUT_COLUMNS) rows.
Proof.
  intros chunk rows. split; [vm_compute; reflexivity|].
  apply (processed_chunk_has_one_full_row_per_record starting_position_only
           chunk rows).
  vm_compute. reflexivity.
Defined.

Lemma streaming_stage_keeps_every_record_in_order_witness :
  let input_file := fun _ : nat =>
    [[(Text STARTING_FEN, Text (text "+12")); (Text (text "8/8"), Text (text "#-3"))];
     [(Text STARTING_FEN, nan)]] in
  let r := process_chess_data starting_position_only input_file 2 in
  input_file 2%nat <> [] /\
  Forall (fun chunk =>
            chunk <> [] /\ Forall (fun r => is_text (fst r) = true) chunk)
         (input_file 2%nat) /\
  raised r = None /\
  option_map csv_header (output_file r) = Some OUTPUT_COLUMNS /\
  Forall2 (fun record row =>
             feature_record starting_position_only record = Returns row)
          (List.concat (input_file 2%nat)) (rows_written (output_file r)) /\
  last (stdout r) = Some ProcessingComplete.
Proof.
  intros input_file r.
  assert (input_file 2%nat <> []) as Hne by discriminate.
  assert (Forall (fun chunk =>
                    chunk <> [] /\ Forall (fun r => is_text (fst r) = true) chunk)
                 (input_file 2%nat)) as Hall.
  { repeat constructor; discriminate. }
  split; [exact Hne|]. split; [exact Hall|].
  exact (streaming_stage_keeps_every_record_in_order starting_position_only
           input_file 2 Hne Hall).
Defined.

Lemma rows_written_before_an_abort_stay_witness :
  let first := [(Text STARTING_FEN, Text (text "+12"))] in
  let second := [(Text (text "8/8"), Text (text "#-3")); (nan, Text (text "7"))] in
  let third := [(Text STARTING_FEN, Text (text "0"))] in
  let input_file := fun _ : nat => [first; second; third] in
  let table := [[4; 2; 3; 5; 6; 3; 2; 4;  1; 1; 1; 1; 1; 1; 1; 1;
                 0; 0; 0; 0; 0; 0; 0; 0;  0; 0; 0; 0; 0; 0; 0; 0;
                 0; 0; 0; 0; 0; 0; 0; 0;  0; 0; 0; 0; 0; 0; 0; 0;
                 -1; -1; -1; -1; -1; -1; -1; -1;  -4; -2; -3; -5; -6; -3; -2; -4;
                 1; 0;  1; 1; 1; 1;  0;  0;  1;  12]] in
  let r := process_chess_data starting_position_only input_file 1 in
  input_file 1%nat = [first] ++ second :: [third] /\
  Forall2 (fun chunk rows =>
             fst (process_chunk starting_position_only chunk) = Returns rows)
          [first] [table] /\
  Exists (fun r => is_text (fst r) = false) second /\
  raised r = Some AttributeError /\
  rows_written (output_file r) = List.concat [table] /\
  ProcessingComplete ∉ stdout r.
Proof.
  intros first second third input_file table r.
  assert (Forall2 (fun chunk rows =>
                     fst (process_chunk starting_position_only chunk) = Returns rows)
                  [first] [table]) as Hall.
  { constructor; [vm_compute; reflexivity|constructor]. }
  assert (Exists (fun r => is_text (fst r) = false) second) as Hex.
  { apply Exists_cons_tl, Exists_cons_hd. reflexivity. }
  split; [reflexivity|]. split; [exact Hall|]. split; [exact Hex|].
  exact (rows_written_before_an_abort_stay starting_position_only input_file 1
           [first] [table] second [third] eq_refl Hall Hex).
Defined.

Lemma parse_evaluation_ignores_surrounding_whitespace_witness :
  Forall (fun c => isspace c = true) [0xA0; 0x20]%N /\
  Forall (fun c => isspace c = true) [0x2003; 0x0A]%N /\
  parse_evaluation (Text ([0xA0; 0x20]%N ++ text "-45" ++ [0x2003; 0x0A]%N))
  = parse_evaluation (Text (text "-45")).
Proof.
  assert (Forall (fun c => isspace c = true) [0xA0; 0x20]%N) as Hb
    by (repeat constructor).
  assert (Forall (fun c => isspace c = true) [0x2003; 0x0A]%N) as Ha
    by (repeat constructor).
  split; [exact Hb|]. split; [exact Ha|].
  exact (parse_evaluation_ignores_surrounding_whitespace
           [0xA0; 0x20]%N (text "-45") [0x2003; 0x0A]%N Hb Ha).
Defined.

Lemma empty_move_window_saves_nothing_witness :
  35 < 50 /\
  filter_balance_data_no_normalize (H := first_positions)
    (Some [position_row 1 10 10; position_row 0 40 (-30)]) 50 35 100 1000 tt
  = (Exited NoPositionsAfterMoveFilter, tt) /\
  filter_balance_normalize_data (H := first_positions)
    (Some [position_row 1 10 10; position_row 0 40 (-30)]) 50 35 100 1000 2500 tt
  = (Exited NoPositionsAfterMoveFilter, tt).
Proof.
  split; [lia|].
  apply (empty_move_window_saves_nothing (H := first_positions)
           [position_row 1 10 10; position_row 0 40 (-30)] 50 35 100 1000 2500 tt).
  lia.
Defined.

Lemma cap_that_removes_nothing_changes_no_row_witness :
  let df := [position_row 1 10 10; position_row 1 10 150;
             position_row 0 12 (-40); position_row 0 12 (-140)] in
  Forall (fun r => - 2500 <= evaluation r <= 2500)
         (centipawns (filter_moves df 5 35)) /\
  (forall out g',
     filter_balance_data_no_normalize (H := first_positions) (Some df) 5 35
       100 1000 tt = (Saved out, g') ->
     out <> [] ->
     exists normalized,
       filter_balance_normalize_data (H := first_positions) (Some df) 5 35
         100 1000 2500 tt
       = (Saved normalized, g') /\
       map fst normalized = out) /\
  (forall normalized g',
     filter_balance_normalize_data (H := first_positions) (Some df) 5 35
       100 1000 2500 tt
     = (Saved normalized, g') ->
     filter_balance_data_no_normalize (H := first_positions) (Some df) 5 35
       100 1000 tt
     = (Saved (map fst normalized), g')).
Proof.
  intros df.
  assert (Forall (fun r => - 2500 <= evaluation r <= 2500)
                 (centipawns (filter_moves df 5 35))) as Hcap.
  { apply (bool_decide_unpack _). vm_compute. exact I. }
  split; [exact Hcap|].
  exact (cap_that_removes_nothing_changes_no_row (H := first_positions)
           df 5 35 100 1000 2500 tt Hcap).
Defined.

Lemma normalization_preserves_order_witness :
  let df := [position_row 1 10 10; position_row 1 10 50; position_row 0 10 (-150)] in
  let out := map (fun r => (r, scaled (-150) 50 (evaluation r))) df in
  normalize_evaluations df = Saved out /\
  forall p q, p ∈ out -> q ∈ out ->
    evaluation (fst p) <= evaluation (fst q) -> (snd p <= snd q)%Q.
Proof.
  intros df out. split; [reflexivity|].
  apply (normalization_preserves_order df out). reflexivity.
Defined.

Lemma negative_bin_target_raises_witness :
  let df := [position_row 1 10 10; position_row 1 10 50; position_row 1 10 150] in
  0 < 100 /\ -1 < 0 /\
  pd.min (map evaluation df) = Some 10 /\
  pd.max (map evaluation df) = Some 150 /\
  10 / 100 < 150 / 100 /\
  balance_evaluation_bins (H := first_positions) df 100 (-1) tt
  = (Raised ValueError, tt).
Proof.
  intros df. split; [lia|]. split; [lia|]. split; [reflexivity|].
  split; [reflexivity|]. split; [reflexivity|].
  apply (negative_bin_target_raises (H := first_positions) df 100 (-1) tt 10 150);
    [lia|lia|reflexivity|reflexivity|reflexivity].
Defined.

Lemma bins_below_the_top_respect_the_target_witness :
  let df := [position_row 1 10 10; position_row 1 10 50; position_row 1 10 60;
             position_row 1 10 120; position_row 1 10 250] in
  draws_without_replacement (H := first_positions) /\
  0 < 100 /\ 0 <= 2 /\
  pd.min (map evaluation df) = Some 10 /\
  pd.max (map evaluation df) = Some 250 /\
  10 / 100 < 250 / 100 /\
  exists out,
    balance_evaluation_bins (H := first_positions) df 100 2 tt = (Saved out, tt) /\
    forall e,
      (e < 250 / 100 ->
       Z.of_nat (length (filter (fun r => EvalBin 100 r = e) out)) <= 2 /\
       (Z.of_nat (length (filter (fun r => EvalBin 100 r = e) df)) <= 2 ->
        filter (fun r => EvalBin 100 r = e) out
        = filter (fun r => EvalBin 100 r = e) df)) /\
      (250 / 100 <= e -> filter (fun r => EvalBin 100 r = e) out = []).
Proof.
  intros df. split; [apply first_positions_contract|].
  split; [lia|]. split; [lia|]. split; [reflexivity|]. split; [reflexivity|].
  split; [reflexivity|].
  apply (bins_below_the_top_respect_the_target (H := first_positions) df 100 2 tt
           10 250);
    [apply first_positions_contract|lia|lia|reflexivity|reflexivity|reflexivity].
Defined.

Lemma single_bin_saves_nothing_witness :
  let df := [position_row 1 10 10; position_row 1 10 50; position_row 0 12 60] in
  0 < 100 /\
  pd.min (map evaluation df) = Some 10 /\
  pd.max (map evaluation df) = Some 60 /\
  10 / 100 = 60 / 100 /\
  balance_evaluation_bins (H := first_positions) df 100 1000 tt
  = (Exited NoEvaluationBins, tt).
Proof.
  intros df. split; [lia|]. split; [reflexivity|]. split; [reflexivity|].
  split; [reflexivity|].
  apply (single_bin_saves_nothing (H := first_positions) df 100 1000 tt 10 60);
    [lia|reflexivity|reflexivity|reflexivity].
Defined.

Lemma histogram_bins_cover_every_evaluation_witness :
  let df := [position_row 1 10 (-130); position_row 0 12 49; position_row 1 3 200] in
  evaluation_histogram_bins df = Some [-150; -100; -50; 0; 50; 100; 150; 200; 250] /\
  exists (first : Z) (k : nat),
    [-150; -100; -50; 0; 50; 100; 150; 200; 250]
    = map (fun i => first + Z.of_nat i * 50) (seq 0 (k + 2)) /\
    first mod 50 = 0 /\
    Forall (fun r => first <= evaluation r < first + (Z.of_nat k + 1) * 50) df.
Proof.
  intros df. split; [reflexivity|].
  apply (histogram_bins_cover_every_evaluation df
           [-150; -100; -50; 0; 50; 100; 150; 200; 250]).
  reflexivity.
Defined.

Lemma side_to_move_counts_add_up_witness :
  let df := [position_row 1 10 (-130); position_row 0 12 49; position_row 1 3 0] in
  let s := generate_histograms_statistics df in
  Forall (fun r => (is_white_to_move r = 1 /\ is_black_to_move r = 0) \/
                   (is_white_to_move r = 0 /\ is_black_to_move r = 1)) df /\
  white_to_move_count s + black_to_move_count s = Z.of_nat (length df) /\
  (white_move_good_for_white s + white_move_good_for_black s
   + black_move_good_for_white s + black_move_good_for_black s
   + neutral_positions_count s)%nat = length df.
Proof.
  intros df s.
  assert (Forall (fun r => (is_white_to_move r = 1 /\ is_black_to_move r = 0) \/
                           (is_white_to_move r = 0 /\ is_black_to_move r = 1)) df)
    as Hflags.
  { repeat constructor; (left; split; reflexivity) || (right; split; reflexivity). }
  split; [exact Hflags|].
  exact (side_to_move_counts_add_up df Hflags).
Defined.
